(** * Client identity resolution of [searx.botdetection._helpers]

    A shallow embedding of [searx/botdetection/_helpers.py]:
    [dump_request], [too_many_requests], [get_network],
    [_log_error_only_once] and [get_real_ip], together with the parts of
    Python's [str] and [ipaddress] that these functions call.

    Python strings are modelled as [string]; header values reach the
    program decoded as latin-1, so one [ascii] is one code point.
    Integers are [Z].  The logger and the module-level list
    [_logged_errors] form the mutable world that is threaded through
    the stateful functions. *)

From Stdlib Require Import ZArith List String Ascii Bool Lia.
From Stdlib Require Import DecimalString HexadecimalString.
From Stdlib Require DecimalPos.
Import ListNotations.
Local Open Scope string_scope.
Local Open Scope Z_scope.

(** ** Python built-ins used by the module *)

Module Py.

(** [str.isspace] on one code point below 256. *)
Definition isspace (c : ascii) : bool :=
  let n := nat_of_ascii c in
  ((9 <=? n) && (n <=? 13) || (28 <=? n) && (n <=? 32)
   || (n =? 133) || (n =? 160))%nat.

(** [s.split(sep)] for a one-character separator: always at least one piece. *)
Fixpoint split (sep : ascii) (s : string) : list string :=
  match s with
  | EmptyString => [EmptyString]
  | String c s' =>
      if Ascii.eqb c sep then EmptyString :: split sep s'
      else match split sep s' with
           | [] => [String c EmptyString]
           | p :: ps => String c p :: ps
           end
  end.

(** [sep.join(parts)]. *)
Fixpoint join (sep : string) (parts : list string) : string :=
  match parts with
  | [] => EmptyString
  | [p] => p
  | p :: ps => p ++ sep ++ join sep ps
  end.

Fixpoint lstrip (s : string) : string :=
  match s with
  | EmptyString => EmptyString
  | String c s' => if isspace c then lstrip s' else s
  end.

Fixpoint rstrip (s : string) : string :=
  match s with
  | EmptyString => EmptyString
  | String c s' =>
      match rstrip s' with
      | EmptyString => if isspace c then EmptyString else String c EmptyString
      | r => String c r
      end
  end.

(** [s.strip()] with no argument. *)
Definition strip (s : string) : string := rstrip (lstrip s).

(** [c in s] for a character. *)
Fixpoint contains (c : ascii) (s : string) : bool :=
  match s with
  | EmptyString => false
  | String d s' => Ascii.eqb d c || contains c s'
  end.

(** [len(l)] as a Python integer. *)
Definition len {A} (l : list A) : Z := Z.of_nat (List.length l).

(** [l[i]]: a negative index counts from the end; outside the list
    Python raises [IndexError], here [None]. *)
Definition index {A} (l : list A) (i : Z) : option A :=
  let j := if i <? 0 then i + len l else i in
  if (0 <=? j) && (j <? len l) then nth_error l (Z.to_nat j) else None.

(** A value that is [None] or a [str]. *)
Definition optstr := option string.

(** Truth value of such a value: [None] and [''] are false. *)
Definition truthy (v : optstr) : bool :=
  match v with
  | None => false
  | Some EmptyString => false
  | Some _ => true
  end.

(** [a != b]. *)
Definition neq (a b : optstr) : bool :=
  match a, b with
  | None, None => false
  | Some x, Some y => negb (String.eqb x y)
  | _, _ => true
  end.

(** [a or b]. *)
Definition or_ (a b : optstr) : optstr := if truthy a then a else b.

(** [str(v)], also what ["%s"] and an f-string field render. *)
Definition str (v : optstr) : string :=
  match v with
  | None => "None"
  | Some s => s
  end.

(** [c.lower()] on ASCII letters. *)
Definition lower_ascii (c : ascii) : ascii :=
  let n := nat_of_ascii c in
  if ((65 <=? n) && (n <=? 90))%nat then ascii_of_nat (n + 32) else c.

Fixpoint lower (s : string) : string :=
  match s with
  | EmptyString => EmptyString
  | String c s' => String (lower_ascii c) (lower s')
  end.

End Py.

(** The exceptions that the modelled code can raise; the two address
    errors of [ipaddress] are subclasses of [ValueError]. *)
Inductive exn := IndexError | ValueError | AddressValueError | NetmaskValueError.

(** ** Python's [ipaddress] module

    The parts of the standard library module that the program calls:
    parsing and printing of IPv4 and IPv6 addresses, [ip_address] and
    [ip_network], as in CPython 3.9.5 to 3.12. *)

Module Ipaddress.

Definition result (A : Type) : Type := (exn + A)%type.

Definition and_then {A B} (m : result A) (k : A -> result B) : result B :=
  match m with
  | inl e => inl e
  | inr a => k a
  end.

Notation "'let!' x ':=' m 'in' k" := (and_then m (fun x => k))
  (at level 10, x name, m at level 100, k at level 200).
Notation "'let!' ' p ':=' m 'in' k" := (and_then m (fun x => match x with p => k end))
  (at level 10, p pattern, m at level 100, k at level 200).

(** [try: m  except ValueError: raise e] where every error of [m] is a
    [ValueError] or one of its subclasses. *)
Definition reraise {A} (e : exn) (m : result A) : result A :=
  match m with
  | inl _ => inl e
  | inr a => inr a
  end.

Fixpoint all (p : ascii -> bool) (s : string) : bool :=
  match s with
  | EmptyString => true
  | String c s' => p c && all p s'
  end.

Definition first_is (c : ascii) (s : string) : bool :=
  match s with
  | EmptyString => false
  | String d _ => Ascii.eqb d c
  end.

Definition slen (s : string) : Z := Z.of_nat (String.length s).

(** ASCII decimal digits: [c.isascii() and c.isdigit()]. *)
Definition isdigit (c : ascii) : bool :=
  let n := nat_of_ascii c in ((48 <=? n) && (n <=? 57))%nat.

(** Membership in [_HEX_DIGITS]. *)
Definition ishex (c : ascii) : bool :=
  let n := nat_of_ascii c in
  ((48 <=? n) && (n <=? 57) || (65 <=? n) && (n <=? 70) || (97 <=? n) && (n <=? 102))%nat.

Definition digit_value (c : ascii) : Z :=
  let n := Z.of_nat (nat_of_ascii c) in
  if n <=? 57 then n - 48 else if n <=? 70 then n - 55 else n - 87.

Fixpoint int_acc (base acc : Z) (s : string) : Z :=
  match s with
  | EmptyString => acc
  | String c s' => int_acc base (acc * base + digit_value c) s'
  end.

(** [int(s, base)] on a non-empty string of digits of that base. *)
Definition int (s : string) (base : Z) : Z := int_acc base 0 s.

(** [str(n)] of an integer. *)
Definition str_int (n : Z) : string :=
  DecimalString.NilZero.string_of_int (Z.to_int n).

(** ['%x' % n] for [n >= 0]. *)
Definition hex (n : Z) : string :=
  HexadecimalString.NilZero.string_of_uint (N.to_hex_uint (Z.to_N n)).

(** An address object: the integer [_ip] and, for IPv6, [_scope_id]. *)
Inductive Address :=
| IPv4Address (_ip : Z)
| IPv6Address (_ip : Z) (_scope_id : option string).

Definition version (a : Address) : Z :=
  match a with
  | IPv4Address _ => 4
  | IPv6Address _ _ => 6
  end.

Definition to_int (a : Address) : Z :=
  match a with
  | IPv4Address ip => ip
  | IPv6Address ip _ => ip
  end.

Definition max_prefixlen (a : Address) : Z :=
  match a with
  | IPv4Address _ => 32
  | IPv6Address _ _ => 128
  end.

(** A network object: [network_address] and [prefixlen]. *)
Record Network := { network_address : Address; prefixlen : Z }.

Definition IPV4LENGTH : Z := 32.
Definition IPV6LENGTH : Z := 128.
Definition ALL_ONES4 : Z := 2 ^ IPV4LENGTH - 1.
Definition ALL_ONES6 : Z := 2 ^ IPV6LENGTH - 1.
Definition HEXTET_COUNT : nat := 8.

(** *** IPv4 *)

Definition _parse_octet (octet_str : string) : result Z :=
  if String.eqb octet_str "" then inl ValueError
  else if negb (all isdigit octet_str) then inl ValueError
  else if 3 <? slen octet_str then inl ValueError
  else if negb (String.eqb octet_str "0") && first_is "0" octet_str then inl ValueError
  else
    let octet_int := int octet_str 10 in
    if 255 <? octet_int then inl ValueError else inr octet_int.

Fixpoint map_result {A B} (f : A -> result B) (l : list A) : result (list B) :=
  match l with
  | [] => inr []
  | x :: xs =>
      let! y := f x in
      let! ys := map_result f xs in
      inr (y :: ys)
  end.

(** [int.from_bytes(bs, 'big')]. *)
Definition from_bytes (bs : list Z) : Z := fold_left (fun acc b => acc * 256 + b) bs 0.

(** [n.to_bytes(4, 'big')]. *)
Definition to_bytes4 (n : Z) : list Z :=
  [Z.land (Z.shiftr n 24) 255; Z.land (Z.shiftr n 16) 255;
   Z.land (Z.shiftr n 8) 255; Z.land n 255].

Definition v4_ip_int_from_string (ip_str : string) : result Z :=
  if String.eqb ip_str "" then inl AddressValueError
  else
    let octets := Py.split "." ip_str in
    if negb (Py.len octets =? 4) then inl AddressValueError
    else
      let! bs := reraise AddressValueError (map_result _parse_octet octets) in
      inr (from_bytes bs).

Definition v4_string_from_ip_int (ip_int : Z) : string :=
  Py.join "." (map str_int (to_bytes4 ip_int)).

(** [IPv4Address(address)._ip] for a string. *)
Definition IPv4Address_ip (address : string) : result Z :=
  if Py.contains "/" address then inl AddressValueError
  else v4_ip_int_from_string address.

(** *** IPv6 *)

Definition _parse_hextet (hextet_str : string) : result Z :=
  if negb (all ishex hextet_str) then inl ValueError
  else if 4 <? slen hextet_str then inl ValueError
  else if String.eqb hextet_str "" then inl ValueError
  else inr (int hextet_str 16).

(** The loop that looks for one ['::'] away from the end points; [i] is
    the index of the head of [interior]. *)
Fixpoint find_skip (interior : list string) (i : nat) (skip_index : option nat)
  : result (option nat) :=
  match interior with
  | [] => inr skip_index
  | p :: rest =>
      if String.eqb p "" then
        match skip_index with
        | Some _ => inl AddressValueError
        | None => find_skip rest (S i) (Some i)
        end
      else find_skip rest (S i) skip_index
  end.

(** The two loops [ip_int <<= 16; ip_int |= _parse_hextet(part)]. *)
Fixpoint parse_hextets (ip_int : Z) (parts : list string) : result Z :=
  match parts with
  | [] => inr ip_int
  | p :: ps =>
      let! h := _parse_hextet p in
      parse_hextets (Z.lor (Z.shiftl ip_int 16) h) ps
  end.

(** The second half of [_ip_int_from_string], from the search for
    ['::'] on, once [parts] is settled. *)
Definition v6_ip_int_from_parts (parts : list string) : result Z :=
  let n := List.length parts in
  let! skip_index := find_skip (firstn (n - 2) (skipn 1 parts)) 1 None in
  let! '(parts_hi, parts_lo, parts_skipped) :=
    match skip_index with
    | Some skip_index =>
        let parts_hi := skip_index in
        let parts_lo := (n - skip_index - 1)%nat in
        let! parts_hi :=
          (if String.eqb (hd "" parts) "" then
             let parts_hi := (parts_hi - 1)%nat in
             if negb (parts_hi =? 0)%nat then inl AddressValueError
             else inr parts_hi
           else inr parts_hi) in
        let! parts_lo :=
          (if String.eqb (last parts "") "" then
             let parts_lo := (parts_lo - 1)%nat in
             if negb (parts_lo =? 0)%nat then inl AddressValueError
             else inr parts_lo
           else inr parts_lo) in
        let parts_skipped := (HEXTET_COUNT - (parts_hi + parts_lo))%nat in
        if (parts_skipped <? 1)%nat then inl AddressValueError
        else inr (parts_hi, parts_lo, parts_skipped)
    | None =>
        if negb (n =? HEXTET_COUNT)%nat then inl AddressValueError
        else if String.eqb (hd "" parts) "" then inl AddressValueError
        else if String.eqb (last parts "") "" then inl AddressValueError
        else inr (n, 0%nat, 0%nat)
    end in
  reraise AddressValueError
    (let! ip_int := parse_hextets 0 (firstn parts_hi parts) in
     let ip_int := Z.shiftl ip_int (16 * Z.of_nat parts_skipped) in
     parse_hextets ip_int (skipn (n - parts_lo) parts)).

Definition v6_ip_int_from_string (ip_str : string) : result Z :=
  if String.eqb ip_str "" then inl AddressValueError
  else
    let parts := Py.split ":" ip_str in
    if Py.len parts <? 3 then inl AddressValueError
    else
      let! parts :=
        (if Py.contains "." (last parts "") then
           let! ipv4_int := reraise AddressValueError (IPv4Address_ip (last parts "")) in
           inr (removelast parts
                  ++ [hex (Z.land (Z.shiftr ipv4_int 16) 65535);
                      hex (Z.land ipv4_int 65535)])%list
         else inr parts) in
      if Z.of_nat HEXTET_COUNT + 1 <? Py.len parts then inl AddressValueError
      else v6_ip_int_from_parts parts.

(** [ip_str.partition('%')]. *)
Fixpoint partition_percent (s : string) : string * bool * string :=
  match s with
  | EmptyString => (EmptyString, false, EmptyString)
  | String c s' =>
      if Ascii.eqb c "%" then (EmptyString, true, s')
      else let '(a, sep, b) := partition_percent s' in (String c a, sep, b)
  end.

Definition _split_scope_id (ip_str : string) : result (string * option string) :=
  let '(addr, sep, scope_id) := partition_percent ip_str in
  if negb sep then inr (addr, None)
  else if String.eqb scope_id "" || Py.contains "%" scope_id then inl AddressValueError
  else inr (addr, Some scope_id).

(** [IPv6Address(address)] for a string. *)
Definition IPv6Address_of_string (address : string) : result Address :=
  if Py.contains "/" address then inl AddressValueError
  else
    let! '(addr_str, scope_id) := _split_scope_id address in
    let! ip := v6_ip_int_from_string addr_str in
    inr (IPv6Address ip scope_id).

(** The running state of the scan in [_compress_hextets]. *)
Record doublecolon := {
  best_doublecolon_start : Z;
  best_doublecolon_len : Z;
  doublecolon_start : Z;
  doublecolon_len : Z
}.

Fixpoint scan_hextets (st : doublecolon) (index : Z) (hextets : list string)
  : doublecolon :=
  match hextets with
  | [] => st
  | hextet :: rest =>
      let st' :=
        if String.eqb hextet "0" then
          let len := doublecolon_len st + 1 in
          let start :=
            if doublecolon_start st =? -1 then index else doublecolon_start st in
          if best_doublecolon_len st <? len then
            {| best_doublecolon_start := start; best_doublecolon_len := len;
               doublecolon_start := start; doublecolon_len := len |}
          else
            {| best_doublecolon_start := best_doublecolon_start st;
               best_doublecolon_len := best_doublecolon_len st;
               doublecolon_start := start; doublecolon_len := len |}
        else
          {| best_doublecolon_start := best_doublecolon_start st;
             best_doublecolon_len := best_doublecolon_len st;
             doublecolon_start := -1; doublecolon_len := 0 |} in
      scan_hextets st' (index + 1) rest
  end.

Definition _compress_hextets (hextets : list string) : list string :=
  let st := scan_hextets {| best_doublecolon_start := -1; best_doublecolon_len := 0;
                            doublecolon_start := -1; doublecolon_len := 0 |} 0 hextets in
  if 1 <? best_doublecolon_len st then
    let best_doublecolon_end := best_doublecolon_start st + best_doublecolon_len st in
    let hextets :=
      if best_doublecolon_end =? Py.len hextets then (hextets ++ [""])%list
      else hextets in
    let hextets :=
      (firstn (Z.to_nat (best_doublecolon_start st)) hextets
         ++ [""] ++ skipn (Z.to_nat best_doublecolon_end) hextets)%list in
    if best_doublecolon_start st =? 0 then "" :: hextets else hextets
  else hextets.

(** The eight 16-bit groups of ['%032x' % ip_int], most significant first. *)
Definition hextet_values (ip_int : Z) : list Z :=
  map (fun i => Z.land (Z.shiftr ip_int (16 * Z.of_nat (7 - i))) 65535) (seq 0 8).

(** Each group printed with ['%x']. *)
Definition hextets_of (ip_int : Z) : list string := map hex (hextet_values ip_int).

Definition v6_string_from_ip_int (ip_int : Z) : string :=
  Py.join ":" (_compress_hextets (hextets_of ip_int)).

(** [str(address)]. *)
Definition str (a : Address) : string :=
  match a with
  | IPv4Address ip => v4_string_from_ip_int ip
  | IPv6Address ip scope_id =>
      let ip_str := v6_string_from_ip_int ip in
      if Py.truthy scope_id then ip_str ++ "%" ++ Py.str scope_id else ip_str
  end.

(** [ip_address(address)] for a string. *)
Definition ip_address (address : string) : result Address :=
  match IPv4Address_ip address with
  | inr ip => inr (IPv4Address ip)
  | inl _ =>
      match IPv6Address_of_string address with
      | inr a => inr a
      | inl _ => inl ValueError
      end
  end.

(** *** Networks *)

Definition _split_optional_netmask (address : string) : result (list string) :=
  let addr := Py.split "/" address in
  if 2 <? Py.len addr then inl AddressValueError else inr addr.

Definition _ip_int_from_prefix (all_ones prefixlen : Z) : Z :=
  Z.lxor all_ones (Z.shiftr all_ones prefixlen).

Definition _prefix_from_prefix_string (max_prefixlen : Z) (prefixlen_str : string)
  : result Z :=
  if negb (all isdigit prefixlen_str && negb (String.eqb prefixlen_str ""))
  then inl NetmaskValueError
  else
    let prefixlen := int prefixlen_str 10 in
    if negb ((0 <=? prefixlen) && (prefixlen <=? max_prefixlen))
    then inl NetmaskValueError
    else inr prefixlen.

Fixpoint trailing_zero_bits (fuel : nat) (number : Z) : Z :=
  match fuel with
  | O => 0
  | S fuel' => if Z.odd number then 0 else 1 + trailing_zero_bits fuel' (Z.div2 number)
  end.

Definition _count_righthand_zero_bits (number bits : Z) : Z :=
  if number =? 0 then bits
  else Z.min bits (trailing_zero_bits (Z.to_nat bits) number).

Definition _prefix_from_ip_int (all_ones max_prefixlen ip_int : Z) : result Z :=
  let trailing_zeroes := _count_righthand_zero_bits ip_int max_prefixlen in
  let prefixlen := max_prefixlen - trailing_zeroes in
  let leading_ones := Z.shiftr ip_int trailing_zeroes in
  let all_ones := Z.shiftl 1 prefixlen - 1 in
  if negb (leading_ones =? all_ones) then inl ValueError else inr prefixlen.

(** A netmask or host mask in dotted form, IPv4 only. *)
Definition _prefix_from_ip_string (ip_str : string) : result Z :=
  let! ip_int := reraise NetmaskValueError (v4_ip_int_from_string ip_str) in
  match _prefix_from_ip_int ALL_ONES4 IPV4LENGTH ip_int with
  | inr p => inr p
  | inl _ =>
      let ip_int := Z.lxor ip_int ALL_ONES4 in
      reraise NetmaskValueError (_prefix_from_ip_int ALL_ONES4 IPV4LENGTH ip_int)
  end.

Definition v4_make_netmask (arg : string) : result Z :=
  match _prefix_from_prefix_string IPV4LENGTH arg with
  | inr p => inr p
  | inl _ => _prefix_from_ip_string arg
  end.

Definition v6_make_netmask (arg : string) : result Z :=
  _prefix_from_prefix_string IPV6LENGTH arg.

(** [IPv4Network(address, strict)] for a string. *)
Definition IPv4Network_of_string (address : string) (strict : bool) : result Network :=
  let! parts := _split_optional_netmask address in
  let! packed := IPv4Address_ip (hd "" parts) in
  let! prefixlen :=
    match parts with
    | [_; mask] => v4_make_netmask mask
    | _ => inr IPV4LENGTH
    end in
  let netmask := _ip_int_from_prefix ALL_ONES4 prefixlen in
  if negb (Z.land packed netmask =? packed) then
    if strict then inl ValueError
    else inr {| network_address := IPv4Address (Z.land packed netmask);
                prefixlen := prefixlen |}
  else inr {| network_address := IPv4Address packed; prefixlen := prefixlen |}.

(** [IPv6Network(address, strict)] for a string. *)
Definition IPv6Network_of_string (address : string) (strict : bool) : result Network :=
  let! parts := _split_optional_netmask address in
  let! network_address := IPv6Address_of_string (hd "" parts) in
  let! prefixlen :=
    match parts with
    | [_; mask] => v6_make_netmask mask
    | _ => inr IPV6LENGTH
    end in
  let netmask := _ip_int_from_prefix ALL_ONES6 prefixlen in
  let packed := to_int network_address in
  if negb (Z.land packed netmask =? packed) then
    if strict then inl ValueError
    else inr {| network_address := IPv6Address (Z.land packed netmask) None;
                prefixlen := prefixlen |}
  else inr {| network_address := network_address; prefixlen := prefixlen |}.

Definition is_address_error (e : exn) : bool :=
  match e with
  | AddressValueError | NetmaskValueError => true
  | _ => false
  end.

(** [ip_network(address, strict)] for a string. *)
Definition ip_network (address : string) (strict : bool) : result Network :=
  match IPv4Network_of_string address strict with
  | inr n => inr n
  | inl e =>
      if is_address_error e then
        match IPv6Network_of_string address strict with
        | inr n => inr n
        | inl e' => if is_address_error e' then inl ValueError else inl e'
        end
      else inl e
  end.

(** [str(network)], which is also [network.compressed]. *)
Definition compressed (n : Network) : string :=
  str (network_address n) ++ "/" ++ str_int (prefixlen n).

End Ipaddress.

(** ** The world: logger and [_logged_errors] *)

Inductive Level := DEBUG | WARNING | ERROR.

Record LogRecord := { level : Level; message : string }.

(** [log] holds the records handed to the 'botdetection' logger, oldest
    first; [_logged_errors] is the module-level list of the source. *)
Record World := { log : list LogRecord; _logged_errors : list string }.

(** The world at process start. *)
Definition initial_world : World := {| log := []; _logged_errors := [] |}.

(** A computation reads and updates the world and returns or raises. *)
Definition M (A : Type) : Type := World -> (exn + A) * World.

Definition ret {A} (a : A) : M A := fun w => (inr a, w).
Definition raise {A} (e : exn) : M A := fun w => (inl e, w).
Definition bind {A B} (m : M A) (k : A -> M B) : M B :=
  fun w => match m w with
           | (inl e, w') => (inl e, w')
           | (inr a, w') => k a w'
           end.

Declare Scope py_scope.
Delimit Scope py_scope with py.
Notation "x <- m ;; k" := (bind m (fun x => k))
  (at level 61, m at next level, right associativity) : py_scope.
Notation "m ;; k" := (bind m (fun _ => k))
  (at level 61, right associativity) : py_scope.

(** [when c m]: an [if] statement without [else]. *)
Definition when (c : bool) (m : M unit) : M unit := if c then m else ret tt.

Definition emit (l : Level) (msg : string) : M unit :=
  fun w => (inr tt, {| log := log w ++ [{| level := l; message := msg |}];
                       _logged_errors := _logged_errors w |}).

Definition logger_debug := emit DEBUG.
Definition logger_warning := emit WARNING.
Definition logger_error := emit ERROR.

(** [x in l] on a list of strings. *)
Definition mem (x : string) (l : list string) : bool := existsb (String.eqb x) l.

(** [_logged_errors.append(err_msg)]. *)
Definition _logged_errors_append (err_msg : string) : M unit :=
  fun w => (inr tt, {| log := log w; _logged_errors := _logged_errors w ++ [err_msg] |}).

Definition _log_error_only_once (err_msg : string) : M unit :=
  fun w =>
    (when (negb (mem err_msg (_logged_errors w)))
       (logger_error err_msg ;;
        _logged_errors_append err_msg))%py w.

(** ** Requests and configuration *)

(** [request.headers]: name/value pairs; [get] compares names without case. *)
Definition Headers := list (string * string).

Fixpoint headers_get (h : Headers) (name : string) : Py.optstr :=
  match h with
  | [] => None
  | (k, v) :: h' =>
      if String.eqb (Py.lower k) (Py.lower name) then Some v else headers_get h' name
  end.

(** The configuration keys below [real_ip]. *)
Record Config := {
  real_ip_x_for : Z;
  real_ip_ipv4_prefix : Z;
  real_ip_ipv6_prefix : Z
}.

(** ** [get_network] *)

Definition get_network (real_ip : Ipaddress.Address) (cfg : Config)
  : Ipaddress.result Ipaddress.Network :=
  let prefix :=
    if Ipaddress.version real_ip =? 6 then real_ip_ipv6_prefix cfg
    else real_ip_ipv4_prefix cfg in
  Ipaddress.ip_network (Ipaddress.str real_ip ++ "/" ++ Ipaddress.str_int prefix) false.

(** The address arrives as a string: [ip_address] builds the object that
    [get_network] takes. *)
Definition network_of_string (real_ip : string) (cfg : Config)
  : Ipaddress.result Ipaddress.Network :=
  Ipaddress.and_then (Ipaddress.ip_address real_ip) (fun a => get_network a cfg).

(** ** [too_many_requests] *)

(** What [flask.make_response((body, status))] builds. *)
Record Response := { data : string; status_code : Z }.

Definition make_response (rv : string * Z) : Response :=
  {| data := fst rv; status_code := snd rv |}.

Definition too_many_requests (network : Ipaddress.Network) (log_msg : string)
  : M Response :=
  (logger_debug ("BLOCK " ++ Ipaddress.compressed network ++ ": " ++ log_msg) ;;
   ret (make_response ("Too Many Requests", 429)))%py.

(** *** Reading the log *)

Definition record (l : Level) (msg : string) : LogRecord :=
  {| level := l; message := msg |}.

Definition level_eqb (a b : Level) : bool :=
  match a, b with
  | DEBUG, DEBUG | WARNING, WARNING | ERROR, ERROR => true
  | _, _ => false
  end.

(** The messages logged at severity [l], oldest first. *)
Definition messages_at (l : Level) (records : list LogRecord) : list string :=
  map message (filter (fun r => level_eqb (level r) l) records).

(** How often [msg] was logged at severity [l]. *)
Definition times_logged (l : Level) (msg : string) (records : list LogRecord) : nat :=
  List.length (filter (String.eqb msg) (messages_at l records)).

(** The records that a run from [w] to [w'] added. *)
Definition emitted (w w' : World) : list LogRecord :=
  skipn (List.length (log w)) (log w').

(** The world after [_log_error_only_once msg]. *)
Definition once (msg : string) (w : World) : World :=
  if mem msg (_logged_errors w) then w
  else {| log := log w ++ [record ERROR msg];
          _logged_errors := _logged_errors w ++ [msg] |}.

(** The world after [logger.warning] under a condition. *)
Definition warned (c : bool) (msg : string) (w : World) : World :=
  if c then {| log := log w ++ [record WARNING msg];
               _logged_errors := _logged_errors w |}
  else w.

(** Passing each message of a list to [_log_error_only_once] in turn. *)
Fixpoint log_errors_only_once (msgs : list string) : M unit :=
  match msgs with
  | [] => ret tt
  | m :: ms => (_log_error_only_once m ;; log_errors_only_once ms)%py
  end.

Section Request.

(** [request.form] is a multi-dict of the web framework; its type and
    its rendering in an f-string are left open. *)
Variable Form : Type.
Variable form_str : Form -> string.

Record Request := {
  path : string;
  headers : Headers;
  form : Form;
  remote_addr : Py.optstr
}.

(** ** [dump_request] *)

Definition dump_request (request : Request) : string :=
  (((((((((path request ++ " || X-Forwarded-For: "
             ++ Py.str (headers_get (headers request) "X-Forwarded-For"))
          ++ (" || X-Real-IP: " ++ Py.str (headers_get (headers request) "X-Real-IP")))
         ++ (" || form: " ++ form_str (form request)))
        ++ (" || Accept: " ++ Py.str (headers_get (headers request) "Accept")))
       ++ (" || Accept-Language: "
             ++ Py.str (headers_get (headers request) "Accept-Language")))
      ++ (" || Accept-Encoding: "
            ++ Py.str (headers_get (headers request) "Accept-Encoding")))
     ++ (" || Content-Type: " ++ Py.str (headers_get (headers request) "Content-Type")))
    ++ (" || Content-Length: "
          ++ Py.str (headers_get (headers request) "Content-Length")))
   ++ (" || Connection: " ++ Py.str (headers_get (headers request) "Connection")))
  ++ (" || User-Agent: " ++ Py.str (headers_get (headers request) "User-Agent")).

(** *** Reading the dump *)

(** The columns of the dump, left to right. *)
Inductive Column := Path | Header (name : string) | FormData.

Definition columns : list Column :=
  [Path; Header "X-Forwarded-For"; Header "X-Real-IP"; FormData; Header "Accept";
   Header "Accept-Language"; Header "Accept-Encoding"; Header "Content-Type";
   Header "Content-Length"; Header "Connection"; Header "User-Agent"].

(** What one column shows for a request. *)
Definition render (request : Request) (c : Column) : string :=
  match c with
  | Path => path request
  | Header name => name ++ ": " ++ Py.str (headers_get (headers request) name)
  | FormData => "form: " ++ form_str (form request)
  end.

(** ** [get_real_ip] *)

(** The statement [forwarded_for = forwarded_for[-min(len(forwarded_for), x_for)]]
    on the split and stripped header. *)
Definition select_forwarded_for (forwarded_for : string) (x_for : Z) : option string :=
  let forwarded_for := map Py.strip (Py.split ","%char forwarded_for) in
  Py.index forwarded_for (- Z.min (Py.len forwarded_for) x_for).

Definition warn_real_ip_vs_forwarded_for (real_ip forwarded_for : Py.optstr) : string :=
  "IP from X-Real-IP (" ++ Py.str real_ip
    ++ ") is not equal to IP from X-Forwarded-For (" ++ Py.str forwarded_for ++ ")".

Definition warn_remote_addr_vs_forwarded_for (remote_addr forwarded_for : Py.optstr) : string :=
  "IP from WSGI environment (" ++ Py.str remote_addr
    ++ ") is not equal to IP from X-Forwarded-For (" ++ Py.str forwarded_for ++ ")".

Definition warn_remote_addr_vs_real_ip (remote_addr real_ip : Py.optstr) : string :=
  "IP from WSGI environment (" ++ Py.str remote_addr
    ++ ") is not equal to IP from X-Real-IP (" ++ Py.str real_ip ++ ")".

Definition get_real_ip (cfg : Config) (request : Request) : M string :=
  (let forwarded_for := headers_get (headers request) "X-Forwarded-For" in
   let real_ip := headers_get (headers request) "X-Real-IP" in
   let remote_addr := remote_addr request in
   forwarded_for <-
     (if negb (Py.truthy forwarded_for) then
        _log_error_only_once "X-Forwarded-For header is not set!" ;;
        ret forwarded_for
      else
        let x_for := real_ip_x_for cfg in
        match select_forwarded_for (Py.str forwarded_for) x_for with
        | None => raise IndexError
        | Some e => ret (Some e)
        end) ;;
   when (negb (Py.truthy real_ip))
     (_log_error_only_once "X-Real-IP header is not set!") ;;
   when (Py.truthy forwarded_for && Py.truthy real_ip && Py.neq forwarded_for real_ip)
     (logger_warning (warn_real_ip_vs_forwarded_for real_ip forwarded_for)) ;;
   when (Py.truthy forwarded_for && Py.truthy remote_addr
         && Py.neq forwarded_for remote_addr)
     (logger_warning (warn_remote_addr_vs_forwarded_for remote_addr forwarded_for)) ;;
   when (Py.truthy real_ip && Py.truthy remote_addr && Py.neq real_ip remote_addr)
     (logger_warning (warn_remote_addr_vs_real_ip remote_addr real_ip)) ;;
   ret (Py.str (Py.or_ forwarded_for
                 (Py.or_ real_ip (Py.or_ remote_addr (Some "0.0.0.0"))))))%py.

(** *** Reading the resolver

    The names below are used to state what [get_real_ip] does; they say
    nothing about how it is computed. *)

(** The entry of the header that the trust depth designates: index
    [max(0, n - x_for)] of the stripped pieces; the header value itself
    when it is missing or empty. *)
Definition chain_candidate (cfg : Config) (request : Request) : Py.optstr :=
  let header := headers_get (headers request) "X-Forwarded-For" in
  if Py.truthy header then
    let entries := map Py.strip (Py.split ","%char (Py.str header)) in
    nth_error entries (Z.to_nat (Z.max 0 (Py.len entries - real_ip_x_for cfg)))
  else header.

(** The first candidate that is neither [None] nor empty, else the sentinel. *)
Fixpoint first_non_empty (candidates : list Py.optstr) (sentinel : string) : string :=
  match candidates with
  | [] => sentinel
  | c :: cs => if Py.truthy c then Py.str c else first_non_empty cs sentinel
  end.

(** Two candidates are both present, both non-empty, and differ as strings. *)
Definition disagree (a b : Py.optstr) : bool :=
  Py.truthy a && Py.truthy b && Py.neq a b.

(** The warnings that the three cross-checks call for, in program order. *)
Definition pair_warnings (forwarded_for real_ip remote_addr : Py.optstr) : list string :=
  ((if disagree forwarded_for real_ip
    then [warn_real_ip_vs_forwarded_for real_ip forwarded_for] else [])
   ++ (if disagree forwarded_for remote_addr
       then [warn_remote_addr_vs_forwarded_for remote_addr forwarded_for] else [])
   ++ (if disagree real_ip remote_addr
       then [warn_remote_addr_vs_real_ip remote_addr real_ip] else []))%list.

Definition forwarded_for_header (request : Request) : Py.optstr :=
  headers_get (headers request) "X-Forwarded-For".

Definition real_ip_header (request : Request) : Py.optstr :=
  headers_get (headers request) "X-Real-IP".

(** The world after the two missing-header diagnostics. *)
Definition diagnosed (request : Request) (w : World) : World :=
  let w1 :=
    if Py.truthy (forwarded_for_header request) then w
    else once "X-Forwarded-For header is not set!" w in
  if Py.truthy (real_ip_header request) then w1
  else once "X-Real-IP header is not set!" w1.

(** The world after the three cross-checks. *)
Definition cross_checked (f r a : Py.optstr) (w : World) : World :=
  warned (disagree r a) (warn_remote_addr_vs_real_ip a r)
    (warned (disagree f a) (warn_remote_addr_vs_forwarded_for a f)
       (warned (disagree f r) (warn_real_ip_vs_forwarded_for r f) w)).

End Request.

Arguments path {Form} _.
Arguments headers {Form} _.
Arguments form {Form} _.
Arguments remote_addr {Form} _.
Arguments dump_request {Form} form_str request.
Arguments get_real_ip {Form} cfg request _.
Arguments chain_candidate {Form} cfg request.
Arguments forwarded_for_header {Form} request.
Arguments real_ip_header {Form} request.
Arguments diagnosed {Form} request w.

Arguments render {Form} form_str request c.

(** In a world kept by this module every logged error is logged once:
    a message is on record at error severity exactly when it is in
    [_logged_errors], and then a single time. *)
Definition errors_logged_once (w : World) : Prop :=
  forall msg,
    times_logged ERROR msg (log w) = if mem msg (_logged_errors w) then 1%nat else 0%nat.

(** *** Reading addresses *)


(** Two candidates spell one and the same address in different ways. *)
Definition same_address_other_spelling (x y : Py.optstr) : Prop :=
  exists s t addr,
    x = Some s /\ y = Some t /\ s <> t
    /\ Ipaddress.ip_address s = inr addr /\ Ipaddress.ip_address t = inr addr.

(** A configuration with the trust depth of one proxy. *)
Definition cfg_one_proxy : Config :=
  {| real_ip_x_for := 1; real_ip_ipv4_prefix := 32; real_ip_ipv6_prefix := 48 |}.

(** A configuration that groups clients by [/24] and [/48]. *)
Definition cfg_24_48 : Config :=
  {| real_ip_x_for := 1; real_ip_ipv4_prefix := 24; real_ip_ipv6_prefix := 48 |}.


(** A request whose three sources name one host in three spellings. *)
Definition request_three_spellings : Request unit :=
  {| path := "/search";
     headers := [("X-Forwarded-For", "203.0.113.7, 2001:db8::1");
                 ("X-Real-IP", "2001:0db8::1")];
     form := tt;
     remote_addr := Some "2001:DB8::1" |}.

(** A request without any proxy header. *)
Definition request_bare : Request unit :=
  {| path := "/"; headers := []; form := tt; remote_addr := None |}.

(** A request whose path holds a line feed, as the path [/a%0Ab] does
    once it is decoded. *)
Definition request_line_feed : Request unit :=
  {| path := "/a" ++ String "010" "b";
     headers := [];
     form := tt;
     remote_addr := None |}.

(** A request for which the framework reports an empty [Content-Type]. *)
Definition request_empty_content_type : Request unit :=
  {| path := "/";
     headers := [("Content-Type", "")];
     form := tt;
     remote_addr := None |}.

(** *** Reading the address model *)

(** What [IPv6Address] accepts as a zone: a non-empty string free of
    ['%'] and of ['/']. *)
Definition valid_scope_id (scope_id : option string) : bool :=
  match scope_id with
  | None => true
  | Some s => negb (String.eqb s "") && negb (Py.contains "%" s)
              && negb (Py.contains "/" s)
  end.

(** The address objects that exist: the integer fits the address width. *)
Definition valid_address (a : Ipaddress.Address) : bool :=
  match a with
  | Ipaddress.IPv4Address ip => (0 <=? ip) && (ip <=? Ipaddress.ALL_ONES4)
  | Ipaddress.IPv6Address ip scope_id =>
      (0 <=? ip) && (ip <=? Ipaddress.ALL_ONES6) && valid_scope_id scope_id
  end.

(** The configuration schema: prefix lengths within the address widths. *)
Definition valid_prefixes (cfg : Config) : bool :=
  (0 <=? real_ip_ipv4_prefix cfg) && (real_ip_ipv4_prefix cfg <=? 32)
  && (0 <=? real_ip_ipv6_prefix cfg) && (real_ip_ipv6_prefix cfg <=? 128).

(** The netmask of a prefix length at the width of [a]. *)
Definition netmask_for (a : Ipaddress.Address) (prefixlen : Z) : Z :=
  match a with
  | Ipaddress.IPv4Address _ =>
      Ipaddress._ip_int_from_prefix Ipaddress.ALL_ONES4 prefixlen
  | Ipaddress.IPv6Address _ _ =>
      Ipaddress._ip_int_from_prefix Ipaddress.ALL_ONES6 prefixlen
  end.

(** The network address that a non-strict network has for [a]: [a]
    itself when it has no host bits, else [a] under the netmask, and
    then without zone. *)
Definition masked (a : Ipaddress.Address) (prefixlen : Z) : Ipaddress.Address :=
  let packed := Ipaddress.to_int a in
  let netmask := netmask_for a prefixlen in
  if Z.land packed netmask =? packed then a
  else match a with
       | Ipaddress.IPv4Address _ => Ipaddress.IPv4Address (Z.land packed netmask)
       | Ipaddress.IPv6Address _ _ =>
           Ipaddress.IPv6Address (Z.land packed netmask) None
       end.

(** The result is the integer [v]. *)
Definition returns (r : Ipaddress.result Z) (v : Z) : bool :=
  match r with
  | inr x => x =? v
  | inl _ => false
  end.

(** None of the characters of [chars] occurs in [s]. *)
Fixpoint free_of (chars : string) (s : string) : bool :=
  match chars with
  | EmptyString => true
  | String c rest => negb (Py.contains c s) && free_of rest s
  end.

(** One octet prints to digits that parse back to it. *)
Definition octet_ok (o : Z) : bool :=
  returns (Ipaddress._parse_octet (Ipaddress.str_int o)) o
  && free_of "./" (Ipaddress.str_int o).

(** One 16-bit group prints to hexadecimal digits that parse back to it,
    and prints as [0] only when it is zero. *)
Definition hextet_ok (h : Z) : bool :=
  returns (Ipaddress._parse_hextet (Ipaddress.hex h)) h
  && free_of ":./%" (Ipaddress.hex h)
  && Bool.eqb (String.eqb (Ipaddress.hex h) "0") (h =? 0).

(** One prefix length prints to digits that [_make_netmask] reads back. *)
Definition prefix_ok (p : Z) : bool :=
  returns (Ipaddress.v6_make_netmask (Ipaddress.str_int p)) p
  && (if p <=? 32 then returns (Ipaddress.v4_make_netmask (Ipaddress.str_int p)) p
      else true)
  && free_of "/" (Ipaddress.str_int p).

(** The hextets from [start] on, [len] of them, are all ["0"]. *)
Definition zero_run (hextets : list string) (start len : Z) : Prop :=
  0 <= start /\ 0 < len /\ start + len <= Py.len hextets
  /\ forall k, start <= Z.of_nat k < start + len -> nth_error hextets k = Some "0".

(** What the scan of [_compress_hextets] knows after the hextets [seen]:
    its best run, if any, is a run of zeros, and its current run, if
    any, is a run of zeros that ends where the scan stands. *)
Definition scan_invariant (st : Ipaddress.doublecolon) (seen : list string) : Prop :=
  (Ipaddress.best_doublecolon_len st = 0
   \/ zero_run seen (Ipaddress.best_doublecolon_start st)
        (Ipaddress.best_doublecolon_len st))
  /\ ((Ipaddress.doublecolon_len st = 0 /\ Ipaddress.doublecolon_start st = -1)
      \/ (zero_run seen (Ipaddress.doublecolon_start st) (Ipaddress.doublecolon_len st)
          /\ Ipaddress.doublecolon_start st + Ipaddress.doublecolon_len st
             = Py.len seen)).

(** One turn of the loops of [_ip_int_from_string] on a parsed hextet. *)
Definition shift_in (ip_int hextet : Z) : Z := Z.lor (Z.shiftl ip_int 16) hextet.

(** [f] holds on the [2 ^ k] integers from [lo] on. *)
Fixpoint all_range (k : nat) (f : Z -> bool) (lo : Z) : bool :=
  match k with
  | O => f lo
  | S k' => all_range k' f lo && all_range k' f (lo + 2 ^ Z.of_nat k')
  end.

(** *** Reading a sequence of requests *)

(** The two diagnostics that [get_real_ip] passes to [_log_error_only_once]. *)
Definition diagnostics : list string :=
  ["X-Forwarded-For header is not set!"; "X-Real-IP header is not set!"].

(** The world after [get_real_ip] handled each request in turn; a request
    whose handling raised leaves the world as the exception left it. *)
Definition serve {Form : Type} (cfg : Config) (requests : list (Request Form))
    (w : World) : World :=
  fold_left (fun w request => snd (get_real_ip cfg request w)) requests w.

(** The error records of the log are the entries of [_logged_errors], in
    the same order, without repetition, and all of them diagnostics. *)
Definition diagnostics_in_order (w : World) : Prop :=
  messages_at ERROR (log w) = _logged_errors w
  /\ NoDup (_logged_errors w)
  /\ incl (_logged_errors w) diagnostics.

(** ** The Pinterest engine, [searx/engines/pinterest.py]

    Python values as the engine meets them: the decoded JSON of the
    response and the [params] dictionary.  A [str] is its sequence of
    code points; a [dict] is its items in insertion order, with at most
    one item per key. *)

Module Pinterest.

Definition str := list N.

(** A literal of the source as a [str]. *)
Definition u (s : string) : str := map N_of_ascii (list_ascii_of_string s).

Definition str_eqb (a b : str) : bool :=
  (List.length a =? List.length b)%nat && forallb (fun p => N.eqb (fst p) (snd p)) (combine a b).

Fixpoint concat (pieces : list str) : str :=
  match pieces with
  | [] => []
  | p :: ps => (p ++ concat ps)%list
  end.

(** [sep.join(pieces)]. *)
Fixpoint join (sep : str) (pieces : list str) : str :=
  match pieces with
  | [] => []
  | [p] => p
  | p :: ps => (p ++ sep ++ join sep ps)%list
  end.

Inductive error := KeyError | TypeError | AttributeError.

Definition result (A : Type) : Type := (error + A)%type.

Definition and_then {A B} (m : result A) (k : A -> result B) : result B :=
  match m with
  | inl e => inl e
  | inr a => k a
  end.

Notation "'let?' x ':=' m 'in' k" := (and_then m (fun x => k))
  (at level 10, x name, m at level 100, k at level 200).

Section Values.

(** Floating point numbers are left open: their type, their truth value,
    their [repr] and the text that [json.dumps] gives them, which differs
    from the [repr] where the number is not finite. *)
Variable Float : Type.
Variable float_bool : Float -> bool.
Variable float_repr : Float -> str.
Variable float_json : Float -> str.

#[warnings="-register-all"] Inductive value :=
| VNone
| VBool (b : bool)
| VInt (n : Z)
| VFloat (x : Float)
| VStr (s : str)
| VList (items : list value)
| VDict (items : list (str * value)).

(** [str()] of a list or a dict, which is its [repr], is left open. *)
Variable container_str : value -> str.

(** [bool(v)]. *)
Definition truth (v : value) : bool :=
  match v with
  | VNone => false
  | VBool b => b
  | VInt n => negb (n =? 0)
  | VFloat x => float_bool x
  | VStr s => negb (Nat.eqb (List.length s) 0)
  | VList items => negb (Nat.eqb (List.length items) 0)
  | VDict items => negb (Nat.eqb (List.length items) 0)
  end.

(** [a or b], with [b] evaluated only when [a] is false. *)
Definition or_else (a : value) (b : result value) : result value :=
  if truth a then inr a else b.

Fixpoint lookup (items : list (str * value)) (key : str) : option value :=
  match items with
  | [] => None
  | (k, v) :: rest => if str_eqb k key then Some v else lookup rest key
  end.

(** [d[key] = v] on the items of a dict: an item with this key keeps its
    place, a new key goes to the end. *)
Fixpoint store (items : list (str * value)) (key : str) (v : value)
  : list (str * value) :=
  match items with
  | [] => [(key, v)]
  | (k, x) :: rest =>
      if str_eqb k key then (k, v) :: rest else (k, x) :: store rest key v
  end.

(** [v[key]] with a [str] key. *)
Definition getitem (v : value) (key : str) : result value :=
  match v with
  | VDict items =>
      match lookup items key with
      | Some x => inr x
      | None => inl KeyError
      end
  | _ => inl TypeError
  end.

(** [v.get(key, default)]. *)
Definition get (v : value) (key : str) (default : value) : result value :=
  match v with
  | VDict items =>
      match lookup items key with
      | Some x => inr x
      | None => inr default
      end
  | _ => inl AttributeError
  end.

(** [v[key] = x] with a [str] key. *)
Definition setitem (v : value) (key : str) (x : value) : result value :=
  match v with
  | VDict items => inr (VDict (store items key x))
  | _ => inl TypeError
  end.

(** The values that [for x in v] runs through. *)
Definition iterate (v : value) : result (list value) :=
  match v with
  | VList items => inr items
  | VDict items => inr (map (fun kv => VStr (fst kv)) items)
  | VStr s => inr (map (fun c => VStr [c]) s)
  | _ => inl TypeError
  end.

(** [str(v)], as an f-string field renders it. *)
Definition str_of (v : value) : str :=
  match v with
  | VNone => u "None"
  | VBool true => u "True"
  | VBool false => u "False"
  | VInt n => u (Ipaddress.str_int n)
  | VFloat x => float_repr x
  | VStr s => s
  | VList _ | VDict _ => container_str v
  end.

(** *** [json.dumps] *)

(** ['{0:04x}'.format(n)]. *)
Definition hex4 (n : N) : str :=
  let digits := u (Ipaddress.hex (Z.of_N n)) in
  (repeat 48%N (4 - List.length digits)%nat ++ digits)%list.

(** The replacement of one character in [py_encode_basestring_ascii]. *)
Definition escape (c : N) : str :=
  (if c =? 92 then [92; 92]
   else if c =? 34 then [92; 34]
   else if (32 <=? c) && (c <=? 126) then [c]
   else if c =? 8 then [92; 98]
   else if c =? 12 then [92; 102]
   else if c =? 10 then [92; 110]
   else if c =? 13 then [92; 114]
   else if c =? 9 then [92; 116]
   else if c <? 65536 then [92; 117] ++ hex4 c
   else
     let n := c - 65536 in
     let s1 := N.lor 55296 (N.land (N.shiftr n 10) 1023) in
     let s2 := N.lor 56320 (N.land n 1023) in
     [92; 117] ++ hex4 s1 ++ [92; 117] ++ hex4 s2)%N%list.

Definition encode_basestring_ascii (s : str) : str :=
  (34%N :: flat_map escape s ++ [34%N])%list.

(** [json.dumps(v)] with its defaults, for dicts with [str] keys. *)
Fixpoint dumps (v : value) : str :=
  match v with
  | VNone => u "null"
  | VBool true => u "true"
  | VBool false => u "false"
  | VInt n => u (Ipaddress.str_int n)
  | VFloat x => float_json x
  | VStr s => encode_basestring_ascii s
  | VList [] => u "[]"
  | VList items => (u "[" ++ join (u ", ") (map dumps items) ++ u "]")%list
  | VDict [] => u "{}"
  | VDict items =>
      (u "{"
       ++ join (u ", ")
            (map (fun kv => (encode_basestring_ascii (fst kv) ++ u ": "
                             ++ dumps (snd kv))%list) items)
       ++ u "}")%list
  end.

(** *** The engine *)

Definition base_url : str := u "https://www.pinterest.com".

Definition request (query : str) (params : value) : result value :=
  let? engine_data := getitem params (u "engine_data") in
  let? bookmark := get engine_data (u "bookmark") (VStr (u "")) in
  let args :=
    VDict [(u "options",
            VDict [(u "query", VStr query); (u "bookmarks", VList [bookmark])]);
           (u "context", VDict [])] in
  let? params :=
    setitem params (u "url")
      (VStr (base_url ++ u "/resource/BaseSearchResource/get/?data="
                     ++ dumps args)%list) in
  inr params.

(** The dict that [response] builds for one [result]. *)
Definition result_entry (result : value) : Pinterest.result value :=
  let? link := getitem result (u "link") in
  let? url :=
    or_else link
      (let? id := getitem result (u "id") in
       inr (VStr (base_url ++ u "/pin/" ++ str_of id ++ u "/")%list)) in
  let? title := get result (u "title") VNone in
  let? title := or_else title (get result (u "grid_title") VNone) in
  let? rich_summary := get result (u "rich_summary") VNone in
  let? rich_summary := or_else rich_summary (inr (VDict [])) in
  let? description := get rich_summary (u "display_description") VNone in
  let? content := or_else description (inr (VStr (u ""))) in
  let? images := getitem result (u "images") in
  let? orig := getitem images (u "orig") in
  let? img_src := getitem orig (u "url") in
  let? images := getitem result (u "images") in
  let? small := getitem images (u "236x") in
  let? thumbnail_src := getitem small (u "url") in
  let? rich_summary := get result (u "rich_summary") VNone in
  let? rich_summary := or_else rich_summary (inr (VDict [])) in
  let? source := get rich_summary (u "site_name") VNone in
  inr (VDict [(u "template", VStr (u "images.html"));
              (u "url", url);
              (u "title", title);
              (u "content", content);
              (u "img_src", img_src);
              (u "thumbnail_src", thumbnail_src);
              (u "source", source)]).

(** The generator of [results.extend(...)], run to its end. *)
Fixpoint entries (results : list value) : Pinterest.result (list value) :=
  match results with
  | [] => inr []
  | r :: rest =>
      let? e := result_entry r in
      let? es := entries rest in
      inr (e :: es)
  end.

(** [response(resp)], on the value of [resp.json()]. *)
Definition response (json_resp : value) : Pinterest.result (list value) :=
  let? resource_response := getitem json_resp (u "resource_response") in
  let? bookmark := getitem resource_response (u "bookmark") in
  let results := [VDict [(u "engine_data", bookmark); (u "key", VStr (u "bookmark"))]] in
  let? resource_response := getitem json_resp (u "resource_response") in
  let? data := getitem resource_response (u "data") in
  let? data_results := getitem data (u "results") in
  let? data_results := iterate data_results in
  let? more := entries data_results in
  inr (results ++ more)%list.

End Values.

Arguments VNone {Float}.
Arguments VBool {Float} b.
Arguments VInt {Float} n.
Arguments VFloat {Float} x.
Arguments VStr {Float} s.
Arguments VList {Float} items.
Arguments VDict {Float} items.
Arguments lookup {Float} items key.
Arguments store {Float} items key v.
Arguments getitem {Float} v key.
Arguments get {Float} v key default.
Arguments setitem {Float} v key x.
Arguments iterate {Float} v.

(** [v[k1][k2]...], one subscript after the other. *)
Fixpoint getpath {Float : Type} (v : value Float) (keys : list str)
  : result (value Float) :=
  match keys with
  | [] => inr v
  | key :: keys => let? x := getitem v key in getpath x keys
  end.

End Pinterest.

(** *** Reading the engine *)

(** A character of printable ASCII, from the space to the tilde. *)
Definition printable (c : N) : bool := ((32 <=? c) && (c <=? 126))%N.

(** A code point that is no surrogate: what a [str] decoded from UTF-8
    is made of. *)
Definition scalar (c : N) : bool :=
  ((c <? 55296) || (57344 <=? c) && (c <? 1114112))%N.

(** The value of four lower-case hexadecimal digits. *)
Definition hex_digit_value (c : N) : N := (if c <=? 57 then c - 48 else c - 87)%N.

Definition hex4_value (a b c d : N) : N :=
  (((hex_digit_value a * 16 + hex_digit_value b) * 16 + hex_digit_value c) * 16
   + hex_digit_value d)%N.

(** The code point that the start of an escaped text stands for, and the
    text after it: the way back from [Pinterest.escape], used to show that
    escaping loses nothing. *)
Definition unescape (text : Pinterest.str) : option (N * Pinterest.str) :=
  match text with
  | [] => None
  | c :: rest =>
      if negb (c =? 92)%N then Some (c, rest)
      else
        match rest with
        | [] => None
        | e :: rest =>
            if (e =? 117)%N then
              match rest with
              | a :: b :: c :: d :: rest =>
                  let h := hex4_value a b c d in
                  if ((55296 <=? h) && (h <? 56320))%N then
                    match rest with
                    | _ :: _ :: a' :: b' :: c' :: d' :: rest =>
                        Some ((65536 + (h - 55296) * 1024
                               + (hex4_value a' b' c' d' - 56320))%N, rest)
                    | _ => None
                    end
                  else Some (h, rest)
              | _ => None
              end
            else
              Some ((if e =? 98 then 8
                     else if e =? 102 then 12
                     else if e =? 110 then 10
                     else if e =? 114 then 13
                     else if e =? 116 then 9
                     else e)%N, rest)
        end
  end.

(** [hex4] writes four digits that have the value of its argument. *)
Definition hex4_ok (n : Z) : bool :=
  match Pinterest.hex4 (Z.to_N n) with
  | [a; b; c; d] => (hex4_value a b c d =? Z.to_N n)%N
  | _ => false
  end.

(** Example data without floats: a pin as the results list holds it, with
    the given [link] and further items, and a response with these pins. *)
Definition no_float (x : Empty_set) : Pinterest.str := match x with end.

Definition example_pin (link : Pinterest.value Empty_set)
    (more : list (Pinterest.str * Pinterest.value Empty_set))
  : Pinterest.value Empty_set :=
  Pinterest.VDict
    ([(Pinterest.u "link", link);
      (Pinterest.u "id", Pinterest.VInt 42);
      (Pinterest.u "images",
       Pinterest.VDict
         [(Pinterest.u "orig",
           Pinterest.VDict [(Pinterest.u "url", Pinterest.VStr (Pinterest.u "o.jpg"))]);
          (Pinterest.u "236x",
           Pinterest.VDict [(Pinterest.u "url", Pinterest.VStr (Pinterest.u "s.jpg"))])])]
     ++ more)%list.

Definition example_json (pins : list (Pinterest.value Empty_set))
  : Pinterest.value Empty_set :=
  Pinterest.VDict
    [(Pinterest.u "resource_response",
      Pinterest.VDict
        [(Pinterest.u "bookmark", Pinterest.VStr (Pinterest.u "abc"));
         (Pinterest.u "data",
          Pinterest.VDict [(Pinterest.u "results", Pinterest.VList pins)])])].

(** * Properties *)

(** ** Strings, lists and indices *)

Lemma append_assoc (s1 s2 s3 : string) : (s1 ++ s2) ++ s3 = s1 ++ (s2 ++ s3).
Proof. induction s1 as [|c s1 IH]; simpl; [reflexivity | now rewrite IH]. Qed.

Lemma append_nil_r (s : string) : s ++ "" = s.
Proof. induction s as [|c s IH]; simpl; [reflexivity | now rewrite IH]. Qed.

Lemma split_not_nil (sep : ascii) (s : string) : Py.split sep s <> [].
Proof.
  induction s as [|c s IH]; simpl; [discriminate|].
  destruct (Ascii.eqb c sep); [discriminate|].
  destruct (Py.split sep s); [contradiction | discriminate].
Qed.

Lemma len_pos {A} (l : list A) : l <> [] -> 1 <= Py.len l.
Proof. destruct l; [contradiction | unfold Py.len; simpl; lia]. Qed.

(** Counting [x] entries back from the end of a non-empty list, clamped
    at the front, is index [max(0, n - x)], and that entry exists. *)
Lemma index_from_end {A} (l : list A) (x : Z) :
  l <> [] -> 1 <= x ->
  Py.index l (- Z.min (Py.len l) x) = nth_error l (Z.to_nat (Z.max 0 (Py.len l - x)))
  /\ exists e, nth_error l (Z.to_nat (Z.max 0 (Py.len l - x))) = Some e.
Proof.
  intros Hl Hx. pose proof (len_pos l Hl) as Hn.
  assert (Hlt : (Z.to_nat (Z.max 0 (Py.len l - x)) < List.length l)%nat)
    by (unfold Py.len in *; lia).
  split.
  - unfold Py.index.
    replace (- Z.min (Py.len l) x <? 0) with true by (symmetry; apply Z.ltb_lt; lia).
    replace (- Z.min (Py.len l) x + Py.len l) with (Z.max 0 (Py.len l - x)) by lia.
    replace (0 <=? Z.max 0 (Py.len l - x)) with true by (symmetry; apply Z.leb_le; lia).
    replace (Z.max 0 (Py.len l - x) <? Py.len l) with true
      by (symmetry; apply Z.ltb_lt; lia).
    reflexivity.
  - destruct (nth_error l (Z.to_nat (Z.max 0 (Py.len l - x)))) as [e|] eqn:E.
    + now exists e.
    + apply nth_error_None in E. lia.
Qed.

(** ** Runs of the logging primitives *)

Lemma _log_error_only_once_run (msg : string) (w : World) :
  _log_error_only_once msg w = (inr tt, once msg w).
Proof.
  unfold _log_error_only_once, once, when.
  destruct (mem msg (_logged_errors w)); reflexivity.
Qed.

Lemma logger_warning_run (c : bool) (msg : string) (w : World) :
  when c (logger_warning msg) w = (inr tt, warned c msg w).
Proof. destruct c; reflexivity. Qed.

Lemma log_once (msg : string) (w : World) :
  log (once msg w) =
  (log w ++ if mem msg (_logged_errors w) then [] else [record ERROR msg])%list.
Proof.
  unfold once. destruct (mem msg (_logged_errors w)); simpl;
    [now rewrite app_nil_r | reflexivity].
Qed.

Lemma log_warned (c : bool) (msg : string) (w : World) :
  log (warned c msg w) = (log w ++ if c then [record WARNING msg] else [])%list.
Proof. destruct c; simpl; [reflexivity | now rewrite app_nil_r]. Qed.

Lemma logged_errors_warned (c : bool) (msg : string) (w : World) :
  _logged_errors (warned c msg w) = _logged_errors w.
Proof. now destruct c. Qed.

Lemma emitted_app (w w' : World) (l : list LogRecord) :
  log w' = (log w ++ l)%list -> emitted w w' = l.
Proof.
  intros E. unfold emitted. rewrite E.
  rewrite skipn_app, skipn_all, Nat.sub_diag. reflexivity.
Qed.

Lemma messages_at_app (l : Level) (a b : list LogRecord) :
  messages_at l (a ++ b) = (messages_at l a ++ messages_at l b)%list.
Proof. unfold messages_at. now rewrite filter_app, map_app. Qed.

Lemma times_logged_app (l : Level) (msg : string) (a b : list LogRecord) :
  times_logged l msg (a ++ b) = (times_logged l msg a + times_logged l msg b)%nat.
Proof.
  unfold times_logged. now rewrite messages_at_app, filter_app, length_app.
Qed.

Lemma mem_app (m x : string) (l : list string) :
  mem m (l ++ [x]) = mem m l || String.eqb m x.
Proof. unfold mem. rewrite existsb_app. simpl. now rewrite orb_false_r. Qed.

Lemma append_inj_l (s t1 t2 : string) : s ++ t1 = s ++ t2 -> t1 = t2.
Proof.
  induction s as [|c s IH]; simpl; intros H; [exact H|].
  injection H as H. now apply IH.
Qed.

(** The initial world has logged nothing, so every error is logged once. *)
Lemma initial_world_once : errors_logged_once initial_world.
Proof. intros msg. reflexivity. Qed.

Lemma once_keeps_once (msg : string) (w : World) :
  errors_logged_once w -> errors_logged_once (once msg w).
Proof.
  intros Hw m. unfold once.
  destruct (mem msg (_logged_errors w)) eqn:Hm; [apply Hw|].
  simpl. rewrite times_logged_app, mem_app, Hw.
  unfold times_logged, messages_at. simpl.
  destruct (String.eqb_spec m msg) as [->|Hne].
  - rewrite Hm. reflexivity.
  - rewrite orb_false_r. destruct (mem m (_logged_errors w)); reflexivity.
Qed.

Lemma warned_keeps_once (c : bool) (msg : string) (w : World) :
  errors_logged_once w -> errors_logged_once (warned c msg w).
Proof.
  intros Hw m. destruct c; [|apply Hw].
  simpl. rewrite times_logged_app, Hw.
  unfold times_logged, messages_at. simpl. apply Nat.add_0_r.
Qed.

Lemma once_remembers (msg : string) (w : World) :
  mem msg (_logged_errors (once msg w)) = true.
Proof.
  unfold once. destruct (mem msg (_logged_errors w)) eqn:Hm; [exact Hm|].
  simpl. rewrite mem_app, String.eqb_refl. apply orb_true_r.
Qed.

Lemma once_never_forgets (m msg : string) (w : World) :
  mem m (_logged_errors w) = true -> mem m (_logged_errors (once msg w)) = true.
Proof.
  intros Hm. unfold once. destruct (mem msg (_logged_errors w)); [exact Hm|].
  simpl. rewrite mem_app, Hm. reflexivity.
Qed.

Lemma log_errors_only_once_run (msgs : list string) (w : World) :
  log_errors_only_once msgs w = (inr tt, fold_left (fun w m => once m w) msgs w).
Proof.
  revert w. induction msgs as [|m ms IH]; intros w; simpl; [reflexivity|].
  unfold bind. rewrite _log_error_only_once_run. apply IH.
Qed.

Lemma fold_once_keeps_once (msgs : list string) (w : World) :
  errors_logged_once w ->
  errors_logged_once (fold_left (fun w m => once m w) msgs w).
Proof.
  revert w. induction msgs as [|m ms IH]; intros w Hw; simpl; [exact Hw|].
  apply IH. now apply once_keeps_once.
Qed.

Lemma fold_once_remembers (msgs : list string) (m : string) (w : World) :
  mem m (_logged_errors (fold_left (fun w m => once m w) msgs w))
  = mem m (_logged_errors w) || mem m msgs.
Proof.
  revert w. induction msgs as [|x xs IH]; intros w; simpl;
    [now rewrite orb_false_r|].
  rewrite IH. unfold once.
  destruct (mem x (_logged_errors w)) eqn:Hx; simpl.
  - destruct (String.eqb_spec m x) as [->|Hne]; [now rewrite Hx | reflexivity].
  - rewrite mem_app. now rewrite orb_assoc.
Qed.

(** ** The resolver, step by step *)

Section Resolver.

Variable Form : Type.
Implicit Types (cfg : Config) (request : Request Form) (w : World).

Lemma chain_candidate_selected cfg request :
  1 <= real_ip_x_for cfg ->
  Py.truthy (forwarded_for_header request) = true ->
  exists e,
    chain_candidate cfg request = Some e
    /\ select_forwarded_for (Py.str (forwarded_for_header request)) (real_ip_x_for cfg)
       = Some e.
Proof.
  intros Hx Ht. unfold chain_candidate, select_forwarded_for.
  fold (forwarded_for_header request). rewrite Ht.
  set (l := map Py.strip (Py.split "," (Py.str (forwarded_for_header request)))).
  assert (Hl : l <> []).
  { unfold l. intros E. apply map_eq_nil in E. now apply split_not_nil in E. }
  destruct (index_from_end l (real_ip_x_for cfg) Hl Hx) as [Hi [e He]].
  exists e. split; [exact He | now rewrite Hi].
Qed.

Lemma or_first_non_empty (f r a : Py.optstr) :
  Py.str (Py.or_ f (Py.or_ r (Py.or_ a (Some "0.0.0.0"))))
  = first_non_empty [f; r; a] "0.0.0.0".
Proof.
  unfold Py.or_; simpl.
  destruct (Py.truthy f); [reflexivity|].
  destruct (Py.truthy r); [reflexivity|].
  destruct (Py.truthy a); reflexivity.
Qed.

Lemma when_once_run (b : bool) (msg : string) w :
  when (negb b) (_log_error_only_once msg) w
  = (inr tt, if b then w else once msg w).
Proof. destruct b; simpl; [reflexivity | apply _log_error_only_once_run]. Qed.

(** A run with the chain header missing or empty, for any trust depth. *)
Lemma get_real_ip_run_unset cfg request w :
  Py.truthy (forwarded_for_header request) = false ->
  get_real_ip cfg request w
  = (inr (first_non_empty
            [forwarded_for_header request; real_ip_header request; remote_addr request]
            "0.0.0.0"),
     cross_checked (forwarded_for_header request) (real_ip_header request)
       (remote_addr request) (diagnosed request w)).
Proof.
  intros Hf. unfold get_real_ip, diagnosed, cross_checked, disagree.
  fold (forwarded_for_header request). fold (real_ip_header request).
  unfold bind. rewrite Hf; cbn [negb].
  rewrite _log_error_only_once_run. unfold ret at 1.
  rewrite when_once_run. repeat rewrite logger_warning_run.
  unfold ret. rewrite or_first_non_empty, ?Hf. reflexivity.
Qed.

(** One run of [get_real_ip] under a trust depth of at least one. *)
Lemma get_real_ip_run cfg request w :
  1 <= real_ip_x_for cfg ->
  get_real_ip cfg request w
  = (inr (first_non_empty
            [chain_candidate cfg request; real_ip_header request; remote_addr request]
            "0.0.0.0"),
     cross_checked (chain_candidate cfg request) (real_ip_header request)
       (remote_addr request) (diagnosed request w)).
Proof.
  intros Hx. unfold get_real_ip, diagnosed, cross_checked, disagree.
  fold (forwarded_for_header request). fold (real_ip_header request).
  unfold bind.
  destruct (Py.truthy (forwarded_for_header request)) eqn:Hf; cbn [negb].
  - destruct (chain_candidate_selected cfg request Hx Hf) as [e [Hc Hs]].
    rewrite Hc, Hs. unfold ret at 1.
    rewrite when_once_run. repeat rewrite logger_warning_run.
    unfold ret. now rewrite or_first_non_empty.
  - assert (Hc : chain_candidate cfg request = forwarded_for_header request).
    { unfold chain_candidate. fold (forwarded_for_header request). now rewrite Hf. }
    rewrite Hc, _log_error_only_once_run. unfold ret at 1.
    rewrite when_once_run. repeat rewrite logger_warning_run.
    unfold ret. now rewrite or_first_non_empty.
Qed.

(** C1: for a non-empty chain header whose stripped pieces are [n]
    entries and a trust depth [x_for >= 1], the entry that [get_real_ip]
    takes as its chain candidate is the one at index [max(0, n - x_for)],
    which is the entry at Python index [-min(n, x_for)]; that entry
    exists, and it is the first candidate of the value returned. *)
Theorem C1_chain_entry_at_clamped_index (forwarded_for : string) (x_for : Z) :
  forwarded_for <> "" ->
  1 <= x_for ->
  let entries := map Py.strip (Py.split "," forwarded_for) in
  let n := Py.len entries in
  exists e,
    nth_error entries (Z.to_nat (Z.max 0 (n - x_for))) = Some e
    /\ Py.index entries (- Z.min n x_for) = Some e
    /\ select_forwarded_for forwarded_for x_for = Some e
    /\ forall cfg request w,
         real_ip_x_for cfg = x_for ->
         forwarded_for_header request = Some forwarded_for ->
         fst (get_real_ip cfg request w)
         = inr (first_non_empty [Some e; real_ip_header request; remote_addr request]
                  "0.0.0.0").
Proof.
  intros Hne Hx entries n.
  assert (Hl : entries <> []).
  { unfold entries. intros E. apply map_eq_nil in E. now apply split_not_nil in E. }
  destruct (index_from_end entries x_for Hl Hx) as [Hi [e He]].
  exists e. fold n in Hi, He.
  split; [exact He|]. split; [now rewrite Hi|]. split.
  - unfold select_forwarded_for. fold entries. fold n. now rewrite Hi.
  - intros cfg request w Hcfg Hh.
    assert (Ht : Py.truthy (forwarded_for_header request) = true).
    { rewrite Hh. destruct forwarded_for; [contradiction | reflexivity]. }
    rewrite get_real_ip_run by lia. simpl fst.
    unfold chain_candidate. fold (forwarded_for_header request).
    rewrite Ht, Hh. simpl Py.str. fold entries. fold n. rewrite Hcfg, He.
    reflexivity.
Qed.

(** C2: under a trust depth of at least one, [get_real_ip] returns, for
    every request and every world, the first non-empty value among the
    chain candidate, the [X-Real-IP] header and the peer address, in
    this order; when all three are missing or empty it returns
    ['0.0.0.0']; it does not raise. *)
Theorem C2_first_non_empty_else_sentinel cfg request w :
  1 <= real_ip_x_for cfg ->
  fst (get_real_ip cfg request w)
  = inr (first_non_empty
           [chain_candidate cfg request; real_ip_header request; remote_addr request]
           "0.0.0.0")
  /\ (Py.truthy (chain_candidate cfg request) = false ->
      Py.truthy (real_ip_header request) = false ->
      Py.truthy (remote_addr request) = false ->
      fst (get_real_ip cfg request w) = inr "0.0.0.0").
Proof.
  intros Hx. rewrite get_real_ip_run by exact Hx. simpl fst.
  split; [reflexivity|].
  intros Hf Hr Ha. simpl. now rewrite Hf, Hr, Ha.
Qed.

(** *** What a run adds to the log *)

Lemma neq_true (a b : Py.optstr) : Py.neq a b = true <-> a <> b.
Proof.
  destruct a as [x|], b as [y|]; simpl; try (split; [discriminate | reflexivity]).
  - rewrite negb_true_iff, String.eqb_neq. split; congruence.
  - split; [discriminate | congruence].
Qed.

Lemma log_cross_checked (f r a : Py.optstr) w :
  log (cross_checked f r a w)
  = (log w ++ map (record WARNING) (pair_warnings f r a))%list.
Proof.
  unfold cross_checked, pair_warnings. rewrite !log_warned.
  destruct (disagree f r), (disagree f a), (disagree r a); simpl;
    rewrite <- ?app_assoc, ?app_nil_r; reflexivity.
Qed.

Lemma logged_errors_cross_checked (f r a : Py.optstr) w :
  _logged_errors (cross_checked f r a w) = _logged_errors w.
Proof. unfold cross_checked. now rewrite !logged_errors_warned. Qed.

Lemma messages_at_warnings (msgs : list string) :
  messages_at WARNING (map (record WARNING) msgs) = msgs.
Proof.
  unfold messages_at. induction msgs as [|m ms IH]; simpl; [reflexivity|].
  now rewrite IH.
Qed.

(** The diagnostics add error records only, none when both headers are set. *)
Lemma log_diagnosed request w :
  exists errs,
    log (diagnosed request w) = (log w ++ errs)%list
    /\ messages_at WARNING errs = []
    /\ (Py.truthy (forwarded_for_header request) = true ->
        Py.truthy (real_ip_header request) = true -> errs = []).
Proof.
  unfold diagnosed.
  destruct (Py.truthy (forwarded_for_header request)),
           (Py.truthy (real_ip_header request)).
  - exists []. rewrite app_nil_r. repeat split; reflexivity.
  - eexists. rewrite log_once. split; [reflexivity|].
    split; [|discriminate]. now destruct (mem _ _).
  - eexists. rewrite log_once. split; [reflexivity|].
    split; [|discriminate]. now destruct (mem _ _).
  - eexists. rewrite !log_once, <- app_assoc. split; [reflexivity|].
    split; [|discriminate]. rewrite messages_at_app.
    now destruct (mem _ _), (mem _ _).
Qed.

Lemma diagnosed_keeps_once request w :
  errors_logged_once w -> errors_logged_once (diagnosed request w).
Proof.
  intros Hw. unfold diagnosed.
  destruct (Py.truthy (forwarded_for_header request)),
           (Py.truthy (real_ip_header request));
    repeat apply once_keeps_once; exact Hw.
Qed.

Lemma diagnosed_never_forgets request (m : string) w :
  mem m (_logged_errors w) = true ->
  mem m (_logged_errors (diagnosed request w)) = true.
Proof.
  intros Hm. unfold diagnosed.
  destruct (Py.truthy (forwarded_for_header request)),
           (Py.truthy (real_ip_header request));
    repeat apply once_never_forgets; exact Hm.
Qed.

Lemma cross_checked_keeps_once (f r a : Py.optstr) w :
  errors_logged_once w -> errors_logged_once (cross_checked f r a w).
Proof.
  intros Hw. unfold cross_checked. repeat apply warned_keeps_once. exact Hw.
Qed.

(** The three warnings never coincide, whatever the addresses are. *)
Lemma warnings_distinct (f r a : Py.optstr) :
  NoDup [warn_real_ip_vs_forwarded_for r f;
         warn_remote_addr_vs_forwarded_for a f;
         warn_remote_addr_vs_real_ip a r].
Proof.
  unfold warn_real_ip_vs_forwarded_for, warn_remote_addr_vs_forwarded_for,
    warn_remote_addr_vs_real_ip.
  repeat constructor; simpl; try tauto.
  - intros [H|[H|[]]]; discriminate H.
  - intros [H|[]]. injection H as H. apply append_inj_l in H. discriminate H.
Qed.

Lemma chain_candidate_truthy cfg request :
  Py.truthy (chain_candidate cfg request) = true ->
  Py.truthy (forwarded_for_header request) = true.
Proof.
  unfold chain_candidate. fold (forwarded_for_header request).
  destruct (Py.truthy (forwarded_for_header request)) eqn:E; [reflexivity|].
  now rewrite E.
Qed.

(** What one run under a trust depth of at least one adds to the log. *)
Lemma emitted_get_real_ip cfg request w :
  1 <= real_ip_x_for cfg ->
  exists errs,
    emitted w (snd (get_real_ip cfg request w))
    = (errs ++ map (record WARNING)
               (pair_warnings (chain_candidate cfg request) (real_ip_header request)
                  (remote_addr request)))%list
    /\ messages_at WARNING errs = []
    /\ (Py.truthy (forwarded_for_header request) = true ->
        Py.truthy (real_ip_header request) = true -> errs = []).
Proof.
  intros Hx. rewrite get_real_ip_run by exact Hx. simpl snd.
  destruct (log_diagnosed request w) as [errs [Hd [Hw Hn]]].
  exists errs. split; [|split; assumption].
  apply emitted_app. rewrite log_cross_checked, Hd. now rewrite app_assoc.
Qed.

(** C5: a run of [get_real_ip] logs one warning for every pair of
    candidates that are both non-empty and unequal, and nothing else at
    warning severity; a second run on the same request logs them again.
    When the chain candidate, the [X-Real-IP] value and the peer address
    are all non-empty and pairwise different, the run adds exactly three
    records, all warnings, with three different messages, and returns
    the chain candidate. *)
Theorem C5_warning_for_every_unequal_pair cfg request w :
  1 <= real_ip_x_for cfg ->
  let f := chain_candidate cfg request in
  let r := real_ip_header request in
  let a := remote_addr request in
  let w' := snd (get_real_ip cfg request w) in
  let w'' := snd (get_real_ip cfg request w') in
  messages_at WARNING (emitted w w') = pair_warnings f r a
  /\ messages_at WARNING (emitted w' w'') = pair_warnings f r a
  /\ (Py.truthy f = true -> Py.truthy r = true -> Py.truthy a = true ->
      f <> r -> f <> a -> r <> a ->
      emitted w w'
      = [record WARNING (warn_real_ip_vs_forwarded_for r f);
         record WARNING (warn_remote_addr_vs_forwarded_for a f);
         record WARNING (warn_remote_addr_vs_real_ip a r)]
      /\ NoDup [warn_real_ip_vs_forwarded_for r f;
                warn_remote_addr_vs_forwarded_for a f;
                warn_remote_addr_vs_real_ip a r]
      /\ fst (get_real_ip cfg request w) = inr (Py.str f)).
Proof.
  intros Hx f r a w' w''.
  assert (Hrun : forall v,
             messages_at WARNING (emitted v (snd (get_real_ip cfg request v)))
             = pair_warnings f r a).
  { intros v. destruct (emitted_get_real_ip cfg request v Hx) as [errs [He [Hw _]]].
    rewrite He, messages_at_app, Hw. apply messages_at_warnings. }
  split; [apply Hrun|]. split; [apply Hrun|].
  intros Hf Hr Ha Hfr Hfa Hra.
  destruct (emitted_get_real_ip cfg request w Hx) as [errs [He [_ Hn]]].
  split; [|split].
  - unfold w'. rewrite He, Hn; [|now apply (chain_candidate_truthy cfg) | exact Hr].
    fold f r a. unfold pair_warnings, disagree.
    rewrite Hf, Hr, Ha.
    apply neq_true in Hfr, Hfa, Hra. rewrite Hfr, Hfa, Hra. reflexivity.
  - apply warnings_distinct.
  - rewrite get_real_ip_run by exact Hx. simpl. fold f. now rewrite Hf.
Qed.

(** C6: [_log_error_only_once] logs a message at error severity and
    records it when it is not yet in [_logged_errors], and does nothing
    when it is; so from process start each message passed to it, however
    often, is on the log exactly once.  Two runs of [get_real_ip] on
    requests without a usable chain header, from process start, leave
    the diagnostic [X-Forwarded-For header is not set!] on the log
    exactly once. *)
Theorem C6_error_logged_only_once :
  (forall msg w,
      mem msg (_logged_errors w) = false ->
      _log_error_only_once msg w
      = (inr tt, {| log := log w ++ [record ERROR msg];
                    _logged_errors := _logged_errors w ++ [msg] |}))
  /\ (forall msg w,
        mem msg (_logged_errors w) = true ->
        _log_error_only_once msg w = (inr tt, w))
  /\ (forall msgs msg,
        times_logged ERROR msg (log (snd (log_errors_only_once msgs initial_world)))
        = if mem msg msgs then 1%nat else 0%nat)
  /\ (forall cfg1 cfg2 request1 request2,
        Py.truthy (forwarded_for_header request1) = false ->
        Py.truthy (forwarded_for_header request2) = false ->
        times_logged ERROR "X-Forwarded-For header is not set!"
          (log (snd ((get_real_ip cfg1 request1 ;; get_real_ip cfg2 request2)%py
                       initial_world)))
        = 1%nat).
Proof.
  split; [|split; [|split]].
  - intros msg w Hm. rewrite _log_error_only_once_run. unfold once. now rewrite Hm.
  - intros msg w Hm. rewrite _log_error_only_once_run. unfold once. now rewrite Hm.
  - intros msgs msg. rewrite log_errors_only_once_run. simpl snd.
    rewrite (fold_once_keeps_once msgs initial_world initial_world_once).
    now rewrite fold_once_remembers.
  - intros cfg1 cfg2 request1 request2 H1 H2. unfold bind.
    rewrite (get_real_ip_run_unset cfg1 request1 initial_world H1).
    rewrite get_real_ip_run_unset by exact H2. simpl snd.
    match goal with |- times_logged _ _ (log ?w) = _ =>
      assert (Hw : errors_logged_once w)
    end.
    { apply cross_checked_keeps_once, diagnosed_keeps_once,
        cross_checked_keeps_once, diagnosed_keeps_once, initial_world_once. }
    rewrite Hw, logged_errors_cross_checked.
    rewrite diagnosed_never_forgets; [reflexivity|].
    rewrite logged_errors_cross_checked. unfold diagnosed. rewrite H1.
    destruct (Py.truthy (real_ip_header request1));
      [|apply once_never_forgets]; apply once_remembers.
Qed.

Lemma other_spelling_disagree (x y : Py.optstr) :
  same_address_other_spelling x y -> disagree x y = true.
Proof.
  intros (s & t & addr & -> & -> & Hne & Hs & Ht). unfold disagree.
  assert (Hneq : Py.neq (Some s) (Some t) = true) by now apply neq_true; congruence.
  rewrite Hneq.
  destruct s; [discriminate Hs|]. destruct t; [discriminate Ht|]. reflexivity.
Qed.

(** C10: the cross-checks compare the candidates as strings.  Under a
    trust depth of at least one, whenever two candidates spell the same
    address differently the warning for that pair is logged, and the
    value returned for a non-empty chain candidate is that stripped
    entry of the header, character for character. *)
Theorem C10_no_normalisation_of_addresses cfg request w :
  1 <= real_ip_x_for cfg ->
  let f := chain_candidate cfg request in
  let r := real_ip_header request in
  let a := remote_addr request in
  let warnings := messages_at WARNING (emitted w (snd (get_real_ip cfg request w))) in
  (same_address_other_spelling f r ->
   In (warn_real_ip_vs_forwarded_for r f) warnings)
  /\ (same_address_other_spelling f a ->
      In (warn_remote_addr_vs_forwarded_for a f) warnings)
  /\ (same_address_other_spelling r a ->
      In (warn_remote_addr_vs_real_ip a r) warnings)
  /\ (forall header,
        forwarded_for_header request = Some header -> header <> "" ->
        exists e,
          In e (map Py.strip (Py.split "," header))
          /\ f = Some e
          /\ (e <> "" -> fst (get_real_ip cfg request w) = inr e)).
Proof.
  intros Hx f r a warnings.
  assert (Hw : warnings = pair_warnings f r a).
  { unfold warnings.
    destruct (emitted_get_real_ip cfg request w Hx) as [errs [He [Hn _]]].
    rewrite He, messages_at_app, Hn. apply messages_at_warnings. }
  rewrite Hw. unfold pair_warnings.
  split; [|split; [|split]].
  - intros H. rewrite (other_spelling_disagree _ _ H). now left.
  - intros H. rewrite (other_spelling_disagree _ _ H).
    apply in_or_app. right. now left.
  - intros H. rewrite (other_spelling_disagree _ _ H).
    apply in_or_app. right. apply in_or_app. right. now left.
  - intros header Hh Hne.
    assert (Ht : Py.truthy (forwarded_for_header request) = true).
    { rewrite Hh. destruct header; [contradiction | reflexivity]. }
    destruct (chain_candidate_selected cfg request Hx Ht) as [e [Hc _]].
    exists e. split; [|split].
    + unfold chain_candidate in Hc. fold (forwarded_for_header request) in Hc.
      rewrite Ht, Hh in Hc. simpl Py.str in Hc. now apply nth_error_In in Hc.
    + exact Hc.
    + intros He. rewrite get_real_ip_run by exact Hx. simpl. fold f.
      unfold f. rewrite Hc. destruct e; [contradiction | reflexivity].
Qed.


End Resolver.

Lemma C1_chain_entry_at_clamped_index_witness :
  exists e,
    nth_error (map Py.strip (Py.split "," "198.51.100.4, 203.0.113.7 ,192.0.2.1"))
      (Z.to_nat (Z.max 0 (3 - 2))) = Some e
    /\ e = "203.0.113.7".
Proof.
  destruct (C1_chain_entry_at_clamped_index unit
              "198.51.100.4, 203.0.113.7 ,192.0.2.1" 2)
    as [e [He _]]; [discriminate | lia |].
  exists e. split; [exact He|].
  vm_compute in He. now injection He as <-.
Defined.

Lemma C2_first_non_empty_else_sentinel_witness :
  fst (get_real_ip cfg_one_proxy request_bare initial_world) = inr "0.0.0.0".
Proof.
  apply (C2_first_non_empty_else_sentinel unit cfg_one_proxy request_bare initial_world);
    [vm_compute; discriminate | reflexivity | reflexivity | reflexivity].
Defined.



Lemma C5_warning_for_every_unequal_pair_witness :
  emitted initial_world
    (snd (get_real_ip cfg_one_proxy request_three_spellings initial_world))
  = [record WARNING
       "IP from X-Real-IP (2001:0db8::1) is not equal to IP from X-Forwarded-For (2001:db8::1)";
     record WARNING
       "IP from WSGI environment (2001:DB8::1) is not equal to IP from X-Forwarded-For (2001:db8::1)";
     record WARNING
       "IP from WSGI environment (2001:DB8::1) is not equal to IP from X-Real-IP (2001:0db8::1)"].
Proof.
  refine (proj1 (proj2 (proj2 (C5_warning_for_every_unequal_pair unit cfg_one_proxy
                                 request_three_spellings initial_world _))
                   _ _ _ _ _ _));
    first [reflexivity | discriminate | (vm_compute; discriminate)].
Defined.

Lemma C6_error_logged_only_once_witness :
  times_logged ERROR "X-Forwarded-For header is not set!"
    (log (snd ((get_real_ip cfg_one_proxy request_bare ;;
                get_real_ip cfg_one_proxy request_bare)%py initial_world)))
  = 1%nat.
Proof.
  destruct (C6_error_logged_only_once unit) as [_ [_ [_ H]]].
  apply (H cfg_one_proxy cfg_one_proxy request_bare request_bare); reflexivity.
Defined.

Lemma C10_no_normalisation_of_addresses_witness :
  In "IP from X-Real-IP (2001:0db8::1) is not equal to IP from X-Forwarded-For (2001:db8::1)"
    (messages_at WARNING
       (emitted initial_world
          (snd (get_real_ip cfg_one_proxy request_three_spellings initial_world)))).
Proof.
  destruct (C10_no_normalisation_of_addresses unit cfg_one_proxy
              request_three_spellings initial_world) as [H _];
    [vm_compute; discriminate|].
  apply H.
  exists "2001:db8::1", "2001:0db8::1",
    (Ipaddress.IPv6Address 42540766411282592856903984951653826561 None).
  repeat split; try reflexivity. discriminate.
Defined.

(** ** The request dump *)

Lemma contains_append (c : ascii) (s1 s2 : string) :
  Py.contains c (s1 ++ s2) = Py.contains c s1 || Py.contains c s2.
Proof.
  induction s1 as [|d s1 IH]; simpl; [reflexivity|].
  now rewrite IH, orb_assoc.
Qed.

Lemma contains_join_existsb (c : ascii) (sep : string) (parts : list string) :
  Py.contains c sep = false ->
  Py.contains c (Py.join sep parts) = existsb (Py.contains c) parts.
Proof.
  intros Hsep. induction parts as [|p ps IH]; [reflexivity|].
  destruct ps as [|q qs]; [cbn [Py.join existsb]; now rewrite orb_false_r|].
  change (Py.join sep (p :: q :: qs)) with (p ++ sep ++ Py.join sep (q :: qs)).
  rewrite !contains_append, Hsep, IH. reflexivity.
Qed.

(** C8, as stated, fails: the dump of a request whose path holds a line
    feed is two lines, and a [Content-Type] that the framework reports as
    the empty string shows an empty column, not a marker. *)
Lemma C8_counterexample_line_feed :
  Py.split "010"
    (dump_request (fun _ : unit => "ImmutableMultiDict([])") request_line_feed)
  = ["/a";
     "b || X-Forwarded-For: None || X-Real-IP: None || form: ImmutableMultiDict([])"
       ++ " || Accept: None || Accept-Language: None || Accept-Encoding: None"
       ++ " || Content-Type: None || Content-Length: None || Connection: None"
       ++ " || User-Agent: None"]
  /\ dump_request (fun _ : unit => "ImmutableMultiDict([])") request_empty_content_type
     = "/ || X-Forwarded-For: None || X-Real-IP: None || form: ImmutableMultiDict([])"
         ++ " || Accept: None || Accept-Language: None || Accept-Encoding: None"
         ++ " || Content-Type:  || Content-Length: None || Connection: None"
         ++ " || User-Agent: None".
Proof. split; reflexivity. Qed.

(** C8, amended: the dump is the eleven columns path, [X-Forwarded-For],
    [X-Real-IP], form, [Accept], [Accept-Language], [Accept-Encoding],
    [Content-Type], [Content-Length], [Connection], [User-Agent], in
    this order for every request, joined by [" || "]; a header for which
    the lookup gives [None] shows as [None] in its column, so that
    without a [User-Agent] header the dump ends in
    [" || User-Agent: None"]; a header that has a value shows this value
    as it is, the empty string as an empty column; and the dump is one
    line exactly when neither the path, nor the rendered form, nor the
    value of a dumped header holds a line feed. *)
Theorem C8_dump_columns_fixed (Form : Type) (form_str : Form -> string)
    (request : Request Form) :
  dump_request form_str request
  = Py.join " || " (map (render form_str request) columns)
  /\ (forall name,
        headers_get (headers request) name = None ->
        render form_str request (Header name) = name ++ ": None")
  /\ (forall name value,
        headers_get (headers request) name = Some value ->
        render form_str request (Header name) = name ++ ": " ++ value)
  /\ (headers_get (headers request) "User-Agent" = None ->
      exists before,
        dump_request form_str request = before ++ " || User-Agent: None")
  /\ (Py.contains "010" (dump_request form_str request) = false
      <-> Py.contains "010" (path request) = false
          /\ Py.contains "010" (form_str (form request)) = false
          /\ (forall name value,
                In (Header name) columns ->
                headers_get (headers request) name = Some value ->
                Py.contains "010" value = false)).
Proof.
  assert (Hjoin : dump_request form_str request
                  = Py.join " || " (map (render form_str request) columns)).
  { unfold dump_request, columns. cbn [map render Py.join].
    repeat rewrite append_assoc. reflexivity. }
  split; [exact Hjoin|].
  split; [intros name H; cbn [render]; now rewrite H|].
  split; [intros name value H; cbn [render]; now rewrite H|].
  split; [intros H; unfold dump_request; rewrite H; eexists; reflexivity|].
  rewrite Hjoin, contains_join_existsb by reflexivity.
  assert (Hheader : forall name,
             Py.contains "010" name = false ->
             Py.contains "010" (render form_str request (Header name))
             = Py.contains "010" (Py.str (headers_get (headers request) name))).
  { intros name Hname. cbn [render]. rewrite !contains_append, Hname. reflexivity. }
  assert (Hform : Py.contains "010" (render form_str request FormData)
                  = Py.contains "010" (form_str (form request))).
  { cbn [render]. rewrite contains_append. reflexivity. }
  unfold columns. cbn [map existsb]. rewrite !Hheader by reflexivity.
  rewrite Hform. cbn [render]. rewrite orb_false_r.
  split.
  - intros H. repeat (apply orb_false_iff in H; destruct H as [? H]).
    split; [assumption|]. split; [assumption|].
    intros name value Hin Hvalue. cbn [In] in Hin.
    repeat destruct Hin as [Hin|Hin]; try discriminate Hin; try contradiction;
      injection Hin as <-; rewrite Hvalue in *; assumption.
  - intros (Hpath & Hvalue & Hheaders).
    assert (Hnone : forall name,
               In (Header name) columns ->
               Py.contains "010" (Py.str (headers_get (headers request) name)) = false).
    { intros name Hin.
      destruct (headers_get (headers request) name) as [value|] eqn:E;
        [exact (Hheaders name value Hin E) | reflexivity]. }
    rewrite Hpath, Hvalue.
    rewrite !Hnone by (cbn [In columns]; tauto).
    reflexivity.
Qed.

Lemma C8_dump_columns_fixed_witness :
  (exists before,
      dump_request (fun _ : unit => "ImmutableMultiDict([])") request_bare
      = before ++ " || User-Agent: None")
  /\ Py.contains "010"
       (dump_request (fun _ : unit => "ImmutableMultiDict([])") request_bare)
     = false.
Proof.
  destruct (C8_dump_columns_fixed unit (fun _ => "ImmutableMultiDict([])")
              request_bare) as (_ & _ & _ & Hagent & Hline).
  split.
  - apply Hagent. reflexivity.
  - apply Hline. split; [reflexivity|]. split; [reflexivity|].
    intros name value _ H. discriminate H.
Defined.

(** ** The block response *)

(** C9: for every network, reason and world, [too_many_requests]
    returns the response with body [Too Many Requests] and status 429,
    and adds one debug record made of the network's compressed form and
    the reason; it raises nothing. *)
Theorem C9_too_many_requests_429 (network : Ipaddress.Network) (log_msg : string)
    (w : World) :
  too_many_requests network log_msg w
  = (inr {| data := "Too Many Requests"; status_code := 429 |},
     {| log := log w ++ [record DEBUG ("BLOCK " ++ Ipaddress.compressed network
                                        ++ ": " ++ log_msg)];
        _logged_errors := _logged_errors w |}).
Proof. reflexivity. Qed.

(** ** Splitting and joining *)

Lemma split_no_sep (sep : ascii) (s : string) :
  Py.contains sep s = false -> Py.split sep s = [s].
Proof.
  induction s as [|c s IH]; simpl; [reflexivity|].
  intros H. apply orb_false_iff in H as [Hc Hs].
  rewrite Hc, (IH Hs). reflexivity.
Qed.

Lemma split_append (sep : ascii) (s1 s2 : string) :
  Py.contains sep s1 = false ->
  Py.split sep (s1 ++ String sep s2) = s1 :: Py.split sep s2.
Proof.
  induction s1 as [|c s1 IH]; simpl.
  - intros _. now rewrite Ascii.eqb_refl.
  - intros H. apply orb_false_iff in H as [Hc Hs].
    rewrite Hc, (IH Hs). reflexivity.
Qed.

Lemma split_join (sep : ascii) (parts : list string) :
  parts <> [] ->
  Forall (fun p => Py.contains sep p = false) parts ->
  Py.split sep (Py.join (String sep "") parts) = parts.
Proof.
  induction parts as [|p ps IH]; [contradiction|].
  intros _ Hall. inversion Hall as [|? ? Hp Hps]; subst.
  destruct ps as [|q qs]; [now apply split_no_sep|].
  change (Py.join (String sep "") (p :: q :: qs))
    with (p ++ String sep (Py.join (String sep "") (q :: qs))).
  rewrite split_append by exact Hp.
  rewrite IH; [reflexivity | discriminate | exact Hps].
Qed.

Lemma contains_join (c : ascii) (sep : string) (parts : list string) :
  Py.contains c sep = false ->
  Forall (fun p => Py.contains c p = false) parts ->
  Py.contains c (Py.join sep parts) = false.
Proof.
  intros Hsep. induction parts as [|p ps IH]; intros Hall; [reflexivity|].
  inversion Hall as [|? ? Hp Hps]; subst.
  destruct ps as [|q qs]; [exact Hp|].
  change (Py.join sep (p :: q :: qs)) with (p ++ sep ++ Py.join sep (q :: qs)).
  rewrite !contains_append, Hp, Hsep, (IH Hps). reflexivity.
Qed.

(** ** Tables of digits *)

Lemma all_range_sound (k : nat) (f : Z -> bool) (lo : Z) :
  all_range k f lo = true -> forall v, lo <= v < lo + 2 ^ Z.of_nat k -> f v = true.
Proof.
  revert lo. induction k as [|k IH]; intros lo H v Hv.
  - simpl in *. replace v with lo by lia. exact H.
  - simpl all_range in H. apply andb_true_iff in H as [H1 H2].
    assert (E : 2 ^ Z.of_nat (S k) = 2 * 2 ^ Z.of_nat k).
    { rewrite Nat2Z.inj_succ, Z.pow_succ_r by lia. reflexivity. }
    destruct (Z_lt_ge_dec v (lo + 2 ^ Z.of_nat k)).
    + apply (IH lo H1). lia.
    + apply (IH _ H2). lia.
Qed.

Lemma octet_table (o : Z) : 0 <= o < 256 -> octet_ok o = true.
Proof. apply (all_range_sound 8 octet_ok 0). vm_compute. reflexivity. Qed.

Lemma hextet_table (h : Z) : 0 <= h < 65536 -> hextet_ok h = true.
Proof. apply (all_range_sound 16 hextet_ok 0). vm_compute. reflexivity. Qed.

Lemma prefix_table (p : Z) : 0 <= p <= 128 -> prefix_ok p = true.
Proof.
  intros Hp.
  assert (H : (128 <? p) || prefix_ok p = true).
  { apply (all_range_sound 8 (fun p => (128 <? p) || prefix_ok p) 0).
    - vm_compute. reflexivity.
    - change (0 + 2 ^ Z.of_nat 8) with 256. lia. }
  apply orb_true_iff in H as [H|H]; [|exact H].
  apply Z.ltb_lt in H. lia.
Qed.

Import Ipaddress.

(** ** IPv4 addresses print and parse back *)

Lemma returns_inr (r : result Z) (v : Z) : returns r v = true -> r = inr v.
Proof.
  destruct r as [e|x]; simpl; [discriminate|].
  intros H. apply Z.eqb_eq in H. now subst.
Qed.

Lemma eqb_append_nonempty (s1 s2 : string) (c : ascii) :
  String.eqb (s1 ++ String c s2) "" = false.
Proof. now destruct s1. Qed.

Lemma octet_parses (o : Z) : 0 <= o < 256 -> _parse_octet (str_int o) = inr o.
Proof.
  intros H. apply octet_table in H. unfold octet_ok in H.
  apply andb_true_iff in H as [H _]. now apply returns_inr.
Qed.

Lemma octet_free (o : Z) :
  0 <= o < 256 ->
  Py.contains "." (str_int o) = false /\ Py.contains "/" (str_int o) = false.
Proof.
  intros H. apply octet_table in H. unfold octet_ok in H.
  apply andb_true_iff in H as [_ H]. simpl in H.
  rewrite andb_true_r in H. apply andb_true_iff in H as [H1 H2].
  now rewrite negb_true_iff in H1, H2.
Qed.

Lemma land_255_range (x : Z) : 0 <= Z.land x 255 < 256.
Proof.
  change 255 with (Z.ones 8). rewrite Z.land_ones by lia.
  apply Z.mod_pos_bound. reflexivity.
Qed.

Lemma to_bytes4_range (ip : Z) : Forall (fun o => 0 <= o < 256) (to_bytes4 ip).
Proof. unfold to_bytes4. repeat constructor; apply land_255_range. Qed.

Lemma from_bytes_to_bytes4 (ip : Z) :
  0 <= ip <= ALL_ONES4 -> from_bytes (to_bytes4 ip) = ip.
Proof.
  intros H. unfold ALL_ONES4, IPV4LENGTH in H. simpl in H.
  unfold from_bytes, to_bytes4. cbn [fold_left].
  change 255 with (Z.ones 8). rewrite !Z.land_ones, !Z.shiftr_div_pow2 by lia.
  change (2 ^ 24) with 16777216. change (2 ^ 16) with 65536.
  change (2 ^ 8) with 256.
  Z.div_mod_to_equations. lia.
Qed.

Lemma map_result_octets (os : list Z) :
  Forall (fun o => 0 <= o < 256) os ->
  map_result _parse_octet (map str_int os) = inr os.
Proof.
  induction 1 as [|o os Ho _ IH]; simpl; [reflexivity|].
  now rewrite (octet_parses o Ho), IH.
Qed.

Lemma v4_string_free (ip : Z) :
  Py.contains "/" (v4_string_from_ip_int ip) = false.
Proof.
  unfold v4_string_from_ip_int. apply contains_join; [reflexivity|].
  apply Forall_map. eapply Forall_impl; [|apply to_bytes4_range].
  intros o Ho. now apply octet_free.
Qed.

Lemma v4_round_trip (ip : Z) :
  0 <= ip <= ALL_ONES4 -> IPv4Address_ip (v4_string_from_ip_int ip) = inr ip.
Proof.
  intros H. unfold IPv4Address_ip. rewrite v4_string_free.
  unfold v4_ip_int_from_string, v4_string_from_ip_int.
  assert (Hs : Py.split "." (Py.join "." (map str_int (to_bytes4 ip)))
               = map str_int (to_bytes4 ip)).
  { apply split_join; [discriminate|].
    apply Forall_map. eapply Forall_impl; [|apply to_bytes4_range].
    intros o Ho. now apply octet_free. }
  rewrite Hs.
  replace (String.eqb (Py.join "." (map str_int (to_bytes4 ip))) "") with false
    by (symmetry; apply eqb_append_nonempty).
  rewrite map_result_octets by apply to_bytes4_range.
  simpl. now rewrite from_bytes_to_bytes4.
Qed.

(** ** IPv6 addresses print and parse back *)

Lemma hextet_parses (h : Z) : 0 <= h < 65536 -> _parse_hextet (hex h) = inr h.
Proof.
  intros H. apply hextet_table in H. unfold hextet_ok in H.
  apply andb_true_iff in H as [H _]. apply andb_true_iff in H as [H _].
  now apply returns_inr.
Qed.

Lemma hextet_free (h : Z) : 0 <= h < 65536 -> free_of ":./%" (hex h) = true.
Proof.
  intros H. apply hextet_table in H. unfold hextet_ok in H.
  apply andb_true_iff in H as [H _]. now apply andb_true_iff in H as [_ H].
Qed.

Lemma hextet_zero (h : Z) :
  0 <= h < 65536 -> String.eqb (hex h) "0" = (h =? 0).
Proof.
  intros H. apply hextet_table in H. unfold hextet_ok in H.
  apply andb_true_iff in H as [_ H]. now apply eqb_prop in H.
Qed.

Lemma hextet_nonempty (h : Z) : 0 <= h < 65536 -> String.eqb (hex h) "" = false.
Proof.
  intros H. apply hextet_parses in H.
  destruct (hex h); [discriminate H | reflexivity].
Qed.

Lemma free_of_contains (c : ascii) (chars s : string) :
  free_of chars s = true -> Py.contains c chars = true -> Py.contains c s = false.
Proof.
  induction chars as [|d chars IH]; simpl; [discriminate|].
  intros H Hc. apply andb_true_iff in H as [Hd Hrest].
  apply orb_true_iff in Hc as [Hc|Hc].
  - apply Ascii.eqb_eq in Hc. subst. now apply negb_true_iff.
  - now apply IH.
Qed.

Lemma land_65535_range (x : Z) : 0 <= Z.land x 65535 < 65536.
Proof.
  change 65535 with (Z.ones 16). rewrite Z.land_ones by lia.
  apply Z.mod_pos_bound. reflexivity.
Qed.

Lemma hextet_values_range (ip : Z) :
  Forall (fun h => 0 <= h < 65536) (hextet_values ip).
Proof.
  unfold hextet_values. apply Forall_map, Forall_forall.
  intros i _. apply land_65535_range.
Qed.

Lemma hextet_values_length (ip : Z) : List.length (hextet_values ip) = 8%nat.
Proof. reflexivity. Qed.

(** *** The value of a list of hextets *)

Lemma parse_hextets_values (vs : list Z) (acc : Z) :
  Forall (fun h => 0 <= h < 65536) vs ->
  parse_hextets acc (map hex vs) = inr (fold_left shift_in vs acc).
Proof.
  intros H. revert acc. induction H as [|v vs Hv _ IH]; intros acc; [reflexivity|].
  cbn [map parse_hextets fold_left]. rewrite (hextet_parses v Hv). apply IH.
Qed.

Lemma shift_in_zeros (n : nat) (acc : Z) :
  fold_left shift_in (repeat 0 n) acc = Z.shiftl acc (16 * Z.of_nat n).
Proof.
  revert acc. induction n as [|n IH]; intros acc.
  - now rewrite Z.shiftl_0_r.
  - cbn [repeat fold_left]. rewrite IH. unfold shift_in.
    rewrite Z.lor_0_r, Z.shiftl_shiftl by lia. f_equal. lia.
Qed.

(** Shifting the top of [ip] up by one hextet and filling in the next
    hextet of [ip] reads [ip] sixteen bits further down. *)
Lemma shift_in_next (ip k : Z) :
  0 <= k ->
  shift_in (Z.shiftr ip (k + 16)) (Z.land (Z.shiftr ip k) 65535) = Z.shiftr ip k.
Proof.
  intros Hk. unfold shift_in. apply Z.bits_inj'. intros i Hi.
  rewrite Z.lor_spec, Z.land_spec, !Z.shiftr_spec by lia.
  change 65535 with (Z.ones 16).
  destruct (Z_lt_ge_dec i 16) as [Hlt|Hge].
  - rewrite Z.shiftl_spec_low by lia. rewrite Z.ones_spec_low by lia.
    now rewrite andb_true_r.
  - rewrite Z.shiftl_spec by lia. rewrite Z.shiftr_spec by lia.
    rewrite Z.ones_spec_high by lia. rewrite andb_false_r, orb_false_r.
    f_equal. lia.
Qed.

Lemma shift_in_hextets (ip : Z) (m s : nat) :
  (s + m <= 8)%nat ->
  fold_left shift_in
    (map (fun i => Z.land (Z.shiftr ip (16 * Z.of_nat (7 - i))) 65535) (seq s m))
    (Z.shiftr ip (16 * Z.of_nat (8 - s)))
  = Z.shiftr ip (16 * Z.of_nat (8 - s - m)).
Proof.
  revert s. induction m as [|m IH]; intros s Hs.
  - now rewrite Nat.sub_0_r.
  - cbn [seq map fold_left].
    replace (16 * Z.of_nat (8 - s)) with (16 * Z.of_nat (7 - s) + 16) by lia.
    rewrite shift_in_next by lia.
    replace (7 - s)%nat with (8 - S s)%nat by lia.
    rewrite IH by lia. f_equal. lia.
Qed.

Lemma hextet_values_value (ip : Z) :
  0 <= ip <= ALL_ONES6 -> fold_left shift_in (hextet_values ip) 0 = ip.
Proof.
  intros H. unfold hextet_values.
  assert (H0 : 0 = Z.shiftr ip (16 * Z.of_nat (8 - 0))).
  { symmetry. apply Z.shiftr_eq_0; [lia|].
    destruct (Z.eq_dec ip 0) as [->|Hne]; [reflexivity|].
    apply Z.log2_lt_pow2; [lia|].
    unfold ALL_ONES6, IPV6LENGTH in H. change (16 * Z.of_nat (8 - 0)) with 128. lia. }
  rewrite H0 at 1. rewrite shift_in_hextets by lia.
  apply Z.shiftr_0_r.
Qed.

(** *** The scan for the longest run of zeros *)

Lemma len_app {A} (l1 l2 : list A) : Py.len (l1 ++ l2) = Py.len l1 + Py.len l2.
Proof. unfold Py.len. rewrite length_app. lia. Qed.

Lemma zero_run_app (seen more : list string) (s n : Z) :
  zero_run seen s n -> zero_run (seen ++ more) s n.
Proof.
  intros (Hs & Hn & Hlen & Hz). repeat split; try assumption.
  - rewrite len_app. unfold Py.len in *. lia.
  - intros k Hk. rewrite nth_error_app1 by (unfold Py.len in *; lia). now apply Hz.
Qed.

Lemma zero_run_start (seen : list string) :
  zero_run (seen ++ ["0"]) (Py.len seen) 1.
Proof.
  repeat split; try (unfold Py.len; lia).
  - rewrite len_app. unfold Py.len. simpl. lia.
  - intros k Hk. unfold Py.len in Hk.
    replace k with (List.length seen + 0)%nat by lia.
    now rewrite nth_error_app2, Nat.add_comm, Nat.add_sub by lia.
Qed.

Lemma zero_run_extend (seen : list string) (s n : Z) :
  zero_run seen s n -> s + n = Py.len seen -> zero_run (seen ++ ["0"]) s (n + 1).
Proof.
  intros (Hs & Hn & Hlen & Hz) Hend. repeat split; try lia.
  - rewrite len_app. unfold Py.len in *. simpl. lia.
  - intros k Hk. destruct (Nat.lt_ge_cases k (List.length seen)) as [Hlt|Hge].
    + rewrite nth_error_app1 by exact Hlt. apply Hz. unfold Py.len in *. lia.
    + replace k with (List.length seen + 0)%nat by (unfold Py.len in *; lia).
      now rewrite nth_error_app2, Nat.add_comm, Nat.add_sub by lia.
Qed.

Lemma scan_keeps_invariant (rest seen : list string) (st : doublecolon) :
  scan_invariant st seen ->
  scan_invariant (scan_hextets st (Py.len seen) rest) (seen ++ rest).
Proof.
  revert seen st. induction rest as [|h rest IH]; intros seen st Hinv.
  - cbn [scan_hextets]. now rewrite app_nil_r.
  - cbn [scan_hextets].
    replace (seen ++ h :: rest)%list with ((seen ++ [h]) ++ rest)%list
      by (now rewrite <- app_assoc).
    replace (Py.len seen + 1) with (Py.len (seen ++ [h]))
      by (rewrite len_app; reflexivity).
    apply IH. destruct Hinv as [Hbest Hcur].
    assert (Hbest' : best_doublecolon_len st = 0
                     \/ zero_run (seen ++ [h]) (best_doublecolon_start st)
                          (best_doublecolon_len st)).
    { destruct Hbest as [H|H]; [now left | right; now apply zero_run_app]. }
    destruct (String.eqb_spec h "0") as [->|Hne].
    + assert (Hnew : zero_run (seen ++ ["0"])
                       (if doublecolon_start st =? -1 then Py.len seen
                        else doublecolon_start st)
                       (doublecolon_len st + 1)
                     /\ (if doublecolon_start st =? -1 then Py.len seen
                         else doublecolon_start st) + (doublecolon_len st + 1)
                        = Py.len (seen ++ ["0"])).
      { rewrite len_app. change (Py.len ["0"]) with 1.
        destruct Hcur as [[Hl Hs]|[Hrun Hend]].
        - rewrite Hl, Hs. cbn. split; [apply zero_run_start | lia].
        - assert (Hs : (doublecolon_start st =? -1) = false)
            by (apply Z.eqb_neq; destruct Hrun; lia).
          rewrite Hs. split; [now apply zero_run_extend | lia]. }
      destruct Hnew as [Hrun Hend].
      destruct (best_doublecolon_len st <? doublecolon_len st + 1);
        (split; cbn; [|right; now split]); [now right | exact Hbest'].
    + split; cbn; [exact Hbest' | now left].
Qed.

(** After the scan of all hextets a best run longer than one is a run of zeros. *)
Lemma scan_finds_zero_run (hextets : list string) :
  let st := scan_hextets {| best_doublecolon_start := -1; best_doublecolon_len := 0;
                            doublecolon_start := -1; doublecolon_len := 0 |} 0 hextets in
  (1 <? best_doublecolon_len st) = true ->
  zero_run hextets (best_doublecolon_start st) (best_doublecolon_len st).
Proof.
  intros st Hlen.
  assert (Hinv : scan_invariant st ([] ++ hextets)).
  { apply (scan_keeps_invariant hextets []). split; cbn; now left. }
  destruct Hinv as [[H0|Hrun] _]; [|exact Hrun].
  apply Z.ltb_lt in Hlen. lia.
Qed.

(** The two shapes of a compressed address: left alone, or one run of
    at least two zeros replaced by an empty part, with one more empty
    part at an end that the run touches. *)
Lemma compress_shape (hextets : list string) :
  _compress_hextets hextets = hextets
  \/ exists s n : nat,
      (2 <= n)%nat /\ (s + n <= List.length hextets)%nat
      /\ (forall k, (s <= k < s + n)%nat -> nth_error hextets k = Some "0")
      /\ _compress_hextets hextets
         = ((if (s =? 0)%nat then [""] else [])
            ++ firstn s hextets ++ [""] ++ skipn (s + n) hextets
            ++ (if (s + n =? List.length hextets)%nat then [""] else []))%list.
Proof.
  unfold _compress_hextets.
  set (st := scan_hextets _ 0 hextets).
  destruct (1 <? best_doublecolon_len st) eqn:E; [right | now left].
  destruct (scan_finds_zero_run hextets E) as (Hs & Hn & Hlen & Hz).
  fold st in Hs, Hn, Hlen, Hz. apply Z.ltb_lt in E. unfold Py.len in *.
  exists (Z.to_nat (best_doublecolon_start st)), (Z.to_nat (best_doublecolon_len st)).
  split; [lia|]. split; [lia|]. split; [intros k Hk; apply Hz; lia|].
  rewrite Z2Nat.inj_add by lia.
  set (s := Z.to_nat (best_doublecolon_start st)) in *.
  set (n := Z.to_nat (best_doublecolon_len st)) in *.
  assert (Hs0 : (best_doublecolon_start st =? 0) = (s =? 0)%nat).
  { destruct (Z.eqb_spec (best_doublecolon_start st) 0) as [H|H];
      symmetry; [apply Nat.eqb_eq | apply Nat.eqb_neq]; lia. }
  assert (He : (best_doublecolon_start st + best_doublecolon_len st
                =? Z.of_nat (List.length hextets))
               = (s + n =? List.length hextets)%nat).
  { destruct (Z.eqb_spec (best_doublecolon_start st + best_doublecolon_len st)
                (Z.of_nat (List.length hextets))) as [H|H];
      symmetry; [apply Nat.eqb_eq | apply Nat.eqb_neq]; lia. }
  rewrite Hs0, He.
  assert (Hbody : (firstn s (if (s + n =? List.length hextets)%nat
                             then hextets ++ [""] else hextets)
                   ++ [""] ++ skipn (s + n) (if (s + n =? List.length hextets)%nat
                                             then hextets ++ [""] else hextets))%list
                  = (firstn s hextets ++ [""] ++ skipn (s + n) hextets
                     ++ (if (s + n =? List.length hextets)%nat then [""] else []))%list).
  { destruct (Nat.eqb_spec (s + n) (List.length hextets)) as [H|H].
    - rewrite firstn_app, skipn_app.
      replace (s - List.length hextets)%nat with 0%nat by lia.
      replace (s + n - List.length hextets)%nat with 0%nat by lia.
      cbn [firstn skipn]. now rewrite app_nil_r.
    - now rewrite app_nil_r. }
  rewrite Hbody. now destruct (s =? 0)%nat.
Qed.

(** *** Parsing the parts of a compressed address *)

Lemma find_skip_none (l : list string) (i : nat) (skip_index : option nat) :
  Forall (fun p => String.eqb p "" = false) l ->
  find_skip l i skip_index = inr skip_index.
Proof.
  intros H. revert i. induction H as [|p l Hp _ IH]; intros i; [reflexivity|].
  cbn [find_skip]. rewrite Hp. apply IH.
Qed.

Lemma find_skip_one (X Y : list string) (i : nat) :
  Forall (fun p => String.eqb p "" = false) X ->
  Forall (fun p => String.eqb p "" = false) Y ->
  find_skip (X ++ "" :: Y) i None = inr (Some (i + List.length X)%nat).
Proof.
  intros HX HY. revert i. induction HX as [|p X Hp _ IH]; intros i.
  - cbn [app find_skip List.length]. change (String.eqb "" "") with true. cbv iota.
    rewrite find_skip_none by exact HY. now rewrite Nat.add_0_r.
  - cbn [app find_skip List.length]. rewrite Hp, IH. do 2 f_equal. lia.
Qed.

Lemma last_snoc {A} (l : list A) (x d : A) : last (l ++ [x]) d = x.
Proof. apply last_last. Qed.

Lemma v6_parts_of_shape (p0 q : string) (X Y : list string) :
  Forall (fun p => String.eqb p "" = false) X ->
  Forall (fun p => String.eqb p "" = false) Y ->
  (p0 = "" -> X = []) ->
  (q = "" -> Y = []) ->
  let hi := if String.eqb p0 "" then [] else p0 :: X in
  let lo := if String.eqb q "" then [] else (Y ++ [q])%list in
  let parts_skipped := (HEXTET_COUNT - (List.length hi + List.length lo))%nat in
  v6_ip_int_from_parts (p0 :: X ++ "" :: Y ++ [q])
  = if (parts_skipped <? 1)%nat then inl AddressValueError
    else reraise AddressValueError
           (let! ip_int := parse_hextets 0 hi in
            parse_hextets (Z.shiftl ip_int (16 * Z.of_nat parts_skipped)) lo).
Proof.
  intros HX HY Hp0 Hq hi lo parts_skipped.
  unfold v6_ip_int_from_parts. cbv zeta.
  assert (Hn : List.length (p0 :: X ++ "" :: Y ++ [q])
               = (List.length X + List.length Y + 3)%nat).
  { cbn [List.length]. rewrite length_app. cbn [List.length].
    rewrite length_app. cbn [List.length]. lia. }
  assert (Hint : firstn (List.length X + List.length Y + 3 - 2)
                   (skipn 1 (p0 :: X ++ "" :: Y ++ [q])) = (X ++ "" :: Y)%list).
  { cbn [skipn].
    replace (X ++ "" :: Y ++ [q])%list with ((X ++ "" :: Y) ++ [q])%list
      by (rewrite <- app_assoc; reflexivity).
    rewrite firstn_app.
    replace (List.length X + List.length Y + 3 - 2)%nat
      with (List.length (X ++ "" :: Y))
      by (rewrite length_app; cbn [List.length]; lia).
    rewrite firstn_all, Nat.sub_diag. cbn [firstn]. apply app_nil_r. }
  assert (Hlast : last (p0 :: X ++ "" :: Y ++ [q]) "" = q).
  { replace (p0 :: X ++ "" :: Y ++ [q])%list with ((p0 :: X ++ "" :: Y) ++ [q])%list
      by (cbn [app]; rewrite <- app_assoc; reflexivity).
    apply last_snoc. }
  rewrite Hn, Hint, (find_skip_one X Y 1 HX HY), Hlast.
  cbn [and_then hd].
  replace (List.length X + List.length Y + 3 - (1 + List.length X) - 1)%nat
    with (S (List.length Y)) by lia.
  replace (1 + List.length X - 1)%nat with (List.length X) by lia.
  replace (S (List.length Y) - 1)%nat with (List.length Y) by lia.
  assert (Hhi : firstn (1 + List.length X) (p0 :: X ++ "" :: Y ++ [q]) = p0 :: X).
  { cbn [Nat.add firstn]. rewrite firstn_app, firstn_all, Nat.sub_diag.
    cbn [firstn]. now rewrite app_nil_r. }
  assert (Hlo : skipn (List.length X + List.length Y + 3 - S (List.length Y))
                  (p0 :: X ++ "" :: Y ++ [q]) = (Y ++ [q])%list).
  { replace (p0 :: X ++ "" :: Y ++ [q])%list with ((p0 :: X ++ [""]) ++ (Y ++ [q]))%list
      by (cbn [app]; rewrite <- app_assoc; reflexivity).
    replace (List.length X + List.length Y + 3 - S (List.length Y))%nat
      with (List.length (p0 :: X ++ [""]))
      by (cbn [List.length]; rewrite length_app; cbn [List.length]; lia).
    rewrite skipn_app, skipn_all, Nat.sub_diag. reflexivity. }
  subst parts_skipped lo hi.
  destruct (String.eqb_spec p0 "") as [Ep|Ep];
    destruct (String.eqb_spec q "") as [Eq|Eq].
  - rewrite (Hp0 Ep), (Hq Eq). reflexivity.
  - rewrite (Hp0 Ep) in *. cbn [List.length Nat.eqb negb and_then].
    rewrite length_app. cbn [List.length Nat.add].
    replace (List.length Y + 1)%nat with (S (List.length Y)) by lia.
    destruct (HEXTET_COUNT - S (List.length Y) <? 1)%nat; [reflexivity|].
    cbn [and_then firstn]. cbn [List.length Nat.add] in Hlo. now rewrite Hlo.
  - rewrite (Hq Eq) in *. cbn [List.length Nat.eqb negb and_then Nat.add] in *.
    rewrite !Nat.add_0_r.
    destruct (HEXTET_COUNT - S (List.length X) <? 1)%nat; [reflexivity|].
    cbn [and_then]. rewrite Hhi.
    rewrite skipn_all2; [reflexivity|].
    cbn [List.length]. rewrite length_app. cbn [List.length app]. lia.
  - cbn [and_then List.length Nat.add] in *. rewrite length_app. cbn [List.length].
    replace (List.length Y + 1)%nat with (S (List.length Y)) by lia.
    destruct (HEXTET_COUNT - (S (List.length X + S (List.length Y))) <? 1)%nat;
      [reflexivity|].
    cbn [and_then]. now rewrite Hhi, Hlo.
Qed.

Lemma Forall_firstn {A} (P : A -> Prop) (n : nat) (l : list A) :
  Forall P l -> Forall P (firstn n l).
Proof.
  intros H. revert n. induction H as [|x l Hx _ IH]; intros [|n]; cbn [firstn];
    constructor; auto.
Qed.

Lemma Forall_skipn {A} (P : A -> Prop) (n : nat) (l : list A) :
  Forall P l -> Forall P (skipn n l).
Proof.
  intros H. revert n. induction H as [|x l Hx Hl IH]; intros [|n]; cbn [skipn];
    auto.
Qed.

Lemma hextets_nonempty (vs : list Z) :
  Forall (fun h => 0 <= h < 65536) vs ->
  Forall (fun p => String.eqb p "" = false) (map hex vs).
Proof.
  intros H. apply Forall_map. eapply Forall_impl; [|exact H].
  intros h Hh. now apply hextet_nonempty.
Qed.

(** An address without a run to compress: eight parts, all parsed in turn. *)
Lemma v6_parts_plain (vs : list Z) :
  List.length vs = 8%nat ->
  Forall (fun h => 0 <= h < 65536) vs ->
  v6_ip_int_from_parts (map hex vs) = inr (fold_left shift_in vs 0).
Proof.
  intros Hlen Hvs. pose proof (hextets_nonempty vs Hvs) as Hne.
  unfold v6_ip_int_from_parts. cbv zeta.
  rewrite length_map, Hlen.
  rewrite find_skip_none by (apply Forall_firstn, Forall_skipn, Hne).
  cbn [and_then Nat.eqb negb HEXTET_COUNT].
  destruct vs as [|v0 vs]; [discriminate Hlen|].
  inversion Hne as [|? ? Hv0 Hrest]; subst.
  cbn [map hd]. rewrite Hv0.
  assert (Hl : String.eqb (last (hex v0 :: map hex vs) "") "" = false).
  { change (hex v0 :: map hex vs) with (map hex (v0 :: vs)).
    destruct (exists_last (l := v0 :: vs)) as [l [x E]]; [discriminate|].
    rewrite E, map_app. cbn [map]. rewrite last_snoc.
    rewrite E in Hvs. apply Forall_app in Hvs as [_ Hx].
    inversion Hx; subst. now apply hextet_nonempty. }
  rewrite Hl. cbn [and_then].
  change (hex v0 :: map hex vs) with (map hex (v0 :: vs)).
  rewrite firstn_all2 by (rewrite length_map, Hlen; lia).
  rewrite skipn_all2 by (rewrite length_map, Hlen; lia).
  rewrite parse_hextets_values by exact Hvs.
  cbn [and_then parse_hextets reraise Z.of_nat Z.mul]. now rewrite Z.shiftl_0_r.
Qed.

(** An address with one run replaced: the parts before and after the
    empty part are parsed and the gap is filled with zeros. *)
Lemma v6_parts_compressed (hi lo : list Z) :
  Forall (fun h => 0 <= h < 65536) hi ->
  Forall (fun h => 0 <= h < 65536) lo ->
  (List.length hi + List.length lo <= 7)%nat ->
  v6_ip_int_from_parts
    ((if (List.length hi =? 0)%nat then [""] else [])
     ++ map hex hi ++ [""] ++ map hex lo
     ++ (if (List.length lo =? 0)%nat then [""] else []))
  = inr (fold_left shift_in lo
           (Z.shiftl (fold_left shift_in hi 0)
              (16 * Z.of_nat (8 - (List.length hi + List.length lo))))).
Proof.
  intros Hhi Hlo Hlen.
  assert (Hshape : exists p0 q X Y,
             ((if (List.length hi =? 0)%nat then [""] else [])
              ++ map hex hi ++ [""] ++ map hex lo
              ++ (if (List.length lo =? 0)%nat then [""] else []))%list
             = (p0 :: X ++ "" :: Y ++ [q])%list
             /\ Forall (fun p => String.eqb p "" = false) X
             /\ Forall (fun p => String.eqb p "" = false) Y
             /\ (p0 = "" -> X = []) /\ (q = "" -> Y = [])
             /\ (if String.eqb p0 "" then [] else p0 :: X) = map hex hi
             /\ (if String.eqb q "" then [] else (Y ++ [q])%list) = map hex lo).
  { assert (Hq : exists q Y,
               (map hex lo ++ (if (List.length lo =? 0)%nat then [""] else []))%list
               = (Y ++ [q])%list
               /\ Forall (fun p => String.eqb p "" = false) Y
               /\ (q = "" -> Y = [])
               /\ (if String.eqb q "" then [] else (Y ++ [q])%list) = map hex lo).
    { destruct lo as [|l0 lo'].
      - exists "", []. repeat split; constructor.
      - destruct (exists_last (l := l0 :: lo')) as [L [l E]]; [discriminate|].
        rewrite E in *. apply Forall_app in Hlo as [HL Hl]. inversion Hl; subst.
        exists (hex l), (map hex L).
        rewrite length_app. cbn [List.length].
        replace (List.length L + 1 =? 0)%nat with false
          by (symmetry; apply Nat.eqb_neq; lia).
        rewrite map_app, app_nil_r. cbn [map].
        rewrite hextet_nonempty by assumption.
        repeat split; [now apply hextets_nonempty|].
        intros E0. rewrite <- String.eqb_eq in E0.
        rewrite hextet_nonempty in E0 by assumption. discriminate. }
    destruct Hq as (q & Y & EY & HY & HqY & Hlo').
    destruct hi as [|h0 hi'].
    - exists "", q, [], Y. cbn [List.length Nat.eqb map app].
      rewrite EY. repeat split; try assumption; constructor.
    - inversion Hhi; subst.
      exists (hex h0), q, (map hex hi'), Y. cbn [List.length Nat.eqb map app].
      rewrite EY. rewrite hextet_nonempty by assumption.
      repeat split; try assumption; [now apply hextets_nonempty|].
      intros E0. rewrite <- String.eqb_eq in E0.
      rewrite hextet_nonempty in E0 by assumption. discriminate. }
  destruct Hshape as (p0 & q & X & Y & E & HX & HY & Hp0 & Hq & Ehi & Elo).
  rewrite E, (v6_parts_of_shape p0 q X Y HX HY Hp0 Hq). cbv zeta.
  rewrite Ehi, Elo, !length_map.
  replace (HEXTET_COUNT - (List.length hi + List.length lo) <? 1)%nat with false
    by (symmetry; apply Nat.ltb_ge; unfold HEXTET_COUNT; lia).
  rewrite parse_hextets_values by exact Hhi. cbn [and_then].
  rewrite parse_hextets_values by exact Hlo. reflexivity.
Qed.

Lemma zeros_between (vs : list Z) (s n : nat) :
  (s + n <= List.length vs)%nat ->
  (forall k, (s <= k < s + n)%nat -> nth_error vs k = Some 0) ->
  vs = (firstn s vs ++ repeat 0 n ++ skipn (s + n) vs)%list.
Proof.
  intros Hlen Hz.
  rewrite <- (firstn_skipn s vs) at 1. f_equal.
  rewrite <- (firstn_skipn n (skipn s vs)) at 1.
  rewrite skipn_skipn, (Nat.add_comm n s). f_equal.
  assert (Hl : List.length (firstn n (skipn s vs)) = n)
    by (rewrite length_firstn, length_skipn; lia).
  rewrite <- Hl at 2. apply Forall_eq_repeat.
  apply Forall_forall. intros x Hx.
  apply In_nth_error in Hx as [k Hk].
  assert (Hkn : (k < n)%nat).
  { rewrite <- Hl. apply nth_error_Some. now rewrite Hk. }
  rewrite nth_error_firstn in Hk.
  replace (k <? n)%nat with true in Hk by (symmetry; now apply Nat.ltb_lt).
  rewrite nth_error_skipn, Hz in Hk by lia. congruence.
Qed.

Lemma v6_parts_round_trip (vs : list Z) :
  List.length vs = 8%nat ->
  Forall (fun h => 0 <= h < 65536) vs ->
  v6_ip_int_from_parts (_compress_hextets (map hex vs))
  = inr (fold_left shift_in vs 0).
Proof.
  intros Hlen Hvs.
  destruct (compress_shape (map hex vs)) as [E|(s & n & Hn & Hsn & Hz & E)];
    rewrite E; clear E; [now apply v6_parts_plain|].
  rewrite length_map in Hsn |- *. rewrite Hlen in Hsn |- *.
  assert (Hzero : forall k, (s <= k < s + n)%nat -> nth_error vs k = Some 0).
  { intros k Hk. specialize (Hz k Hk). rewrite nth_error_map in Hz.
    destruct (nth_error vs k) as [v|] eqn:Ev; [|discriminate].
    cbn [option_map] in Hz. injection Hz as Hz.
    assert (Hv : 0 <= v < 65536).
    { rewrite Forall_forall in Hvs. eapply Hvs, nth_error_In, Ev. }
    rewrite <- String.eqb_eq, (hextet_zero v Hv) in Hz.
    apply Z.eqb_eq in Hz. now subst. }
  assert (Hvs3 : vs = (firstn s vs ++ repeat 0 n ++ skipn (s + n) vs)%list)
    by (apply zeros_between; [lia | exact Hzero]).
  rewrite firstn_map, skipn_map.
  assert (Hl1 : List.length (firstn s vs) = s) by (rewrite length_firstn; lia).
  assert (Hl2 : List.length (skipn (s + n) vs) = (8 - (s + n))%nat)
    by (rewrite length_skipn; lia).
  replace (s =? 0)%nat with (List.length (firstn s vs) =? 0)%nat by now rewrite Hl1.
  replace (s + n =? 8)%nat with (List.length (skipn (s + n) vs) =? 0)%nat.
  2:{ rewrite Hl2. destruct (Nat.eqb_spec (s + n) 8) as [H|H];
        [apply Nat.eqb_eq | apply Nat.eqb_neq]; lia. }
  rewrite v6_parts_compressed
    by (try apply Forall_firstn; try apply Forall_skipn; try exact Hvs; lia).
  rewrite Hl1, Hl2. symmetry. rewrite Hvs3 at 1.
  rewrite !fold_left_app, shift_in_zeros.
  do 3 f_equal. lia.
Qed.

Lemma compress_keeps (P : string -> Prop) (hextets : list string) :
  P "" -> Forall P hextets -> Forall P (_compress_hextets hextets).
Proof.
  intros H0 H. unfold _compress_hextets.
  set (st := scan_hextets _ 0 hextets).
  destruct (1 <? best_doublecolon_len st); [|exact H].
  assert (H' : Forall P (if best_doublecolon_start st + best_doublecolon_len st
                            =? Py.len hextets
                         then hextets ++ [""] else hextets)%list).
  { destruct (_ =? _); [|exact H]. apply Forall_app. split; [exact H|].
    now constructor. }
  assert (Hbody : Forall P
            (firstn (Z.to_nat (best_doublecolon_start st))
               (if best_doublecolon_start st + best_doublecolon_len st
                   =? Py.len hextets
                then hextets ++ [""] else hextets)
             ++ [""] ++ skipn (Z.to_nat (best_doublecolon_start st
                                          + best_doublecolon_len st))
                          (if best_doublecolon_start st + best_doublecolon_len st
                              =? Py.len hextets
                           then hextets ++ [""] else hextets))%list).
  { apply Forall_app. split; [now apply Forall_firstn|].
    apply Forall_app. split; [now constructor | now apply Forall_skipn]. }
  destruct (best_doublecolon_start st =? 0); [now constructor | exact Hbody].
Qed.

Lemma compress_length (hextets : list string) :
  List.length hextets = 8%nat ->
  (3 <= List.length (_compress_hextets hextets) <= 9)%nat.
Proof.
  intros Hlen.
  destruct (compress_shape hextets) as [E|(s & n & Hn & Hsn & _ & E)]; rewrite E.
  - lia.
  - rewrite !length_app, length_firstn, length_skipn. cbn [List.length].
    destruct (Nat.eqb_spec s 0), (Nat.eqb_spec (s + n) (List.length hextets));
      cbn [List.length]; lia.
Qed.

Lemma Forall_last {A} (P : A -> Prop) (l : list A) (d : A) :
  l <> [] -> Forall P l -> P (last l d).
Proof.
  intros Hne H. destruct (exists_last Hne) as [l' [x E]]. subst.
  rewrite last_snoc. apply Forall_app in H as [_ H]. now inversion H.
Qed.

Lemma join_nonempty (sep : ascii) (parts : list string) :
  (2 <= List.length parts)%nat ->
  String.eqb (Py.join (String sep "") parts) "" = false
  /\ Py.contains sep (Py.join (String sep "") parts) = true.
Proof.
  destruct parts as [|p [|q qs]]; cbn [List.length]; try lia. intros _.
  change (Py.join (String sep "") (p :: q :: qs))
    with (p ++ String sep (Py.join (String sep "") (q :: qs))).
  split; [apply eqb_append_nonempty|].
  rewrite contains_append. cbn [Py.contains]. rewrite Ascii.eqb_refl.
  now rewrite orb_true_r.
Qed.

(** What the printed parts of an IPv6 address look like. *)
Lemma v6_parts_printed (ip : Z) :
  let parts := _compress_hextets (hextets_of ip) in
  (3 <= List.length parts <= 9)%nat
  /\ Forall (fun p => free_of ":./%" p = true) parts.
Proof.
  intros parts. split.
  - apply compress_length. unfold hextets_of. now rewrite length_map.
  - apply compress_keeps; [reflexivity|].
    unfold hextets_of. apply Forall_map.
    eapply Forall_impl; [|apply hextet_values_range].
    intros h Hh. now apply hextet_free.
Qed.

Lemma v6_round_trip (ip : Z) :
  0 <= ip <= ALL_ONES6 ->
  v6_ip_int_from_string (v6_string_from_ip_int ip) = inr ip.
Proof.
  intros Hip. unfold v6_ip_int_from_string, v6_string_from_ip_int.
  destruct (v6_parts_printed ip) as [Hlen Hfree]. cbv zeta in Hlen, Hfree.
  set (parts := _compress_hextets (hextets_of ip)) in *.
  assert (Hne : parts <> []) by (intros E; rewrite E in Hlen; cbn in Hlen; lia).
  destruct (join_nonempty ":" parts) as [Hnonempty _]; [lia|].
  rewrite Hnonempty.
  rewrite split_join;
    [|exact Hne
     |eapply Forall_impl; [|exact Hfree]; intros p Hp;
      now apply (free_of_contains ":" ":./%")].
  unfold Py.len.
  replace (Z.of_nat (List.length parts) <? 3) with false
    by (symmetry; apply Z.ltb_ge; lia).
  assert (Hdot : Py.contains "." (last parts "") = false).
  { apply (Forall_last (fun p => Py.contains "." p = false)); [exact Hne|].
    eapply Forall_impl; [|exact Hfree]. intros p Hp.
    now apply (free_of_contains "." ":./%"). }
  rewrite Hdot. cbn [and_then].
  replace (Z.of_nat HEXTET_COUNT + 1 <? Z.of_nat (List.length parts)) with false
    by (symmetry; apply Z.ltb_ge; unfold HEXTET_COUNT; lia).
  unfold parts, hextets_of.
  rewrite v6_parts_round_trip;
    [now rewrite hextet_values_value | reflexivity | apply hextet_values_range].
Qed.

(** ** Networks of printed addresses *)

Lemma join_split (sep : ascii) (s : string) :
  Py.join (String sep "") (Py.split sep s) = s.
Proof.
  induction s as [|c s IH]; [reflexivity|].
  cbn [Py.split]. destruct (Ascii.eqb_spec c sep) as [->|Hne].
  - pose proof (split_not_nil sep s) as Hnil.
    destruct (Py.split sep s) as [|p ps] eqn:E; [contradiction|].
    change (Py.join (String sep "") ("" :: p :: ps))
      with ("" ++ String sep (Py.join (String sep "") (p :: ps))).
    now rewrite IH.
  - pose proof (split_not_nil sep s) as Hnil.
    destruct (Py.split sep s) as [|p ps] eqn:E; [contradiction|].
    destruct ps as [|q qs]; cbn [Py.join] in *; now rewrite <- IH.
Qed.

Lemma all_no (p : ascii -> bool) (c : ascii) (s : string) :
  all p s = true -> p c = false -> Py.contains c s = false.
Proof.
  intros Hall Hc. induction s as [|d s IH]; [reflexivity|].
  cbn [all Py.contains] in *. apply andb_true_iff in Hall as [Hd Hs].
  rewrite (IH Hs), orb_false_r. apply Ascii.eqb_neq. intros ->. congruence.
Qed.

Lemma parse_octet_digits (o : string) (b : Z) :
  _parse_octet o = inr b -> all isdigit o = true.
Proof.
  unfold _parse_octet. destruct (String.eqb o ""); [discriminate|].
  destruct (all isdigit o); [reflexivity | discriminate].
Qed.

Lemma map_result_all {A B} (f : A -> result B) (P : A -> Prop) (l : list A)
    (r : list B) :
  (forall x y, f x = inr y -> P x) -> map_result f l = inr r -> Forall P l.
Proof.
  intros Hf. revert r. induction l as [|x l IH]; intros r H; [constructor|].
  cbn [map_result] in H. destruct (f x) as [e|y] eqn:Ex; [discriminate|].
  cbn [and_then] in H. destruct (map_result f l) as [e|ys]; [discriminate|].
  constructor; [eapply Hf, Ex | eapply IH; reflexivity].
Qed.

(** Every failure of the IPv4 parser is an address error. *)
Lemma v4_error_kind (s : string) (e : exn) :
  IPv4Address_ip s = inl e -> e = AddressValueError.
Proof.
  unfold IPv4Address_ip, v4_ip_int_from_string.
  destruct (Py.contains "/" s); [congruence|].
  destruct (String.eqb s ""); [congruence|].
  destruct (negb _); [congruence|].
  destruct (map_result _parse_octet (Py.split "." s)); cbn; congruence.
Qed.

(** A string with a colon is no IPv4 address. *)
Lemma v4_rejects_colon (s : string) :
  Py.contains ":" s = true -> IPv4Address_ip s = inl AddressValueError.
Proof.
  intros Hc. destruct (IPv4Address_ip s) as [e|ip] eqn:E.
  - now rewrite (v4_error_kind s e E).
  - exfalso. unfold IPv4Address_ip, v4_ip_int_from_string in E.
    destruct (Py.contains "/" s); [discriminate|].
    destruct (String.eqb s ""); [discriminate|].
    destruct (negb _); [discriminate|].
    destruct (map_result _parse_octet (Py.split "." s)) as [e|bs] eqn:Em;
      [discriminate|].
    apply (map_result_all _ (fun o => Py.contains ":" o = false)) in Em.
    + rewrite <- (join_split "." s), contains_join in Hc;
        [discriminate | reflexivity | exact Em].
    + intros o b Ho. apply parse_octet_digits in Ho.
      now apply (all_no isdigit).
Qed.

Lemma partition_no_percent (s : string) :
  Py.contains "%" s = false -> partition_percent s = (s, false, "").
Proof.
  induction s as [|c s IH]; [reflexivity|].
  cbn [Py.contains partition_percent]. intros H.
  apply orb_false_iff in H as [Hc Hs]. now rewrite Hc, (IH Hs).
Qed.

Lemma partition_append (s1 s2 : string) :
  Py.contains "%" s1 = false ->
  partition_percent (s1 ++ String "%" s2) = (s1, true, s2).
Proof.
  induction s1 as [|c s1 IH]; [reflexivity|].
  cbn [Py.contains partition_percent append]. intros H.
  apply orb_false_iff in H as [Hc Hs]. now rewrite Hc, (IH Hs).
Qed.

Lemma v6_string_free (c : ascii) (ip : Z) :
  Py.contains c ":./%" = true -> c <> ":"%char ->
  Py.contains c (v6_string_from_ip_int ip) = false.
Proof.
  intros Hc Hne. unfold v6_string_from_ip_int.
  destruct (v6_parts_printed ip) as [_ Hfree]. cbv zeta in Hfree.
  apply contains_join.
  - cbn [Py.contains]. rewrite orb_false_r. apply Ascii.eqb_neq. congruence.
  - eapply Forall_impl; [|exact Hfree]. intros p Hp.
    now apply (free_of_contains c ":./%").
Qed.

Lemma v6_string_colon (ip : Z) :
  Py.contains ":" (v6_string_from_ip_int ip) = true.
Proof.
  unfold v6_string_from_ip_int.
  destruct (v6_parts_printed ip) as [Hlen _]. cbv zeta in Hlen.
  apply join_nonempty. lia.
Qed.

Lemma valid_v4 (ip : Z) :
  valid_address (IPv4Address ip) = true <-> 0 <= ip <= ALL_ONES4.
Proof. cbn [valid_address]. rewrite andb_true_iff, Z.leb_le, Z.leb_le. tauto. Qed.

Lemma valid_v6 (ip : Z) (scope_id : option string) :
  valid_address (IPv6Address ip scope_id) = true
  <-> 0 <= ip <= ALL_ONES6 /\ valid_scope_id scope_id = true.
Proof.
  cbn [valid_address]. rewrite !andb_true_iff, Z.leb_le, Z.leb_le. tauto.
Qed.

Lemma valid_scope_some (s : string) :
  valid_scope_id (Some s) = true ->
  String.eqb s "" = false /\ Py.contains "%" s = false /\ Py.contains "/" s = false.
Proof.
  cbn [valid_scope_id]. rewrite !andb_true_iff, !negb_true_iff. tauto.
Qed.

(** A printed address has no slash, and parses back to the same object. *)
Lemma str_free_of_slash (a : Address) :
  valid_address a = true -> Py.contains "/" (str a) = false.
Proof.
  destruct a as [ip|ip [scope|]]; cbn [str Py.truthy Py.str]; intros Hv.
  - apply v4_string_free.
  - apply valid_v6 in Hv as [_ Hs]. apply valid_scope_some in Hs as (Hne & _ & Hsl).
    destruct scope as [|c scope]; [discriminate Hne|].
    rewrite !contains_append, Hsl, v6_string_free; [reflexivity | reflexivity |].
    discriminate.
  - apply v6_string_free; [reflexivity | discriminate].
Qed.

Lemma v6_address_round_trip (ip : Z) (scope_id : option string) :
  valid_address (IPv6Address ip scope_id) = true ->
  IPv6Address_of_string (str (IPv6Address ip scope_id))
  = inr (IPv6Address ip scope_id).
Proof.
  intros Hv. unfold IPv6Address_of_string.
  rewrite (str_free_of_slash _ Hv).
  apply valid_v6 in Hv as [Hip Hs].
  assert (Hpc : Py.contains "%" (v6_string_from_ip_int ip) = false)
    by (apply v6_string_free; [reflexivity | discriminate]).
  unfold _split_scope_id. destruct scope_id as [scope|]; cbn [str Py.truthy Py.str].
  - apply valid_scope_some in Hs as (Hne & Hpct & _).
    destruct scope as [|c scope]; [discriminate Hne|].
    change (v6_string_from_ip_int ip ++ "%" ++ String c scope)
      with (v6_string_from_ip_int ip ++ String "%" (String c scope)).
    rewrite (partition_append _ _ Hpc). cbn [negb]. rewrite Hne, Hpct.
    cbn [orb and_then]. now rewrite (v6_round_trip ip Hip).
  - rewrite (partition_no_percent _ Hpc). cbn [negb and_then].
    now rewrite (v6_round_trip ip Hip).
Qed.

Lemma v6_is_no_v4 (ip : Z) (scope_id : option string) :
  IPv4Address_ip (str (IPv6Address ip scope_id)) = inl AddressValueError.
Proof.
  apply v4_rejects_colon. cbn [str].
  destruct (Py.truthy scope_id); [|apply v6_string_colon].
  now rewrite contains_append, v6_string_colon.
Qed.

Lemma prefix_free (p : Z) : 0 <= p <= 128 -> Py.contains "/" (str_int p) = false.
Proof.
  intros H. apply prefix_table in H. unfold prefix_ok in H.
  apply andb_true_iff in H as [_ H]. cbn [free_of] in H.
  rewrite andb_true_r in H. now apply negb_true_iff.
Qed.

Lemma v6_prefix_parses (p : Z) :
  0 <= p <= 128 -> v6_make_netmask (str_int p) = inr p.
Proof.
  intros H. apply prefix_table in H. unfold prefix_ok in H.
  apply andb_true_iff in H as [H _]. apply andb_true_iff in H as [H _].
  now apply returns_inr.
Qed.

Lemma v4_prefix_parses (p : Z) :
  0 <= p <= 32 -> v4_make_netmask (str_int p) = inr p.
Proof.
  intros H. assert (H' : 0 <= p <= 128) by lia.
  apply prefix_table in H'. unfold prefix_ok in H'.
  apply andb_true_iff in H' as [H' _]. apply andb_true_iff in H' as [_ H'].
  replace (p <=? 32) with true in H' by (symmetry; apply Z.leb_le; lia).
  now apply returns_inr.
Qed.

Lemma split_address_prefix (a : Address) (p : Z) :
  valid_address a = true -> 0 <= p <= 128 ->
  _split_optional_netmask (str a ++ "/" ++ str_int p) = inr [str a; str_int p].
Proof.
  intros Ha Hp. unfold _split_optional_netmask.
  change (str a ++ "/" ++ str_int p) with (str a ++ String "/" (str_int p)).
  rewrite split_append by now apply str_free_of_slash.
  rewrite split_no_sep by now apply prefix_free.
  reflexivity.
Qed.

Lemma valid_prefixes_range (cfg : Config) :
  valid_prefixes cfg = true ->
  0 <= real_ip_ipv4_prefix cfg <= 32 /\ 0 <= real_ip_ipv6_prefix cfg <= 128.
Proof.
  unfold valid_prefixes. rewrite !andb_true_iff, !Z.leb_le. tauto.
Qed.

(** The network of a printed address and prefix: the address under the
    netmask, at the width of its version. *)
Lemma ip_network_of_address (a : Address) (p : Z) :
  valid_address a = true ->
  0 <= p <= max_prefixlen a ->
  ip_network (str a ++ "/" ++ str_int p) false
  = inr {| network_address := masked a p; prefixlen := p |}.
Proof.
  intros Ha Hp. unfold ip_network.
  destruct a as [ip|ip scope_id]; cbn [max_prefixlen] in Hp.
  - unfold IPv4Network_of_string.
    rewrite split_address_prefix by (try exact Ha; lia).
    cbn [and_then hd str].
    rewrite v4_round_trip by now apply valid_v4.
    cbn [and_then]. rewrite v4_prefix_parses by exact Hp. cbn [and_then].
    unfold masked. cbn [to_int netmask_for].
    now destruct (Z.land ip (_ip_int_from_prefix ALL_ONES4 p) =? ip).
  - unfold IPv4Network_of_string.
    rewrite split_address_prefix by (try exact Ha; lia).
    cbn [and_then hd]. rewrite v6_is_no_v4. cbn [and_then is_address_error].
    unfold IPv6Network_of_string.
    rewrite split_address_prefix by (try exact Ha; lia).
    cbn [and_then hd]. rewrite v6_address_round_trip by exact Ha.
    cbn [and_then]. rewrite v6_prefix_parses by exact Hp. cbn [and_then].
    unfold masked. cbn [to_int netmask_for].
    now destruct (Z.land ip (_ip_int_from_prefix ALL_ONES6 p) =? ip).
Qed.

(** [get_network] on an address object and a configuration in range. *)
Lemma get_network_masks (a : Address) (cfg : Config) :
  valid_address a = true ->
  valid_prefixes cfg = true ->
  let prefix :=
    if version a =? 6 then real_ip_ipv6_prefix cfg else real_ip_ipv4_prefix cfg in
  get_network a cfg = inr {| network_address := masked a prefix; prefixlen := prefix |}.
Proof.
  intros Ha Hcfg prefix. unfold get_network. fold prefix.
  apply ip_network_of_address; [exact Ha|].
  apply valid_prefixes_range in Hcfg. subst prefix.
  destruct a; cbn [version max_prefixlen]; [change (4 =? 6) with false
                                           | change (6 =? 6) with true];
    cbv iota; lia.
Qed.

(** *** What the netmask leaves of an address *)

Lemma netmask_bits (width p i : Z) :
  0 <= p <= width -> 0 <= i ->
  Z.testbit (_ip_int_from_prefix (2 ^ width - 1) p) i
  = (width - p <=? i) && (i <? width).
Proof.
  intros Hp Hi. unfold _ip_int_from_prefix.
  change (2 ^ width - 1) with (Z.pred (2 ^ width)). rewrite <- Z.ones_equiv.
  rewrite Z.lxor_spec, Z.shiftr_spec, !Z.testbit_ones_nonneg by lia.
  destruct (Z.ltb_spec i width), (Z.ltb_spec (i + p) width),
    (Z.leb_spec (width - p) i); cbn; try reflexivity; lia.
Qed.

Lemma land_netmask (width p ip : Z) :
  0 <= p <= width -> 0 <= ip < 2 ^ width ->
  Z.land ip (_ip_int_from_prefix (2 ^ width - 1) p)
  = Z.shiftl (Z.shiftr ip (width - p)) (width - p).
Proof.
  intros Hp Hip. apply Z.bits_inj'. intros i Hi.
  rewrite Z.land_spec, netmask_bits by lia.
  destruct (Z.leb_spec (width - p) i) as [Hge|Hlt].
  - rewrite Z.shiftl_spec, Z.shiftr_spec by lia.
    replace (i - (width - p) + (width - p)) with i by lia.
    destruct (Z.ltb_spec i width) as [Hw|Hw]; [now rewrite andb_true_r|].
    rewrite andb_false_r. symmetry.
    destruct (Z.eq_dec ip 0) as [->|Hne]; [apply Z.bits_0|].
    apply Z.bits_above_log2; [lia|].
    assert (Z.log2 ip < width) by (apply Z.log2_lt_pow2; lia). lia.
  - rewrite Z.shiftl_spec_low by lia. now rewrite andb_false_r.
Qed.

(** The network address keeps the version and the bits of the prefix
    and has every host bit cleared. *)
Lemma masked_clears_host_bits (a : Address) (p : Z) :
  valid_address a = true ->
  0 <= p <= max_prefixlen a ->
  version (masked a p) = version a
  /\ to_int (masked a p)
     = Z.shiftl (Z.shiftr (to_int a) (max_prefixlen a - p)) (max_prefixlen a - p).
Proof.
  intros Ha Hp. unfold masked.
  assert (Hland : Z.land (to_int a) (netmask_for a p)
                  = Z.shiftl (Z.shiftr (to_int a) (max_prefixlen a - p))
                      (max_prefixlen a - p)).
  { destruct a as [ip|ip scope_id]; cbn [to_int netmask_for max_prefixlen] in *.
    - apply valid_v4 in Ha. apply (land_netmask 32); [lia|].
      unfold ALL_ONES4, IPV4LENGTH in Ha. lia.
    - apply valid_v6 in Ha as [Ha _]. apply (land_netmask 128); [lia|].
      unfold ALL_ONES6, IPV6LENGTH in Ha. lia. }
  destruct (Z.eqb_spec (Z.land (to_int a) (netmask_for a p)) (to_int a)) as [E|E].
  - split; [reflexivity|]. now rewrite <- Hland.
  - destruct a; cbn [version to_int]; split; try reflexivity; exact Hland.
Qed.

(** ** Parsed addresses fit their width *)

Lemma isdigit_value (c : ascii) : isdigit c = true -> 0 <= digit_value c <= 9.
Proof.
  destruct c as [[] [] [] [] [] [] [] []]; intros H;
    try discriminate H; vm_compute; split; discriminate.
Qed.

Lemma ishex_value (c : ascii) : ishex c = true -> 0 <= digit_value c <= 15.
Proof.
  destruct c as [[] [] [] [] [] [] [] []]; intros H;
    try discriminate H; vm_compute; split; discriminate.
Qed.

Lemma int_acc_bound (p : ascii -> bool) (base : Z) (s : string) (acc : Z) :
  (forall c, p c = true -> 0 <= digit_value c <= base - 1) ->
  all p s = true ->
  0 <= acc ->
  0 <= int_acc base acc s <= (acc + 1) * base ^ slen s - 1.
Proof.
  intros Hp. revert acc. induction s as [|c s IH]; intros acc Hall Hacc.
  - cbn. lia.
  - cbn [all int_acc] in *. apply andb_true_iff in Hall as [Hc Hs].
    specialize (Hp c Hc).
    assert (Hbase : 1 <= base) by lia.
    specialize (IH (acc * base + digit_value c) Hs ltac:(nia)).
    unfold slen in *. cbn [String.length]. rewrite Nat2Z.inj_succ, Z.pow_succ_r by lia.
    assert (Hpow : 0 < base ^ Z.of_nat (String.length s)) by (apply Z.pow_pos_nonneg; lia).
    split; [lia|]. nia.
Qed.

Lemma parse_octet_range (o : string) (b : Z) :
  _parse_octet o = inr b -> 0 <= b <= 255.
Proof.
  intros H. pose proof (parse_octet_digits o b H) as Hd.
  unfold _parse_octet in H. rewrite Hd in H. cbn [negb] in H.
  destruct (String.eqb o ""); [discriminate|].
  destruct (3 <? slen o); [discriminate|].
  destruct (negb (String.eqb o "0") && first_is "0" o); [discriminate|].
  destruct (Z.ltb_spec 255 (Ipaddress.int o 10)) as [Hgt|Hle]; [discriminate|].
  injection H as <-. split; [|exact Hle].
  apply (int_acc_bound isdigit 10 o 0); [|exact Hd|lia].
  intros c Hc. apply isdigit_value in Hc. lia.
Qed.

Lemma parse_hextet_range (p : string) (h : Z) :
  _parse_hextet p = inr h -> 0 <= h < 65536.
Proof.
  unfold _parse_hextet. destruct (all ishex p) eqn:Hx; [|discriminate].
  cbn [negb]. destruct (Z.ltb_spec 4 (slen p)) as [Hgt|Hle]; [discriminate|].
  destruct (String.eqb p ""); [discriminate|].
  intros H. injection H as <-.
  pose proof (int_acc_bound ishex 16 p 0) as Hb.
  destruct Hb as [Hlo Hhi]; [|exact Hx|lia|].
  { intros c Hc. apply ishex_value in Hc. lia. }
  split; [exact Hlo|].
  assert (Hpow : 16 ^ slen p <= 16 ^ 4)
    by (apply Z.pow_le_mono_r; [lia | exact Hle]).
  unfold Ipaddress.int. change (16 ^ 4) with 65536 in Hpow. lia.
Qed.

Lemma map_result_each {A B} (f : A -> result B) (Q : B -> Prop) (l : list A)
    (r : list B) :
  (forall x y, f x = inr y -> Q y) ->
  map_result f l = inr r ->
  Forall Q r /\ List.length r = List.length l.
Proof.
  intros Hf. revert r. induction l as [|x l IH]; intros r H.
  - injection H as <-. split; [constructor | reflexivity].
  - cbn [map_result] in H. destruct (f x) as [e|y] eqn:Ex; [discriminate|].
    cbn [and_then] in H. destruct (map_result f l) as [e|ys]; [discriminate|].
    injection H as <-. destruct (IH ys eq_refl) as [HQ Hlen].
    split; [constructor; [eapply Hf, Ex | exact HQ] | cbn; now rewrite Hlen].
Qed.

Lemma v4_parsed_range (s : string) (ip : Z) :
  IPv4Address_ip s = inr ip -> 0 <= ip <= ALL_ONES4.
Proof.
  unfold IPv4Address_ip, v4_ip_int_from_string.
  destruct (Py.contains "/" s); [discriminate|].
  destruct (String.eqb s ""); [discriminate|].
  destruct (Z.eqb_spec (Py.len (Py.split "." s)) 4) as [Hlen|Hlen];
    [|discriminate]. cbn [negb].
  destruct (map_result _parse_octet (Py.split "." s)) as [e|bs] eqn:Em;
    [discriminate|].
  cbn. intros H. injection H as <-.
  destruct (map_result_each _ (fun b => 0 <= b <= 255) _ _ parse_octet_range Em)
    as [Hbs Hl].
  unfold Py.len in Hlen. rewrite <- Hl in Hlen.
  destruct bs as [|b0 [|b1 [|b2 [|b3 [|b4 bs]]]]]; cbn [List.length] in Hlen; try lia.
  inversion Hbs as [|? ? H0 Hbs1]; subst. inversion Hbs1 as [|? ? H1 Hbs2]; subst.
  inversion Hbs2 as [|? ? H2 Hbs3]; subst. inversion Hbs3 as [|? ? H3 _]; subst.
  unfold from_bytes, ALL_ONES4, IPV4LENGTH. cbn [fold_left].
  change (2 ^ 32 - 1) with 4294967295. lia.
Qed.

Lemma lor_bound (a b : Z) : 0 <= a -> 0 <= b -> 0 <= Z.lor a b <= a + b.
Proof.
  intros Ha Hb. split; [now apply Z.lor_nonneg|].
  pose proof (Z.add_lor_land a b) as H.
  assert (0 <= Z.land a b) by (apply Z.land_nonneg; now left). lia.
Qed.

Lemma parse_hextets_bound (parts : list string) (acc k r : Z) :
  0 <= k -> 0 <= acc < 2 ^ k ->
  parse_hextets acc parts = inr r ->
  0 <= r < 2 ^ (k + 16 * Z.of_nat (List.length parts)).
Proof.
  revert acc k. induction parts as [|p parts IH]; intros acc k Hk Hacc H.
  - cbn in *. injection H as <-. now rewrite Z.add_0_r.
  - cbn [parse_hextets] in H. destruct (_parse_hextet p) as [e|h] eqn:Eh;
      [discriminate|]. cbn [and_then] in H.
    apply parse_hextet_range in Eh.
    apply (IH _ (k + 16)) in H; [|lia|].
    + cbn [List.length]. rewrite Nat2Z.inj_succ.
      replace (k + 16 * Z.succ (Z.of_nat (List.length parts)))
        with (k + 16 + 16 * Z.of_nat (List.length parts)) by lia.
      exact H.
    + rewrite Z.shiftl_mul_pow2 by lia.
      pose proof (lor_bound (acc * 2 ^ 16) h ltac:(lia) ltac:(lia)) as Hl.
      rewrite Z.pow_add_r by lia. change (2 ^ 16) with 65536 in *. nia.
Qed.

Lemma two_runs_bound (parts : list string) (hi lo skipped : nat) (ip : Z) :
  (hi + lo + skipped <= 8)%nat ->
  reraise AddressValueError
    (let! ip_int := parse_hextets 0 (firstn hi parts) in
     parse_hextets (Z.shiftl ip_int (16 * Z.of_nat skipped))
       (skipn (List.length parts - lo) parts)) = inr ip ->
  0 <= ip <= ALL_ONES6.
Proof.
  intros Hsum H.
  destruct (parse_hextets 0 (firstn hi parts)) as [e|ip1] eqn:E1; [discriminate|].
  cbn [and_then] in H.
  destruct (parse_hextets (Z.shiftl ip1 (16 * Z.of_nat skipped))
              (skipn (List.length parts - lo) parts)) as [e|ip2] eqn:E2;
    [discriminate|].
  cbn [reraise] in H. injection H as <-.
  apply (parse_hextets_bound _ 0 0) in E1; [|lia|cbn; lia].
  pose proof (length_firstn hi parts) as Hl1.
  pose proof (length_skipn (List.length parts - lo) parts) as Hl2.
  set (k1 := 0 + 16 * Z.of_nat (List.length (firstn hi parts))) in *.
  apply (parse_hextets_bound _ _ (k1 + 16 * Z.of_nat skipped)) in E2; [|lia|].
  - assert (Hk : k1 + 16 * Z.of_nat skipped
                 + 16 * Z.of_nat (List.length (skipn (List.length parts - lo) parts))
                 <= 128) by lia.
    assert (Hp : 2 ^ (k1 + 16 * Z.of_nat skipped
                      + 16 * Z.of_nat (List.length
                                         (skipn (List.length parts - lo) parts)))
                 <= 2 ^ 128) by (apply Z.pow_le_mono_r; lia).
    unfold ALL_ONES6, IPV6LENGTH. lia.
  - rewrite Z.shiftl_mul_pow2 by lia. rewrite Z.pow_add_r by lia.
    assert (0 < 2 ^ (16 * Z.of_nat skipped)) by (apply Z.pow_pos_nonneg; lia).
    nia.
Qed.

Lemma v6_parts_range (parts : list string) (ip : Z) :
  v6_ip_int_from_parts parts = inr ip -> 0 <= ip <= ALL_ONES6.
Proof.
  unfold v6_ip_int_from_parts. cbv zeta.
  destruct (find_skip _ 1 None) as [e|skip_index]; cbn [and_then];
    [discriminate|].
  match goal with
  | |- and_then ?T _ = _ -> _ => destruct T as [e|[[hi lo] skipped]] eqn:ET
  end; cbn [and_then]; [discriminate|].
  apply two_runs_bound.
  remember HEXTET_COUNT as count eqn:Hcount in ET.
  destruct skip_index as [skip_index|];
    repeat match type of ET with
           | context [if ?c then _ else _] => destruct c eqn:?; cbn [and_then] in ET
           end;
    try discriminate ET; injection ET as <- <- <-;
    repeat match goal with
           | H : (_ <? _)%nat = false |- _ => apply Nat.ltb_ge in H
           | H : negb (_ =? _)%nat = false |- _ =>
               apply negb_false_iff, Nat.eqb_eq in H
           end;
    unfold HEXTET_COUNT in Hcount; lia.
Qed.

Lemma v6_parsed_range (s : string) (ip : Z) :
  v6_ip_int_from_string s = inr ip -> 0 <= ip <= ALL_ONES6.
Proof.
  unfold v6_ip_int_from_string.
  destruct (String.eqb s ""); [discriminate|]. cbv zeta.
  destruct (Py.len (Py.split ":" s) <? 3); [discriminate|].
  destruct (Py.contains "." (last (Py.split ":" s) "")).
  - destruct (IPv4Address_ip (last (Py.split ":" s) "")); cbn [reraise and_then];
      [discriminate|].
    destruct (_ <? _); [discriminate | apply v6_parts_range].
  - cbn [and_then]. destruct (_ <? _); [discriminate | apply v6_parts_range].
Qed.

Lemma partition_spec (s a b : string) :
  partition_percent s = (a, true, b) -> s = a ++ String "%" b.
Proof.
  revert a. induction s as [|c s IH]; intros a; [discriminate|].
  cbn [partition_percent]. destruct (Ascii.eqb_spec c "%") as [->|Hne].
  - intros H. injection H as <- <-. reflexivity.
  - destruct (partition_percent s) as [[a' sep] b'].
    intros H. injection H as <- -> <-. cbn [append]. f_equal. now apply IH.
Qed.

Lemma v6_address_valid (s : string) (a : Address) :
  IPv6Address_of_string s = inr a -> valid_address a = true.
Proof.
  unfold IPv6Address_of_string.
  destruct (Py.contains "/" s) eqn:Hslash; [discriminate|].
  unfold _split_scope_id.
  destruct (partition_percent s) as [[addr sep] scope] eqn:Ep.
  destruct sep; cbn [negb].
  - destruct (String.eqb scope "") eqn:Hne; [discriminate|].
    destruct (Py.contains "%" scope) eqn:Hpct; [discriminate|].
    cbn [orb and_then].
    destruct (v6_ip_int_from_string addr) as [e|ip] eqn:Ev; [discriminate|].
    cbn [and_then]. intros H. injection H as <-.
    apply valid_v6. split; [now apply (v6_parsed_range addr)|].
    cbn [valid_scope_id]. rewrite Hne, Hpct.
    apply partition_spec in Ep. subst s.
    rewrite contains_append in Hslash. apply orb_false_iff in Hslash as [_ Hs].
    cbn [Py.contains] in Hs. apply orb_false_iff in Hs as [_ Hs].
    now rewrite Hs.
  - cbn [and_then].
    destruct (v6_ip_int_from_string addr) as [e|ip] eqn:Ev; [discriminate|].
    cbn [and_then]. intros H. injection H as <-.
    apply valid_v6. split; [now apply (v6_parsed_range addr) | reflexivity].
Qed.

(** [ip_address] builds address objects that fit their width, and its
    only failure is [ValueError]. *)
Lemma ip_address_valid (s : string) (a : Address) :
  ip_address s = inr a -> valid_address a = true.
Proof.
  unfold ip_address. destruct (IPv4Address_ip s) as [e|ip] eqn:E4.
  - destruct (IPv6Address_of_string s) as [e'|a'] eqn:E6; [discriminate|].
    intros H. injection H as <-. now apply (v6_address_valid s).
  - intros H. injection H as <-. apply valid_v4. now apply (v4_parsed_range s).
Qed.

Lemma ip_address_error (s : string) (e : exn) :
  ip_address s = inl e -> e = ValueError.
Proof.
  unfold ip_address. destruct (IPv4Address_ip s); [|discriminate].
  destruct (IPv6Address_of_string s); [|discriminate]. congruence.
Qed.

(** ** The network of a client address *)

(** C4: with prefix lengths in range, [get_network] returns a network
    for every address object; starting from a string, building the
    address object with [ip_address] is the only step that can fail,
    and it fails with [ValueError] exactly when the string is not an
    address. *)
Theorem C4_fails_only_on_unparseable_address (cfg : Config) :
  valid_prefixes cfg = true ->
  (forall a, valid_address a = true -> exists n, get_network a cfg = inr n)
  /\ (forall s a,
        ip_address s = inr a -> exists n, network_of_string s cfg = inr n)
  /\ (forall s e,
        network_of_string s cfg = inl e ->
        ip_address s = inl ValueError /\ e = ValueError).
Proof.
  intros Hcfg. split; [|split].
  - intros a Ha. eexists. now apply get_network_masks.
  - intros s a Hs. unfold network_of_string. rewrite Hs. cbn [and_then].
    eexists. apply get_network_masks; [now apply (ip_address_valid s) | exact Hcfg].
  - intros s e. unfold network_of_string.
    destruct (ip_address s) as [e0|a] eqn:Hs; cbn [and_then].
    + intros H. injection H as <-.
      rewrite (ip_address_error s e0 Hs). now split.
    + rewrite get_network_masks by (try exact Hcfg; now apply (ip_address_valid s)).
      discriminate.
Qed.

Lemma C4_fails_only_on_unparseable_address_witness :
  exists n, network_of_string "2001:db8::1" cfg_24_48 = inr n.
Proof.
  apply (proj1 (proj2 (C4_fails_only_on_unparseable_address cfg_24_48 eq_refl))
           "2001:db8::1"
           (IPv6Address 42540766411282592856903984951653826561 None)).
  reflexivity.
Defined.

(** C7: for every address object and prefix lengths in range,
    [get_network] returns the network whose prefix length is
    [ipv6_prefix] for version 6 and [ipv4_prefix] otherwise, and whose
    address has the version of the input, its bits above the host part
    unchanged and every host bit cleared.  With [ipv4_prefix = 24] the
    network of [203.0.113.55] is [203.0.113.0/24]; with
    [ipv6_prefix = 48] the network of [2001:db8::1] is [2001:db8::/48]. *)
Theorem C7_prefix_by_version_and_host_bits_masked (a : Address) (cfg : Config) :
  valid_address a = true ->
  valid_prefixes cfg = true ->
  let prefix :=
    if version a =? 6 then real_ip_ipv6_prefix cfg else real_ip_ipv4_prefix cfg in
  let host_bits := max_prefixlen a - prefix in
  (exists n,
      get_network a cfg = inr n
      /\ prefixlen n = prefix
      /\ version (network_address n) = version a
      /\ to_int (network_address n) = Z.shiftl (Z.shiftr (to_int a) host_bits) host_bits)
  /\ (forall cfg',
        real_ip_ipv4_prefix cfg' = 24 ->
        exists n, network_of_string "203.0.113.55" cfg' = inr n
                  /\ compressed n = "203.0.113.0/24")
  /\ (forall cfg',
        real_ip_ipv6_prefix cfg' = 48 ->
        exists n, network_of_string "2001:db8::1" cfg' = inr n
                  /\ compressed n = "2001:db8::/48").
Proof.
  intros Ha Hcfg prefix host_bits. split; [|split].
  - eexists. split; [now apply get_network_masks|]. fold prefix.
    cbn [prefixlen network_address]. split; [reflexivity|].
    apply masked_clears_host_bits; [exact Ha|].
    apply valid_prefixes_range in Hcfg. subst prefix.
    destruct a; cbn [version max_prefixlen];
      [change (4 =? 6) with false | change (6 =? 6) with true]; cbv iota; lia.
  - intros cfg' H24. unfold network_of_string.
    replace (ip_address "203.0.113.55") with (inr exn (IPv4Address 3405803831))
      by (vm_compute; reflexivity).
    cbn [and_then]. unfold get_network. cbn [version].
    change (4 =? 6) with false. cbv iota. rewrite H24.
    exists {| network_address := IPv4Address 3405803776; prefixlen := 24 |}.
    split; vm_compute; reflexivity.
  - intros cfg' H48. unfold network_of_string.
    replace (ip_address "2001:db8::1")
      with (inr exn (IPv6Address 42540766411282592856903984951653826561 None))
      by (vm_compute; reflexivity).
    cbn [and_then]. unfold get_network. cbn [version].
    change (6 =? 6) with true. cbv iota. rewrite H48.
    exists {| network_address :=
                IPv6Address 42540766411282592856903984951653826560 None;
              prefixlen := 48 |}.
    split; vm_compute; reflexivity.
Qed.

Lemma C7_prefix_by_version_and_host_bits_masked_witness :
  exists n,
    get_network (IPv4Address 3405803831) cfg_24_48 = inr n
    /\ prefixlen n = 24
    /\ version (network_address n) = 4
    /\ to_int (network_address n) = 3405803776.
Proof.
  destruct (proj1 (C7_prefix_by_version_and_host_bits_masked
                     (IPv4Address 3405803831) cfg_24_48 eq_refl eq_refl))
    as (n & Hn & Hp & Hv & Hi).
  exists n. repeat split; assumption.
Defined.
(** ** The resolver outside the configured range *)

Section ResolverEdges.

Variable Form : Type.
Implicit Types (cfg : Config) (request : Request Form) (w : World).

Lemma get_real_ip_run_selected cfg request w (e : string) :
  Py.truthy (forwarded_for_header request) = true ->
  select_forwarded_for (Py.str (forwarded_for_header request)) (real_ip_x_for cfg)
  = Some e ->
  get_real_ip cfg request w
  = (inr (first_non_empty [Some e; real_ip_header request; remote_addr request]
            "0.0.0.0"),
     cross_checked (Some e) (real_ip_header request) (remote_addr request)
       (diagnosed request w)).
Proof.
  intros Hf Hs. unfold get_real_ip, diagnosed, cross_checked, disagree.
  fold (forwarded_for_header request). fold (real_ip_header request).
  unfold bind. rewrite Hf; cbn [negb]. rewrite Hs. unfold ret at 1.
  rewrite when_once_run. repeat rewrite logger_warning_run.
  unfold ret. rewrite or_first_non_empty, ?Hf. reflexivity.
Qed.

Lemma get_real_ip_run_index_error cfg request w :
  Py.truthy (forwarded_for_header request) = true ->
  select_forwarded_for (Py.str (forwarded_for_header request)) (real_ip_x_for cfg)
  = None ->
  get_real_ip cfg request w = (inl IndexError, w).
Proof.
  intros Hf Hs. unfold get_real_ip.
  fold (forwarded_for_header request). fold (real_ip_header request).
  unfold bind. rewrite Hf; cbn [negb]. rewrite Hs. reflexivity.
Qed.

(** [l[-min(len(l), x)]] for every integer [x], on a non-empty list. *)
Lemma index_by_trust_depth {A} (l : list A) (x : Z) :
  l <> [] ->
  Py.index l (- Z.min (Py.len l) x)
  = if x <=? 0 then nth_error l (Z.to_nat (- x))
    else nth_error l (Z.to_nat (Z.max 0 (Py.len l - x))).
Proof.
  intros Hl. pose proof (len_pos l Hl) as Hn.
  destruct (Z.leb_spec x 0) as [Hx|Hx].
  - unfold Py.index. rewrite Z.min_r by lia.
    replace (- x <? 0) with false by (symmetry; apply Z.ltb_ge; lia).
    replace (0 <=? - x) with true by (symmetry; apply Z.leb_le; lia).
    destruct (Z.ltb_spec (- x) (Py.len l)) as [Hlt|Hge]; [reflexivity|].
    symmetry. apply nth_error_None. unfold Py.len in *. lia.
  - now apply index_from_end; [|lia].
Qed.

(** The world after one run, whatever the configuration: untouched when
    the index is out of range, else diagnosed and cross-checked. *)
Lemma get_real_ip_world cfg request w :
  get_real_ip cfg request w = (inl IndexError, w)
  \/ exists f s,
      get_real_ip cfg request w
      = (inr s, cross_checked f (real_ip_header request) (remote_addr request)
                  (diagnosed request w))
      /\ s = first_non_empty [f; real_ip_header request; remote_addr request] "0.0.0.0"
      /\ (Py.truthy (forwarded_for_header request) = false
          -> f = forwarded_for_header request)
      /\ (Py.truthy (forwarded_for_header request) = true
          -> exists e, f = Some e
                       /\ select_forwarded_for (Py.str (forwarded_for_header request))
                            (real_ip_x_for cfg) = Some e).
Proof.
  destruct (Py.truthy (forwarded_for_header request)) eqn:Hf.
  - destruct (select_forwarded_for (Py.str (forwarded_for_header request))
                (real_ip_x_for cfg)) as [e|] eqn:Hs.
    + right. exists (Some e). eexists. split; [now apply get_real_ip_run_selected|].
      split; [reflexivity|]. split; [discriminate|]. intros _. now exists e.
    + left. now apply get_real_ip_run_index_error.
  - right. exists (forwarded_for_header request). eexists.
    split; [now apply get_real_ip_run_unset|].
    split; [reflexivity|]. split; [reflexivity | discriminate].
Qed.

Lemma entries_not_nil (header : string) :
  map Py.strip (Py.split "," header) <> [].
Proof. intros E. apply map_eq_nil in E. now apply split_not_nil in E. Qed.

(** X1: [get_real_ip] raises in one situation only: the chain header is
    non-empty and the trust depth is so far below zero that the index
    [-x_for] lies behind the last entry.  Then it raises [IndexError]
    before anything is logged; in every other case it returns. *)
Theorem get_real_ip_raises_only_behind_the_chain cfg request w :
  let entries :=
    map Py.strip (Py.split "," (Py.str (forwarded_for_header request))) in
  let behind :=
    Py.truthy (forwarded_for_header request)
    && (Py.len entries <=? - real_ip_x_for cfg) in
  (behind = true -> get_real_ip cfg request w = (inl IndexError, w))
  /\ (behind = false -> exists s, fst (get_real_ip cfg request w) = inr s).
Proof.
  intros entries behind. subst behind.
  pose proof (len_pos entries (entries_not_nil _)) as Hn.
  destruct (Py.truthy (forwarded_for_header request)) eqn:Hf; cbn [andb].
  - assert (Hsel : select_forwarded_for (Py.str (forwarded_for_header request))
                     (real_ip_x_for cfg)
                   = if real_ip_x_for cfg <=? 0
                     then nth_error entries (Z.to_nat (- real_ip_x_for cfg))
                     else nth_error entries
                            (Z.to_nat (Z.max 0 (Py.len entries - real_ip_x_for cfg)))).
    { unfold select_forwarded_for. apply index_by_trust_depth, entries_not_nil. }
    split; intros Hb.
    + apply Z.leb_le in Hb. apply get_real_ip_run_index_error; [exact Hf|].
      rewrite Hsel. replace (real_ip_x_for cfg <=? 0) with true
        by (symmetry; apply Z.leb_le; lia).
      apply nth_error_None. unfold Py.len in *. lia.
    + apply Z.leb_gt in Hb.
      destruct (select_forwarded_for (Py.str (forwarded_for_header request))
                  (real_ip_x_for cfg)) as [e|] eqn:Hs.
      * rewrite (get_real_ip_run_selected cfg request w e Hf Hs). eexists. reflexivity.
      * exfalso. symmetry in Hsel.
        destruct (Z.leb_spec (real_ip_x_for cfg) 0);
          apply nth_error_None in Hsel; unfold Py.len in *; lia.
  - split; [discriminate|]. intros _.
    rewrite get_real_ip_run_unset by exact Hf. eexists. reflexivity.
Qed.

(** X2: a trust depth of zero or less counts from the front of the
    chain: the entry taken is the one at index [-x_for], so with
    [x_for = 0] the resolver returns the first, client-written entry. *)
Theorem x_for_not_positive_counts_from_the_front cfg request w (header : string) :
  real_ip_x_for cfg <= 0 ->
  forwarded_for_header request = Some header ->
  header <> "" ->
  let entries := map Py.strip (Py.split "," header) in
  select_forwarded_for header (real_ip_x_for cfg)
  = nth_error entries (Z.to_nat (- real_ip_x_for cfg))
  /\ forall e,
       nth_error entries (Z.to_nat (- real_ip_x_for cfg)) = Some e ->
       fst (get_real_ip cfg request w)
       = inr (first_non_empty [Some e; real_ip_header request; remote_addr request]
                "0.0.0.0").
Proof.
  intros Hx Hh Hne entries.
  assert (Hsel : select_forwarded_for header (real_ip_x_for cfg)
                 = nth_error entries (Z.to_nat (- real_ip_x_for cfg))).
  { unfold select_forwarded_for. rewrite index_by_trust_depth by apply entries_not_nil.
    now replace (real_ip_x_for cfg <=? 0) with true by (symmetry; apply Z.leb_le; lia). }
  split; [exact Hsel|]. intros e He.
  rewrite (get_real_ip_run_selected cfg request w e); [reflexivity| |].
  - rewrite Hh. destruct header; [contradiction | reflexivity].
  - rewrite Hh. cbn [Py.str]. now rewrite Hsel.
Qed.

(** X3: whatever the configuration, a value returned by [get_real_ip]
    is never the empty string. *)
Theorem get_real_ip_never_returns_empty cfg request w (s : string) :
  fst (get_real_ip cfg request w) = inr s -> s <> "".
Proof.
  destruct (get_real_ip_world cfg request w) as [E|(f & s' & E & Hs & _)];
    rewrite E; cbn [fst]; [discriminate|].
  intros H. injection H as <-. subst s'. cbn [first_non_empty].
  destruct f as [[|c f]|]; cbn [Py.truthy Py.str]; try discriminate;
    destruct (real_ip_header request) as [[|c' r]|]; cbn [Py.truthy Py.str];
    try discriminate;
    destruct (remote_addr request) as [[|c'' a]|]; cbn [Py.truthy Py.str];
    discriminate.
Qed.

End ResolverEdges.

Lemma x_for_not_positive_counts_from_the_front_witness :
  fst (get_real_ip {| real_ip_x_for := 0; real_ip_ipv4_prefix := 32;
                      real_ip_ipv6_prefix := 48 |}
         request_three_spellings initial_world)
  = inr "203.0.113.7".
Proof.
  refine (proj2 (x_for_not_positive_counts_from_the_front unit
                   {| real_ip_x_for := 0; real_ip_ipv4_prefix := 32;
                      real_ip_ipv6_prefix := 48 |}
                   request_three_spellings initial_world
                   "203.0.113.7, 2001:db8::1" _ eq_refl _) "203.0.113.7" eq_refl);
    [vm_compute | ]; discriminate.
Defined.

Lemma get_real_ip_raises_only_behind_the_chain_witness :
  get_real_ip {| real_ip_x_for := -2; real_ip_ipv4_prefix := 32;
                 real_ip_ipv6_prefix := 48 |}
    request_three_spellings initial_world
  = (inl IndexError, initial_world).
Proof.
  apply (proj1 (get_real_ip_raises_only_behind_the_chain unit
                  {| real_ip_x_for := -2; real_ip_ipv4_prefix := 32;
                     real_ip_ipv6_prefix := 48 |}
                  request_three_spellings initial_world)).
  reflexivity.
Defined.

Lemma get_real_ip_never_returns_empty_witness : "0.0.0.0" <> "".
Proof.
  apply (get_real_ip_never_returns_empty unit cfg_one_proxy request_bare initial_world).
  reflexivity.
Defined.

(** ** What the chain candidate looks like *)

Lemma split_pieces_free (sep : ascii) (s : string) :
  Forall (fun p => Py.contains sep p = false) (Py.split sep s).
Proof.
  induction s as [|c s IH]; [repeat constructor|].
  cbn [Py.split]. destruct (Ascii.eqb c sep) eqn:Ec; [now constructor|].
  destruct (Py.split sep s) as [|p ps]; [repeat constructor; cbn; now rewrite Ec|].
  inversion IH as [|? ? Hp Hps]; subst.
  constructor; [cbn [Py.contains]; now rewrite Ec, Hp | exact Hps].
Qed.

Lemma lstrip_keeps_free (c : ascii) (s : string) :
  Py.contains c s = false -> Py.contains c (Py.lstrip s) = false.
Proof.
  induction s as [|d s IH]; [reflexivity|]. cbn [Py.lstrip]. intros H.
  destruct (Py.isspace d); [|exact H].
  cbn [Py.contains] in H. apply orb_false_iff in H as [_ H]. now apply IH.
Qed.

Lemma rstrip_keeps_free (c : ascii) (s : string) :
  Py.contains c s = false -> Py.contains c (Py.rstrip s) = false.
Proof.
  induction s as [|d s IH]; [reflexivity|]. cbn [Py.rstrip Py.contains]. intros H.
  apply orb_false_iff in H as [Hd Hs]. specialize (IH Hs).
  destruct (Py.rstrip s) as [|e r].
  - destruct (Py.isspace d); [reflexivity|]. cbn [Py.contains]. now rewrite Hd.
  - cbn [Py.contains] in *. now rewrite Hd, IH.
Qed.

Lemma rstrip_cons (c : ascii) (s : string) :
  Py.rstrip (String c s)
  = match Py.rstrip s with
    | EmptyString => if Py.isspace c then EmptyString else String c EmptyString
    | r => String c r
    end.
Proof. reflexivity. Qed.

Lemma rstrip_idempotent (s : string) : Py.rstrip (Py.rstrip s) = Py.rstrip s.
Proof.
  induction s as [|c s IH]; [reflexivity|]. rewrite rstrip_cons.
  destruct (Py.rstrip s) as [|d r] eqn:E.
  - destruct (Py.isspace c) eqn:Ec; [reflexivity|].
    rewrite rstrip_cons. cbn [Py.rstrip]. now rewrite Ec.
  - rewrite rstrip_cons, IH. reflexivity.
Qed.

Lemma lstrip_head (s : string) :
  Py.lstrip s = "" \/ exists c t, Py.lstrip s = String c t /\ Py.isspace c = false.
Proof.
  induction s as [|d s IH]; [now left|]. cbn [Py.lstrip].
  destruct (Py.isspace d) eqn:Ed; [exact IH|]. right. now exists d, s.
Qed.

Lemma rstrip_head (c : ascii) (t : string) :
  Py.isspace c = false -> exists t', Py.rstrip (String c t) = String c t'.
Proof.
  intros Hc. rewrite rstrip_cons. destruct (Py.rstrip t) as [|d r].
  - rewrite Hc. now exists "".
  - now exists (String d r).
Qed.

Lemma strip_idempotent (s : string) : Py.strip (Py.strip s) = Py.strip s.
Proof.
  unfold Py.strip. destruct (lstrip_head s) as [E|(c & t & E & Hc)]; rewrite E.
  - reflexivity.
  - destruct (rstrip_head c t Hc) as [t' Et]. rewrite Et.
    cbn [Py.lstrip]. rewrite Hc, <- Et. apply rstrip_idempotent.
Qed.

Lemma selected_entry_is_a_stripped_piece (header : string) (x_for : Z) (e : string) :
  select_forwarded_for header x_for = Some e ->
  Py.contains "," e = false /\ Py.strip e = e
  /\ exists piece, In piece (Py.split "," header) /\ e = Py.strip piece.
Proof.
  unfold select_forwarded_for, Py.index. intros H.
  destruct (_ && _); [|discriminate].
  apply nth_error_In, in_map_iff in H as (piece & <- & Hin).
  split; [|split; [apply strip_idempotent | now exists piece]].
  unfold Py.strip. apply rstrip_keeps_free, lstrip_keeps_free.
  pose proof (split_pieces_free "," header) as Hfree.
  rewrite Forall_forall in Hfree. now apply Hfree.
Qed.

Section ChainCandidate.

Variable Form : Type.
Implicit Types (cfg : Config) (request : Request Form) (w : World).

(** X4: whatever the configuration, when [get_real_ip] returns for a
    request with a non-empty chain header, the entry that it selected
    from the chain, [forwarded_for[-min(len(forwarded_for), x_for)]], is
    one comma-separated piece of the header with the white space at both
    ends removed: it holds no comma and stripping it again changes
    nothing.  When this entry is not empty it is the value returned;
    when it is empty the value returned is the first non-empty one of
    [X-Real-IP] and the peer address, else the sentinel. *)
Theorem returned_chain_entry_is_a_stripped_piece cfg request w (s : string) :
  Py.truthy (forwarded_for_header request) = true ->
  fst (get_real_ip cfg request w) = inr s ->
  exists e piece,
    select_forwarded_for (Py.str (forwarded_for_header request)) (real_ip_x_for cfg)
    = Some e
    /\ In piece (Py.split "," (Py.str (forwarded_for_header request)))
    /\ e = Py.strip piece
    /\ Py.contains "," e = false
    /\ Py.strip e = e
    /\ (e <> "" -> s = e)
    /\ (e = "" ->
        s = first_non_empty [real_ip_header request; remote_addr request] "0.0.0.0").
Proof.
  intros Hf Hs.
  destruct (get_real_ip_world Form cfg request w) as [E|(f & s' & E & Hs' & _ & Hsel)];
    rewrite E in Hs; cbn [fst] in Hs; [discriminate|].
  injection Hs as <-. destruct (Hsel Hf) as (e & -> & He).
  destruct (selected_entry_is_a_stripped_piece _ _ _ He) as (Hc & Hst & piece & Hin & Hp).
  exists e, piece. repeat split; try assumption.
  - intros Hne. subst s'. cbn [first_non_empty].
    destruct e; [contradiction | reflexivity].
  - intros Hempty. subst s'. rewrite Hempty. reflexivity.
Qed.

End ChainCandidate.

Lemma returned_chain_entry_is_a_stripped_piece_witness :
  exists e piece,
    select_forwarded_for "203.0.113.7, 2001:db8::1" 1 = Some e
    /\ In piece (Py.split "," "203.0.113.7, 2001:db8::1")
    /\ e = Py.strip piece
    /\ Py.contains "," e = false
    /\ Py.strip e = e
    /\ (e <> "" -> "2001:db8::1" = e)
    /\ (e = "" -> "2001:db8::1" = "2001:0db8::1").
Proof.
  apply (returned_chain_entry_is_a_stripped_piece unit cfg_one_proxy
           request_three_spellings initial_world "2001:db8::1");
    reflexivity.
Defined.

(** ** The log over a sequence of requests *)

Lemma messages_at_single (l l' : Level) (msg : string) :
  messages_at l [record l' msg] = if level_eqb l' l then [msg] else [].
Proof. unfold messages_at. cbn. now destruct (level_eqb l' l). Qed.

Lemma mem_In (x : string) (l : list string) : mem x l = true <-> In x l.
Proof.
  unfold mem. rewrite existsb_exists. split.
  - intros (y & Hy & E). apply String.eqb_eq in E. now subst.
  - intros H. exists x. split; [exact H | apply String.eqb_refl].
Qed.

Lemma once_keeps_order (msg : string) (w : World) :
  In msg diagnostics ->
  diagnostics_in_order w -> diagnostics_in_order (once msg w).
Proof.
  intros Hin (Hlog & Hnd & Hincl). unfold once.
  destruct (mem msg (_logged_errors w)) eqn:Hm; [now repeat split|].
  unfold diagnostics_in_order. cbn [log _logged_errors]. split; [|split].
  - rewrite messages_at_app, messages_at_single, Hlog. reflexivity.
  - apply NoDup_app; [exact Hnd | repeat constructor; intros [] |].
    intros x Hx [<-|[]]. apply mem_In in Hx. congruence.
  - intros x Hx. apply in_app_or in Hx as [Hx|[<-|[]]]; auto.
Qed.

Lemma warned_keeps_order (c : bool) (msg : string) (w : World) :
  diagnostics_in_order w -> diagnostics_in_order (warned c msg w).
Proof.
  intros (Hlog & Hnd & Hincl). destruct c; [|now repeat split].
  unfold diagnostics_in_order. cbn [warned log _logged_errors].
  repeat split; try assumption.
  rewrite messages_at_app, messages_at_single, Hlog. apply app_nil_r.
Qed.

Lemma logged_errors_once (msg : string) (w : World) :
  exists more, _logged_errors (once msg w) = (_logged_errors w ++ more)%list.
Proof.
  unfold once. destruct (mem msg (_logged_errors w)).
  - exists []. now rewrite app_nil_r.
  - now exists [msg].
Qed.

Section RequestSequence.

Variable Form : Type.
Implicit Types (cfg : Config) (request : Request Form) (w : World).

Lemma diagnosed_keeps_order request w :
  diagnostics_in_order w -> diagnostics_in_order (diagnosed request w).
Proof.
  intros Hw. unfold diagnosed.
  destruct (Py.truthy (forwarded_for_header request)),
           (Py.truthy (real_ip_header request));
    repeat apply once_keeps_order; try exact Hw; cbn; auto.
Qed.

Lemma get_real_ip_keeps_order cfg request w :
  diagnostics_in_order w ->
  diagnostics_in_order (snd (get_real_ip cfg request w)).
Proof.
  intros Hw.
  destruct (get_real_ip_world Form cfg request w) as [E|(f & s & E & _)];
    rewrite E; cbn [snd]; [exact Hw|].
  unfold cross_checked. repeat apply warned_keeps_order.
  now apply diagnosed_keeps_order.
Qed.

Lemma serve_keeps_order cfg (requests : list (Request Form)) w :
  diagnostics_in_order w -> diagnostics_in_order (serve cfg requests w).
Proof.
  revert w. induction requests as [|request requests IH]; intros w Hw; [exact Hw|].
  apply IH. now apply get_real_ip_keeps_order.
Qed.

(** X5: over any sequence of requests handled from process start, with
    any configuration, the messages logged at error severity are the
    entries of [_logged_errors] in the same order; they are distinct,
    each is one of the two header diagnostics, and so there are never
    more than two of them. *)
Theorem error_log_never_exceeds_two_diagnostics cfg (requests : list (Request Form)) :
  let w := serve cfg requests initial_world in
  messages_at ERROR (log w) = _logged_errors w
  /\ NoDup (_logged_errors w)
  /\ incl (_logged_errors w) diagnostics
  /\ (List.length (messages_at ERROR (log w)) <= 2)%nat.
Proof.
  intros w.
  assert (Hw : diagnostics_in_order w).
  { apply serve_keeps_order. repeat split; [constructor | intros x []]. }
  destruct Hw as (Hlog & Hnd & Hincl). repeat split; try assumption.
  rewrite Hlog. apply (NoDup_incl_length Hnd Hincl).
Qed.

(** X6: whatever the configuration and whether it returns or raises,
    [get_real_ip] only appends: the log and [_logged_errors] it leaves
    start with the log and the [_logged_errors] it found. *)
Theorem get_real_ip_only_appends cfg request w :
  let w' := snd (get_real_ip cfg request w) in
  (exists records, log w' = (log w ++ records)%list)
  /\ (exists messages, _logged_errors w' = (_logged_errors w ++ messages)%list).
Proof.
  intros w'. subst w'.
  destruct (get_real_ip_world Form cfg request w) as [E|(f & s & E & _)];
    rewrite E; cbn [snd].
  - split; exists []; now rewrite app_nil_r.
  - split.
    + rewrite log_cross_checked.
      destruct (log_diagnosed Form request w) as (errs & Hd & _).
      rewrite Hd, <- app_assoc. eexists. reflexivity.
    + rewrite logged_errors_cross_checked. unfold diagnosed.
      destruct (Py.truthy (forwarded_for_header request)),
               (Py.truthy (real_ip_header request)).
      * exists []. now rewrite app_nil_r.
      * apply logged_errors_once.
      * apply logged_errors_once.
      * destruct (logged_errors_once "X-Forwarded-For header is not set!" w)
          as [m1 H1].
        destruct (logged_errors_once "X-Real-IP header is not set!"
                    (once "X-Forwarded-For header is not set!" w)) as [m2 H2].
        rewrite H2, H1, <- app_assoc. eexists. reflexivity.
Qed.

End RequestSequence.

(** ** Prefix lengths outside the address width *)

Lemma uint_digits (d : Decimal.uint) :
  all isdigit (DecimalString.NilEmpty.string_of_uint d) = true.
Proof. induction d; cbn [DecimalString.NilEmpty.string_of_uint all]; auto. Qed.

Lemma int_acc_uint (d : Decimal.uint) (acc : positive) :
  int_acc 10 (Z.pos acc) (DecimalString.NilEmpty.string_of_uint d)
  = Z.pos (Pos.of_uint_acc d acc).
Proof.
  revert acc. induction d; intros acc;
    cbn [DecimalString.NilEmpty.string_of_uint int_acc Pos.of_uint_acc];
    try reflexivity; rewrite <- IHd; f_equal;
    match goal with
    | |- context [digit_value ?c] =>
        let v := eval vm_compute in (digit_value c) in
        change (digit_value c) with v
    end; lia.
Qed.

Lemma int_uint (d : Decimal.uint) :
  int_acc 10 0 (DecimalString.NilEmpty.string_of_uint d) = Z.of_N (Pos.of_uint d).
Proof.
  induction d; cbn [DecimalString.NilEmpty.string_of_uint int_acc Pos.of_uint];
    try reflexivity;
    try (change (0 * 10 + digit_value "0") with 0; exact IHd);
    cbn [Z.of_N]; rewrite <- int_acc_uint; reflexivity.
Qed.

(** [str] of a non-negative integer is its decimal digits and reads back. *)
Lemma str_int_digits (p : Z) :
  0 <= p ->
  all isdigit (str_int p) = true
  /\ String.eqb (str_int p) "" = false
  /\ Ipaddress.int (str_int p) 10 = p.
Proof.
  intros Hp. destruct p as [|p|p]; [now vm_compute | | lia].
  unfold str_int. cbn [Z.to_int DecimalString.NilZero.string_of_int].
  unfold DecimalString.NilZero.string_of_uint.
  pose proof (DecimalPos.Unsigned.to_uint_nonnil p) as Hnil.
  destruct (Pos.to_uint p) as [|d|d|d|d|d|d|d|d|d|d] eqn:E; try contradiction;
    rewrite <- E; (split; [apply uint_digits|]);
    (split; [rewrite E; reflexivity|]);
    unfold Ipaddress.int; rewrite int_uint, DecimalPos.Unsigned.of_to; reflexivity.
Qed.

(** [str] of a negative integer starts with the minus sign. *)
Lemma str_int_minus (p : Z) :
  p < 0 -> exists digits, str_int p = String "-" digits /\ all isdigit digits = true.
Proof.
  intros Hp. destruct p as [|p|p]; try lia.
  unfold str_int. cbn [Z.to_int DecimalString.NilZero.string_of_int].
  eexists. split; [reflexivity|].
  unfold DecimalString.NilZero.string_of_uint.
  destruct (Pos.to_uint p) eqn:E; try reflexivity; rewrite <- E; apply uint_digits.
Qed.

Lemma str_int_free (c : ascii) (p : Z) :
  isdigit c = false -> c <> "-"%char -> Py.contains c (str_int p) = false.
Proof.
  intros Hc Hm. destruct (Z_lt_ge_dec p 0) as [Hneg|Hpos].
  - destruct (str_int_minus p Hneg) as (digits & -> & Hd).
    cbn [Py.contains]. rewrite (all_no isdigit c digits Hd Hc), orb_false_r.
    apply Ascii.eqb_neq. congruence.
  - destruct (str_int_digits p) as (Hd & _); [lia|].
    now apply (all_no isdigit).
Qed.

Lemma prefix_string_rejected (max p : Z) :
  p < 0 \/ max < p ->
  _prefix_from_prefix_string max (str_int p) = inl NetmaskValueError.
Proof.
  intros Hp. unfold _prefix_from_prefix_string.
  destruct (Z_lt_ge_dec p 0) as [Hneg|Hpos].
  - destruct (str_int_minus p Hneg) as (digits & -> & _). reflexivity.
  - destruct (str_int_digits p) as (Hd & Hne & Hv); [lia|].
    rewrite Hd, Hne, Hv. cbn [negb andb].
    replace (p <=? max) with false by (symmetry; apply Z.leb_gt; lia).
    now rewrite andb_false_r.
Qed.

Lemma v4_needs_dots (s : string) :
  Py.contains "." s = false -> v4_ip_int_from_string s = inl AddressValueError.
Proof.
  intros H. unfold v4_ip_int_from_string.
  destruct (String.eqb s ""); [reflexivity|].
  now rewrite (split_no_sep "." s H).
Qed.

Lemma v6_needs_colons (s : string) :
  Py.contains ":" s = false -> v6_ip_int_from_string s = inl AddressValueError.
Proof.
  intros H. unfold v6_ip_int_from_string.
  destruct (String.eqb s ""); [reflexivity|].
  now rewrite (split_no_sep ":" s H).
Qed.

Lemma v4_netmask_rejected (p : Z) :
  p < 0 \/ 32 < p -> v4_make_netmask (str_int p) = inl NetmaskValueError.
Proof.
  intros Hp. unfold v4_make_netmask.
  rewrite (prefix_string_rejected IPV4LENGTH p Hp).
  unfold _prefix_from_ip_string.
  rewrite v4_needs_dots by (apply str_int_free; [reflexivity | discriminate]).
  reflexivity.
Qed.

Lemma v4_string_digits_and_dots (c : ascii) (ip : Z) :
  isdigit c = false -> c <> "."%char ->
  Py.contains c (v4_string_from_ip_int ip) = false.
Proof.
  intros Hc Hd. unfold v4_string_from_ip_int. apply contains_join.
  - cbn [Py.contains]. rewrite orb_false_r. apply Ascii.eqb_neq. congruence.
  - apply Forall_map. eapply Forall_impl; [|apply to_bytes4_range].
    intros o Ho. destruct (str_int_digits o) as (Hdig & _); [apply Ho|].
    now apply (all_no isdigit).
Qed.

(** A printed IPv4 address is no IPv6 address. *)
Lemma v4_is_no_v6 (ip : Z) :
  IPv6Address_of_string (v4_string_from_ip_int ip) = inl AddressValueError.
Proof.
  unfold IPv6Address_of_string, _split_scope_id.
  rewrite v4_string_free.
  rewrite partition_no_percent
    by (apply v4_string_digits_and_dots; [reflexivity | discriminate]).
  cbn [negb and_then].
  rewrite v6_needs_colons
    by (apply v4_string_digits_and_dots; [reflexivity | discriminate]).
  reflexivity.
Qed.

Lemma split_address_any_prefix (a : Address) (p : Z) :
  valid_address a = true ->
  _split_optional_netmask (str a ++ "/" ++ str_int p) = inr [str a; str_int p].
Proof.
  intros Ha. unfold _split_optional_netmask.
  change (str a ++ "/" ++ str_int p) with (str a ++ String "/" (str_int p)).
  rewrite split_append by now apply str_free_of_slash.
  rewrite split_no_sep by (apply str_int_free; [reflexivity | discriminate]).
  reflexivity.
Qed.

(** X7: for every address object, a configured prefix length below zero
    or above the width of the address's version (32 or 128) makes
    [get_network] raise [ValueError]. *)
Theorem get_network_rejects_prefix_out_of_range (a : Address) (cfg : Config) :
  valid_address a = true ->
  let prefix :=
    if version a =? 6 then real_ip_ipv6_prefix cfg else real_ip_ipv4_prefix cfg in
  prefix < 0 \/ max_prefixlen a < prefix ->
  get_network a cfg = inl ValueError.
Proof.
  intros Ha prefix Hp. unfold get_network. fold prefix. unfold ip_network.
  unfold IPv4Network_of_string, IPv6Network_of_string.
  rewrite split_address_any_prefix by exact Ha. cbn [and_then hd].
  destruct a as [ip|ip scope_id]; cbn [max_prefixlen] in Hp.
  - cbn [str]. rewrite v4_round_trip by now apply valid_v4. cbn [and_then].
    rewrite v4_netmask_rejected by exact Hp. cbn [and_then is_address_error].
    rewrite v4_is_no_v6. reflexivity.
  - rewrite v6_is_no_v4. cbn [and_then is_address_error].
    rewrite v6_address_round_trip by exact Ha. cbn [and_then].
    unfold v6_make_netmask. rewrite prefix_string_rejected by exact Hp.
    reflexivity.
Qed.

Lemma get_network_rejects_prefix_out_of_range_witness :
  get_network (IPv4Address 3405803831)
    {| real_ip_x_for := 1; real_ip_ipv4_prefix := 48; real_ip_ipv6_prefix := 48 |}
  = inl ValueError.
Proof.
  apply (get_network_rejects_prefix_out_of_range (IPv4Address 3405803831)
           {| real_ip_x_for := 1; real_ip_ipv4_prefix := 48;
              real_ip_ipv6_prefix := 48 |} eq_refl).
  right. reflexivity.
Defined.

(** ** Networks as buckets of addresses *)

Lemma clear_low_bits (ip k : Z) :
  0 <= k -> Z.shiftl (Z.shiftr ip k) k = ip / 2 ^ k * 2 ^ k.
Proof. intros Hk. now rewrite Z.shiftl_mul_pow2, Z.shiftr_div_pow2. Qed.

Lemma netmask_for_masked (a : Address) (p q : Z) :
  netmask_for (masked a p) q = netmask_for a q.
Proof.
  unfold masked. destruct (_ =? _); [reflexivity|]. now destruct a.
Qed.

Lemma to_int_masked (a : Address) (p : Z) :
  to_int (masked a p) = Z.land (to_int a) (netmask_for a p).
Proof.
  unfold masked.
  destruct (Z.eqb_spec (Z.land (to_int a) (netmask_for a p)) (to_int a)) as [E|E];
    [now rewrite E | now destruct a].
Qed.

(** Masking a second time changes nothing. *)
Lemma masked_fixed (a : Address) (p : Z) : masked (masked a p) p = masked a p.
Proof.
  unfold masked at 1. rewrite netmask_for_masked, to_int_masked.
  rewrite <- Z.land_assoc, Z.land_diag, Z.eqb_refl. reflexivity.
Qed.

Lemma valid_width (a : Address) :
  valid_address a = true -> 0 <= to_int a < 2 ^ max_prefixlen a.
Proof.
  destruct a as [ip|ip scope_id]; cbn [to_int max_prefixlen]; intros Ha.
  - apply valid_v4 in Ha. unfold ALL_ONES4, IPV4LENGTH in Ha. lia.
  - apply valid_v6 in Ha as [Ha _]. unfold ALL_ONES6, IPV6LENGTH in Ha. lia.
Qed.

Lemma masked_valid (a : Address) (p : Z) :
  valid_address a = true ->
  0 <= p <= max_prefixlen a ->
  valid_address (masked a p) = true.
Proof.
  intros Ha Hp.
  destruct (masked_clears_host_bits a p Ha Hp) as [_ Hint].
  rewrite clear_low_bits in Hint by lia.
  pose proof (valid_width a Ha) as Hw.
  assert (Hpow : 0 < 2 ^ (max_prefixlen a - p)) by (apply Z.pow_pos_nonneg; lia).
  pose proof (Z.mul_div_le (to_int a) _ Hpow) as Hle.
  assert (Hge : 0 <= to_int a / 2 ^ (max_prefixlen a - p))
    by (apply Z.div_pos; lia).
  unfold masked in *.
  destruct (Z.land (to_int a) (netmask_for a p) =? to_int a); [exact Ha|].
  destruct a as [ip|ip scope_id]; cbn [to_int max_prefixlen] in *.
  - apply valid_v4. unfold ALL_ONES4, IPV4LENGTH. rewrite Hint. nia.
  - apply valid_v6. split; [|reflexivity].
    unfold ALL_ONES6, IPV6LENGTH. rewrite Hint. nia.
Qed.

Lemma prefix_in_width (a : Address) (cfg : Config) :
  valid_prefixes cfg = true ->
  0 <= (if version a =? 6 then real_ip_ipv6_prefix cfg else real_ip_ipv4_prefix cfg)
    <= max_prefixlen a.
Proof.
  intros Hcfg. apply valid_prefixes_range in Hcfg.
  destruct a; cbn [version max_prefixlen];
    [change (4 =? 6) with false | change (6 =? 6) with true]; cbv iota; lia.
Qed.

Lemma version_masked (a : Address) (p : Z) : version (masked a p) = version a.
Proof. unfold masked. destruct (_ =? _); [reflexivity | now destruct a]. Qed.

(** X8: with prefix lengths in range, the network that [get_network]
    returns for an address is also the network it returns for that
    network's own address. *)
Theorem get_network_of_its_network_address (a : Address) (cfg : Config)
    (n : Network) :
  valid_address a = true ->
  valid_prefixes cfg = true ->
  get_network a cfg = inr n ->
  valid_address (network_address n) = true
  /\ get_network (network_address n) cfg = inr n.
Proof.
  intros Ha Hcfg Hn.
  rewrite get_network_masks in Hn by assumption. injection Hn as <-.
  cbn [network_address].
  pose proof (prefix_in_width a cfg Hcfg) as Hp.
  assert (Hv : valid_address
                 (masked a (if version a =? 6 then real_ip_ipv6_prefix cfg
                            else real_ip_ipv4_prefix cfg)) = true)
    by now apply masked_valid.
  split; [exact Hv|].
  rewrite get_network_masks by assumption.
  rewrite version_masked, masked_fixed. reflexivity.
Qed.

Lemma get_network_of_its_network_address_witness :
  get_network (IPv4Address 3405803776) cfg_24_48
  = inr {| network_address := IPv4Address 3405803776; prefixlen := 24 |}.
Proof.
  apply (get_network_of_its_network_address (IPv4Address 3405803831) cfg_24_48
           {| network_address := IPv4Address 3405803776; prefixlen := 24 |}
           eq_refl eq_refl).
  vm_compute. reflexivity.
Defined.

(** X9: with prefix lengths in range, two addresses of one version get
    networks with the same address bits exactly when they agree on the
    bits above the host part; for IPv4 these are then the same network. *)
Theorem same_network_iff_same_prefix_bits (a1 a2 : Address) (cfg : Config)
    (n1 n2 : Network) :
  valid_address a1 = true ->
  valid_address a2 = true ->
  version a1 = version a2 ->
  valid_prefixes cfg = true ->
  get_network a1 cfg = inr n1 ->
  get_network a2 cfg = inr n2 ->
  let host_bits := max_prefixlen a1 - prefixlen n1 in
  prefixlen n1 = prefixlen n2
  /\ (to_int (network_address n1) = to_int (network_address n2)
      <-> Z.shiftr (to_int a1) host_bits = Z.shiftr (to_int a2) host_bits)
  /\ (version a1 = 4 ->
      (n1 = n2 <-> Z.shiftr (to_int a1) host_bits = Z.shiftr (to_int a2) host_bits)).
Proof.
  intros Ha1 Ha2 Hv Hcfg Hn1 Hn2.
  rewrite get_network_masks in Hn1, Hn2 by assumption.
  injection Hn1 as <-. injection Hn2 as <-. cbn [network_address prefixlen].
  pose proof (prefix_in_width a1 cfg Hcfg) as Hp1.
  pose proof (prefix_in_width a2 cfg Hcfg) as Hp2.
  rewrite <- Hv in *.
  set (p := if version a1 =? 6 then real_ip_ipv6_prefix cfg
            else real_ip_ipv4_prefix cfg) in *.
  assert (Hmax : max_prefixlen a2 = max_prefixlen a1)
    by (destruct a1, a2; cbn in Hv |- *; congruence).
  rewrite Hmax in Hp2.
  destruct (masked_clears_host_bits a1 p Ha1 Hp1) as [_ Hi1].
  destruct (masked_clears_host_bits a2 p Ha2) as [_ Hi2]; [now rewrite Hmax|].
  rewrite Hmax in Hi2. cbv zeta.
  set (host_bits := max_prefixlen a1 - p) in *.
  assert (Hh : 0 <= host_bits) by (subst host_bits; lia).
  assert (Hiff : to_int (masked a1 p) = to_int (masked a2 p)
                 <-> Z.shiftr (to_int a1) host_bits = Z.shiftr (to_int a2) host_bits).
  { rewrite Hi1, Hi2, !Z.shiftl_mul_pow2 by exact Hh. split; [|congruence].
    intros H. apply Z.mul_cancel_r in H; [exact H|].
    apply Z.pow_nonzero; lia. }
  split; [reflexivity|]. split; [exact Hiff|].
  intros H4. rewrite <- Hiff. split; [congruence|].
  intros Hint. f_equal.
  assert (Hform : forall a, version a = 4 -> masked a p = IPv4Address (to_int (masked a p))).
  { intros a Hva. rewrite <- (version_masked a p) in Hva.
    destruct (masked a p); [reflexivity | discriminate Hva]. }
  rewrite (Hform a1 H4), (Hform a2) by congruence. now rewrite Hint.
Qed.

Lemma same_network_iff_same_prefix_bits_witness :
  {| network_address := IPv4Address 3405803776; prefixlen := 24 |}
  = {| network_address := IPv4Address 3405803776; prefixlen := 24 |}
  <-> Z.shiftr 3405803831 (32 - 24) = Z.shiftr 3405803777 (32 - 24).
Proof.
  refine (proj2 (proj2 (same_network_iff_same_prefix_bits
                          (IPv4Address 3405803831) (IPv4Address 3405803777) cfg_24_48
                          {| network_address := IPv4Address 3405803776;
                             prefixlen := 24 |}
                          {| network_address := IPv4Address 3405803776;
                             prefixlen := 24 |}
                          eq_refl eq_refl eq_refl eq_refl _ _)) eq_refl);
    vm_compute; reflexivity.
Defined.

(** ** The text of a block decision *)

(** A printed address without host bits parses to its own network, also
    strictly. *)
Lemma ip_network_exact (a : Address) (p : Z) (strict : bool) :
  valid_address a = true ->
  0 <= p <= max_prefixlen a ->
  Z.land (to_int a) (netmask_for a p) = to_int a ->
  ip_network (str a ++ "/" ++ str_int p) strict
  = inr {| network_address := a; prefixlen := p |}.
Proof.
  intros Ha Hp Hexact. unfold ip_network.
  destruct a as [ip|ip scope_id]; cbn [max_prefixlen to_int netmask_for] in *.
  - unfold IPv4Network_of_string.
    rewrite split_address_prefix by (try exact Ha; lia).
    cbn [and_then hd str].
    rewrite v4_round_trip by now apply valid_v4.
    cbn [and_then]. rewrite v4_prefix_parses by exact Hp. cbn [and_then].
    now rewrite Hexact, Z.eqb_refl.
  - unfold IPv4Network_of_string.
    rewrite split_address_prefix by (try exact Ha; lia).
    cbn [and_then hd]. rewrite v6_is_no_v4. cbn [and_then is_address_error].
    unfold IPv6Network_of_string.
    rewrite split_address_prefix by (try exact Ha; lia).
    cbn [and_then hd]. rewrite v6_address_round_trip by exact Ha.
    cbn [and_then]. rewrite v6_prefix_parses by exact Hp. cbn [and_then to_int].
    now rewrite Hexact, Z.eqb_refl.
Qed.

Lemma max_prefixlen_masked (a : Address) (p : Z) :
  max_prefixlen (masked a p) = max_prefixlen a.
Proof. unfold masked. destruct (_ =? _); [reflexivity | now destruct a]. Qed.

(** X10: for a network that [get_network] returned under prefix lengths
    in range, the text that [too_many_requests] logs after [BLOCK] is a
    network in strict notation: [ip_network] reads it back, with
    [strict=True], as the same network. *)
Theorem blocked_network_text_reads_back (a : Address) (cfg : Config) (n : Network)
    (log_msg : string) (w : World) :
  valid_address a = true ->
  valid_prefixes cfg = true ->
  get_network a cfg = inr n ->
  log (snd (too_many_requests n log_msg w))
  = (log w ++ [record DEBUG ("BLOCK " ++ compressed n ++ ": " ++ log_msg)])%list
  /\ ip_network (compressed n) true = inr n.
Proof.
  intros Ha Hcfg Hn. split; [reflexivity|].
  rewrite get_network_masks in Hn by assumption. injection Hn as <-.
  unfold compressed. cbn [network_address prefixlen].
  pose proof (prefix_in_width a cfg Hcfg) as Hp.
  apply ip_network_exact.
  - now apply masked_valid.
  - now rewrite max_prefixlen_masked.
  - rewrite netmask_for_masked, to_int_masked.
    now rewrite <- Z.land_assoc, Z.land_diag.
Qed.

Lemma blocked_network_text_reads_back_witness :
  ip_network "203.0.113.0/24" true
  = inr {| network_address := IPv4Address 3405803776; prefixlen := 24 |}.
Proof.
  refine (proj2 (blocked_network_text_reads_back (IPv4Address 3405803831) cfg_24_48
                   {| network_address := IPv4Address 3405803776; prefixlen := 24 |}
                   "rate exceeded" initial_world eq_refl eq_refl _)).
  vm_compute. reflexivity.
Defined.

(** ** The dump as a line of text *)

Lemma dump_request_joins_columns (Form : Type) (form_str : Form -> string)
    (request : Request Form) :
  dump_request form_str request
  = Py.join " || " (map (render form_str request) columns).
Proof.
  unfold dump_request, columns. cbn [map render Py.join].
  repeat rewrite append_assoc. reflexivity.
Qed.

(** X11: when neither the path, nor the rendered form, nor the value of
    any header holds a line feed, the dump holds none: it is one line. *)
Theorem dump_request_is_one_line (Form : Type) (form_str : Form -> string)
    (request : Request Form) :
  Py.contains "010" (path request) = false ->
  Py.contains "010" (form_str (form request)) = false ->
  (forall name value,
      headers_get (headers request) name = Some value ->
      Py.contains "010" value = false) ->
  Py.contains "010" (dump_request form_str request) = false.
Proof.
  intros Hpath Hform Hheaders.
  rewrite dump_request_joins_columns. apply contains_join; [reflexivity|].
  assert (Hheader : forall name,
             Py.contains "010" name = false ->
             Py.contains "010" (render form_str request (Header name)) = false).
  { intros name Hname. cbn [render]. rewrite !contains_append, Hname.
    cbn [Py.contains orb].
    destruct (headers_get (headers request) name) as [value|] eqn:E;
      [exact (Hheaders name value E) | reflexivity]. }
  unfold columns.
  repeat (constructor; [first [exact Hpath | now apply Hheader
                               | cbn [render]; rewrite contains_append; exact Hform]|]).
  constructor.
Qed.

Lemma dump_request_is_one_line_witness :
  Py.contains "010"
    (dump_request (fun _ : unit => "ImmutableMultiDict([])") request_three_spellings)
  = false.
Proof.
  apply (dump_request_is_one_line unit (fun _ => "ImmutableMultiDict([])")
           request_three_spellings); try reflexivity.
  intros name value. cbn [request_three_spellings headers headers_get].
  destruct (String.eqb _ _); [intros H; injection H as <-; reflexivity|].
  destruct (String.eqb _ _); [intros H; injection H as <-; reflexivity|].
  discriminate.
Defined.

(** ** The Pinterest engine *)

Lemma str_eqb_eq (a b : Pinterest.str) : Pinterest.str_eqb a b = true <-> a = b.
Proof.
  unfold Pinterest.str_eqb. revert b.
  induction a as [|x a IH]; intros [|y b]; cbn; try (split; [discriminate|congruence]).
  - split; reflexivity.
  - specialize (IH b). split.
    + intros H. apply andb_true_iff in H as [Hl H]. apply andb_true_iff in H as [Hxy H].
      apply N.eqb_eq in Hxy. subst. f_equal. apply IH. now rewrite Hl, H.
    + intros H. injection H as -> ->. destruct IH as [_ IH].
      specialize (IH eq_refl). apply andb_true_iff in IH as [Hl H].
      now rewrite Hl, N.eqb_refl, H.
Qed.

Lemma str_eqb_refl (a : Pinterest.str) : Pinterest.str_eqb a a = true.
Proof. now apply str_eqb_eq. Qed.

Lemma str_eqb_neq (a b : Pinterest.str) : Pinterest.str_eqb a b = false <-> a <> b.
Proof.
  destruct (Pinterest.str_eqb a b) eqn:E.
  - apply str_eqb_eq in E. split; [discriminate | contradiction].
  - split; [|reflexivity]. intros _ H. apply str_eqb_eq in H. congruence.
Qed.

Lemma and_then_inr {A B : Type} (m : Pinterest.result A)
    (k : A -> Pinterest.result B) (b : B) :
  Pinterest.and_then m k = inr b -> exists a, m = inr a /\ k a = inr b.
Proof. destruct m as [e|a]; cbn; [discriminate|]. intros H. now exists a. Qed.

(** *** Items of a dict *)

Lemma lookup_store_same {Float : Type}
    (items : list (Pinterest.str * Pinterest.value Float)) (key : Pinterest.str)
    (v : Pinterest.value Float) :
  Pinterest.lookup (Pinterest.store items key v) key = Some v.
Proof.
  induction items as [|[k x] items IH]; cbn.
  - now rewrite str_eqb_refl.
  - destruct (Pinterest.str_eqb k key) eqn:E; cbn; now rewrite E.
Qed.

Lemma lookup_store_other {Float : Type}
    (items : list (Pinterest.str * Pinterest.value Float))
    (key other : Pinterest.str) (v : Pinterest.value Float) :
  other <> key ->
  Pinterest.lookup (Pinterest.store items key v) other = Pinterest.lookup items other.
Proof.
  intros Hne. induction items as [|[k x] items IH]; cbn.
  - destruct (Pinterest.str_eqb key other) eqn:E; [|reflexivity].
    apply str_eqb_eq in E. congruence.
  - destruct (Pinterest.str_eqb k key) eqn:E; cbn.
    + apply str_eqb_eq in E. subst k.
      destruct (Pinterest.str_eqb key other) eqn:E'; [|reflexivity].
      apply str_eqb_eq in E'. congruence.
    + destruct (Pinterest.str_eqb k other); [reflexivity | exact IH].
Qed.

Lemma store_keys {Float : Type}
    (items : list (Pinterest.str * Pinterest.value Float)) (key : Pinterest.str)
    (v : Pinterest.value Float) :
  map fst (Pinterest.store items key v)
  = match Pinterest.lookup items key with
    | Some _ => map fst items
    | None => (map fst items ++ [key])%list
    end.
Proof.
  induction items as [|[k x] items IH]; cbn; [reflexivity|].
  destruct (Pinterest.str_eqb k key) eqn:E; cbn; [reflexivity|].
  rewrite IH. now destruct (Pinterest.lookup items key).
Qed.

(** *** [request] *)

(** X12: on a [params] dict, [request] fails only over [engine_data]:
    with [KeyError] when the key is missing, with [AttributeError] when
    its value is not a dict.  Otherwise it returns the dict with [url]
    set to a string: every other key keeps its value, the keys keep
    their order, and [url] is appended when it was not there. *)
Theorem request_sets_only_url (Float : Type) (float_json : Float -> Pinterest.str)
    (query : Pinterest.str) (items : list (Pinterest.str * Pinterest.value Float)) :
  match Pinterest.lookup items (Pinterest.u "engine_data") with
  | None =>
      Pinterest.request Float float_json query (Pinterest.VDict items)
      = inl Pinterest.KeyError
  | Some (Pinterest.VDict _) =>
      exists url items',
        Pinterest.request Float float_json query (Pinterest.VDict items)
        = inr (Pinterest.VDict items')
        /\ Pinterest.lookup items' (Pinterest.u "url") = Some (Pinterest.VStr url)
        /\ (forall key, key <> Pinterest.u "url" ->
                        Pinterest.lookup items' key = Pinterest.lookup items key)
        /\ map fst items'
           = match Pinterest.lookup items (Pinterest.u "url") with
             | Some _ => map fst items
             | None => (map fst items ++ [Pinterest.u "url"])%list
             end
  | Some _ =>
      Pinterest.request Float float_json query (Pinterest.VDict items)
      = inl Pinterest.AttributeError
  end.
Proof.
  unfold Pinterest.request. cbn [Pinterest.getitem].
  destruct (Pinterest.lookup items (Pinterest.u "engine_data")) as [engine_data|];
    [|reflexivity].
  cbn [Pinterest.and_then].
  destruct engine_data as [| | | | |l|data]; try reflexivity.
  cbn [Pinterest.get].
  match goal with
  | |- context [Pinterest.and_then ?m _] =>
      assert (Hb : exists bookmark, m = inr bookmark)
        by (destruct (Pinterest.lookup data (Pinterest.u "bookmark"));
            eexists; reflexivity)
  end.
  destruct Hb as [bookmark ->]. cbn [Pinterest.and_then Pinterest.setitem].
  eexists. eexists. split; [reflexivity|].
  split; [apply lookup_store_same|]. split.
  - intros key Hkey. now apply lookup_store_other.
  - apply store_keys.
Qed.

(** *** [json.dumps] writes printable ASCII *)

Lemma all_printable (p : ascii -> bool) (s : string) :
  (forall c, p c = true -> printable (N_of_ascii c) = true) ->
  all p s = true -> forallb printable (Pinterest.u s) = true.
Proof.
  intros Hp. unfold Pinterest.u. induction s as [|c s IH]; cbn; [reflexivity|].
  intros H. apply andb_true_iff in H as [Hc Hs].
  now rewrite (Hp c Hc), (IH Hs).
Qed.

Lemma hex_uint_printable (d : Hexadecimal.uint) :
  forallb printable (Pinterest.u (HexadecimalString.NilEmpty.string_of_uint d)) = true.
Proof.
  unfold Pinterest.u.
  induction d; cbn [HexadecimalString.NilEmpty.string_of_uint list_ascii_of_string
                    map forallb]; try reflexivity;
    rewrite IHd; reflexivity.
Qed.

Lemma hex_printable (n : Z) : forallb printable (Pinterest.u (hex n)) = true.
Proof.
  unfold hex, HexadecimalString.NilZero.string_of_uint.
  destruct (N.to_hex_uint (Z.to_N n)) eqn:E; try reflexivity;
    rewrite <- E; apply hex_uint_printable.
Qed.

Lemma isdigit_printable (c : ascii) :
  isdigit c = true -> printable (N_of_ascii c) = true.
Proof.
  destruct c as [[] [] [] [] [] [] [] []]; vm_compute; congruence.
Qed.

Lemma str_int_printable (n : Z) : forallb printable (Pinterest.u (str_int n)) = true.
Proof.
  destruct (Z_lt_ge_dec n 0) as [Hneg|Hpos].
  - destruct (str_int_minus n Hneg) as (digits & -> & Hd).
    change (Pinterest.u (String "-" digits))
      with (N_of_ascii "-" :: Pinterest.u digits).
    cbn [forallb]. rewrite (all_printable isdigit digits isdigit_printable Hd).
    reflexivity.
  - destruct (str_int_digits n) as (Hd & _); [lia|].
    exact (all_printable isdigit _ isdigit_printable Hd).
Qed.

Lemma forallb_repeat {A : Type} (p : A -> bool) (x : A) (n : nat) :
  p x = true -> forallb p (repeat x n) = true.
Proof. intros Hx. induction n; cbn; [reflexivity | now rewrite Hx]. Qed.

Lemma hex4_printable (n : N) : forallb printable (Pinterest.hex4 n) = true.
Proof.
  unfold Pinterest.hex4. rewrite forallb_app, hex_printable, andb_true_r.
  now apply forallb_repeat.
Qed.

Lemma escape_printable (c : N) : forallb printable (Pinterest.escape c) = true.
Proof.
  unfold Pinterest.escape.
  repeat match goal with
         | |- context [if ?b then _ else _] => destruct b eqn:?
         end;
    cbn [forallb app]; rewrite ?forallb_app, ?hex4_printable; cbn [forallb];
    rewrite ?hex4_printable; try reflexivity.
  unfold printable. now rewrite Heqb1.
Qed.

Lemma encode_printable (s : Pinterest.str) :
  forallb printable (Pinterest.encode_basestring_ascii s) = true.
Proof.
  unfold Pinterest.encode_basestring_ascii. cbn [forallb].
  rewrite forallb_app. cbn [forallb andb].
  replace (forallb printable (flat_map Pinterest.escape s)) with true; [reflexivity|].
  symmetry. induction s as [|c s IH]; cbn [flat_map]; [reflexivity|].
  now rewrite forallb_app, escape_printable, IH.
Qed.

Lemma join_printable (sep : Pinterest.str) (pieces : list Pinterest.str) :
  forallb printable sep = true ->
  Forall (fun piece => forallb printable piece = true) pieces ->
  forallb printable (Pinterest.join sep pieces) = true.
Proof.
  intros Hsep H. induction H as [|p ps Hp Hps IH]; [reflexivity|].
  cbn [Pinterest.join]. destruct ps as [|q ps]; [exact Hp|].
  now rewrite !forallb_app, Hp, Hsep, IH.
Qed.

(** Induction on a value with the values that it holds. *)
Lemma value_nested_ind (Float : Type) (P : Pinterest.value Float -> Prop) :
  P Pinterest.VNone ->
  (forall b, P (Pinterest.VBool b)) ->
  (forall n, P (Pinterest.VInt n)) ->
  (forall x, P (Pinterest.VFloat x)) ->
  (forall s, P (Pinterest.VStr s)) ->
  (forall items, Forall P items -> P (Pinterest.VList items)) ->
  (forall items, Forall (fun kv => P (snd kv)) items -> P (Pinterest.VDict items)) ->
  forall v, P v.
Proof.
  intros HNone HBool HInt HFloat HStr HList HDict.
  fix IH 1. intros [| b | n | x | s | items | items].
  - exact HNone.
  - apply HBool.
  - apply HInt.
  - apply HFloat.
  - apply HStr.
  - apply HList. induction items as [|v items IHitems]; constructor.
    + apply IH.
    + exact IHitems.
  - apply HDict. induction items as [|[k v] items IHitems]; constructor.
    + apply IH.
    + exact IHitems.
Qed.

Lemma dumps_printable (Float : Type) (float_json : Float -> Pinterest.str) :
  (forall x, forallb printable (float_json x) = true) ->
  forall v, forallb printable (Pinterest.dumps Float float_json v) = true.
Proof.
  intros Hfloat v.
  induction v as [| b | n | x | s | items IH | items IH] using value_nested_ind.
  - reflexivity.
  - now destruct b.
  - apply str_int_printable.
  - apply Hfloat.
  - apply encode_printable.
  - cbn [Pinterest.dumps]. destruct items as [|v items]; [reflexivity|].
    rewrite !forallb_app.
    rewrite join_printable; [reflexivity | reflexivity |].
    apply Forall_map. exact IH.
  - cbn [Pinterest.dumps]. destruct items as [|kv items]; [reflexivity|].
    rewrite !forallb_app.
    rewrite join_printable; [reflexivity | reflexivity |].
    apply Forall_map. eapply Forall_impl; [|exact IH].
    cbv beta. intros [k v] Hv. cbn [fst snd] in *.
    now rewrite !forallb_app, encode_printable, Hv.
Qed.

(** X13: when the text that [json.dumps] gives a float is printable ASCII,
    the [url] that [request] stores is printable ASCII, whatever code
    points the query and the bookmark hold. *)
Theorem request_url_is_printable_ascii (Float : Type)
    (float_json : Float -> Pinterest.str) (query : Pinterest.str)
    (params params' : Pinterest.value Float) :
  (forall x, forallb printable (float_json x) = true) ->
  Pinterest.request Float float_json query params = inr params' ->
  exists url,
    Pinterest.getitem params' (Pinterest.u "url") = inr (Pinterest.VStr url)
    /\ forallb printable url = true.
Proof.
  intros Hfloat H. unfold Pinterest.request in H.
  apply and_then_inr in H as (engine_data & _ & H).
  apply and_then_inr in H as (bookmark & _ & H).
  apply and_then_inr in H as (stored & Hs & H).
  injection H as <-.
  destruct params as [| | | | | |items]; try discriminate.
  unfold Pinterest.setitem in Hs.
  assert (Hstored : forall a b : Pinterest.value Float,
             @inr Pinterest.error _ a = inr b -> a = b) by (intros a b E; congruence).
  apply Hstored in Hs. subst stored.
  eexists. split.
  - cbn [Pinterest.getitem]. rewrite lookup_store_same. exact eq_refl.
  - rewrite !forallb_app, (dumps_printable Float float_json Hfloat). reflexivity.
Qed.

Lemma request_url_is_printable_ascii_witness :
  match
    Pinterest.request Empty_set (fun x => match x with end) [233; 10; 128512]%N
      (Pinterest.VDict [(Pinterest.u "engine_data", Pinterest.VDict [])])
  with
  | inr params' =>
      exists url,
        Pinterest.getitem params' (Pinterest.u "url") = inr (Pinterest.VStr url)
        /\ forallb printable url = true
  | inl _ => False
  end.
Proof.
  apply (request_url_is_printable_ascii Empty_set
           (fun x => match x with end) [233; 10; 128512]%N
           (Pinterest.VDict [(Pinterest.u "engine_data", Pinterest.VDict [])])).
  - intros [].
  - reflexivity.
Defined.

(** *** [response] *)

Lemma entries_inr (Float : Type) (float_bool : Float -> bool)
    (float_repr : Float -> Pinterest.str)
    (container_str : Pinterest.value Float -> Pinterest.str)
    (results more : list (Pinterest.value Float)) :
  Pinterest.entries Float float_bool float_repr container_str results = inr more ->
  Forall2
    (fun result entry =>
       Pinterest.result_entry Float float_bool float_repr container_str result
       = inr entry)
    results more.
Proof.
  revert more. induction results as [|r results IH]; intros more H; cbn in H.
  - injection H as <-. constructor.
  - apply and_then_inr in H as (e & He & H).
    apply and_then_inr in H as (es & Hes & H).
    injection H as <-. constructor; [exact He | now apply IH].
Qed.

Lemma entries_first_failure (Float : Type) (float_bool : Float -> bool)
    (float_repr : Float -> Pinterest.str)
    (container_str : Pinterest.value Float -> Pinterest.str)
    (good : list (Pinterest.value Float)) (bad : Pinterest.value Float)
    (rest : list (Pinterest.value Float)) (e : Pinterest.error) :
  Forall
    (fun result =>
       exists entry,
         Pinterest.result_entry Float float_bool float_repr container_str result
         = inr entry)
    good ->
  Pinterest.result_entry Float float_bool float_repr container_str bad = inl e ->
  Pinterest.entries Float float_bool float_repr container_str (good ++ bad :: rest)
  = inl e.
Proof.
  intros Hgood Hbad. induction Hgood as [|r good [entry Hr] _ IH]; cbn.
  - now rewrite Hbad.
  - now rewrite Hr, IH.
Qed.

(** X14: a list that [response] returns starts with the bookmark entry,
    made of [resource_response.bookmark], and goes on with one entry per
    element of [resource_response.data.results], in the same order. *)
Theorem response_one_entry_per_result (Float : Type) (float_bool : Float -> bool)
    (float_repr : Float -> Pinterest.str)
    (container_str : Pinterest.value Float -> Pinterest.str)
    (json_resp : Pinterest.value Float) (results : list (Pinterest.value Float)) :
  Pinterest.response Float float_bool float_repr container_str json_resp
  = inr results ->
  exists bookmark data_results more,
    Pinterest.getpath json_resp
      [Pinterest.u "resource_response"; Pinterest.u "bookmark"] = inr bookmark
    /\ Pinterest.and_then
         (Pinterest.getpath json_resp
            [Pinterest.u "resource_response"; Pinterest.u "data";
             Pinterest.u "results"])
         Pinterest.iterate
       = inr data_results
    /\ results
       = Pinterest.VDict
           [(Pinterest.u "engine_data", bookmark);
            (Pinterest.u "key", Pinterest.VStr (Pinterest.u "bookmark"))]
         :: more
    /\ Forall2
         (fun result entry =>
            Pinterest.result_entry Float float_bool float_repr container_str result
            = inr entry)
         data_results more.
Proof.
  intros H. unfold Pinterest.response in H.
  apply and_then_inr in H as (resource_response & Hrr & H).
  apply and_then_inr in H as (bookmark & Hbookmark & H).
  apply and_then_inr in H as (resource_response' & Hrr' & H).
  apply and_then_inr in H as (data & Hdata & H).
  apply and_then_inr in H as (listed & Hlisted & H).
  apply and_then_inr in H as (data_results & Hiter & H).
  apply and_then_inr in H as (more & Hmore & H).
  injection H as <-.
  assert (resource_response' = resource_response) as -> by congruence.
  exists bookmark, data_results, more. repeat split.
  - cbn [Pinterest.getpath]. rewrite Hrr. cbn [Pinterest.and_then].
    rewrite Hbookmark. reflexivity.
  - cbn [Pinterest.getpath]. rewrite Hrr. cbn [Pinterest.and_then].
    rewrite Hdata. cbn [Pinterest.and_then]. rewrite Hlisted. exact Hiter.
  - now apply entries_inr.
Qed.

Lemma response_one_entry_per_result_witness :
  match
    Pinterest.response Empty_set (fun x => match x with end) no_float (fun _ => [])
      (example_json
         [example_pin Pinterest.VNone []; example_pin (Pinterest.VStr [120%N]) []])
  with
  | inr results =>
      exists bookmark data_results more,
        Pinterest.getpath
          (example_json
             [example_pin Pinterest.VNone [];
              example_pin (Pinterest.VStr [120%N]) []])
          [Pinterest.u "resource_response"; Pinterest.u "bookmark"] = inr bookmark
        /\ Pinterest.and_then
             (Pinterest.getpath
                (example_json
                   [example_pin Pinterest.VNone [];
                    example_pin (Pinterest.VStr [120%N]) []])
                [Pinterest.u "resource_response"; Pinterest.u "data";
                 Pinterest.u "results"])
             Pinterest.iterate
           = inr data_results
        /\ results
           = Pinterest.VDict
               [(Pinterest.u "engine_data", bookmark);
                (Pinterest.u "key", Pinterest.VStr (Pinterest.u "bookmark"))]
             :: more
        /\ Forall2
             (fun result entry =>
                Pinterest.result_entry Empty_set (fun x => match x with end)
                  no_float (fun _ => []) result
                = inr entry)
             data_results more
  | inl _ => False
  end.
Proof.
  apply (response_one_entry_per_result Empty_set (fun x => match x with end)
           no_float (fun _ => [])
           (example_json
              [example_pin Pinterest.VNone [];
               example_pin (Pinterest.VStr [120%N]) []])).
  reflexivity.
Defined.

(** X15: [response] returns nothing when one result cannot be turned into
    an entry: it raises what the first such result raises, however many
    results before it were fine. *)
Theorem response_raises_with_its_first_bad_result (Float : Type)
    (float_bool : Float -> bool) (float_repr : Float -> Pinterest.str)
    (container_str : Pinterest.value Float -> Pinterest.str)
    (json_resp bookmark bad : Pinterest.value Float)
    (good rest : list (Pinterest.value Float)) (e : Pinterest.error) :
  Pinterest.getpath json_resp
    [Pinterest.u "resource_response"; Pinterest.u "bookmark"] = inr bookmark ->
  Pinterest.and_then
    (Pinterest.getpath json_resp
       [Pinterest.u "resource_response"; Pinterest.u "data"; Pinterest.u "results"])
    Pinterest.iterate
  = inr (good ++ bad :: rest)%list ->
  Forall
    (fun result =>
       exists entry,
         Pinterest.result_entry Float float_bool float_repr container_str result
         = inr entry)
    good ->
  Pinterest.result_entry Float float_bool float_repr container_str bad = inl e ->
  Pinterest.response Float float_bool float_repr container_str json_resp = inl e.
Proof.
  intros Hbookmark Hlisted Hgood Hbad.
  cbn [Pinterest.getpath] in Hbookmark, Hlisted.
  apply and_then_inr in Hbookmark as (resource_response & Hrr & Hbookmark).
  apply and_then_inr in Hbookmark as (bookmark' & Hbookmark & Hb).
  apply and_then_inr in Hlisted as (listed & Hlisted & Hiter).
  apply and_then_inr in Hlisted as (resource_response' & Hrr' & Hlisted).
  apply and_then_inr in Hlisted as (data & Hdata & Hlisted).
  apply and_then_inr in Hlisted as (listed' & Hlisted & Hl).
  assert (resource_response' = resource_response) as -> by congruence.
  assert (listed' = listed) as -> by congruence.
  unfold Pinterest.response.
  rewrite Hrr. cbn [Pinterest.and_then]. rewrite Hbookmark. cbn [Pinterest.and_then].
  rewrite Hdata. cbn [Pinterest.and_then]. rewrite Hlisted. cbn [Pinterest.and_then].
  rewrite Hiter. cbn [Pinterest.and_then].
  now rewrite (entries_first_failure Float float_bool float_repr container_str
                 good bad rest e Hgood Hbad).
Qed.

Lemma response_raises_with_its_first_bad_result_witness :
  Pinterest.response Empty_set (fun x => match x with end) no_float (fun _ => [])
    (example_json
       [example_pin Pinterest.VNone []; Pinterest.VDict [];
        example_pin Pinterest.VNone []])
  = inl Pinterest.KeyError.
Proof.
  apply (response_raises_with_its_first_bad_result Empty_set
           (fun x => match x with end) no_float (fun _ => [])
           (example_json
              [example_pin Pinterest.VNone []; Pinterest.VDict [];
               example_pin Pinterest.VNone []])
           (Pinterest.VStr (Pinterest.u "abc")) (Pinterest.VDict [])
           [example_pin Pinterest.VNone []] [example_pin Pinterest.VNone []]).
  - reflexivity.
  - reflexivity.
  - constructor; [|constructor]. eexists. reflexivity.
  - reflexivity.
Defined.

(** *** The entry of one result *)

(** What a returned entry is made of. *)
Lemma result_entry_inr (Float : Type) (float_bool : Float -> bool)
    (float_repr : Float -> Pinterest.str)
    (container_str : Pinterest.value Float -> Pinterest.str)
    (result entry : Pinterest.value Float) :
  Pinterest.result_entry Float float_bool float_repr container_str result
  = inr entry ->
  exists link url title rich_summary description content img_src thumbnail_src source,
    Pinterest.getitem result (Pinterest.u "link") = inr link
    /\ Pinterest.or_else Float float_bool link
         (Pinterest.and_then (Pinterest.getitem result (Pinterest.u "id"))
            (fun id =>
               inr (Pinterest.VStr
                      (Pinterest.base_url ++ Pinterest.u "/pin/"
                       ++ Pinterest.str_of Float float_repr container_str id
                       ++ Pinterest.u "/")%list)))
       = inr url
    /\ Pinterest.and_then
         (Pinterest.get result (Pinterest.u "rich_summary") Pinterest.VNone)
         (fun found => Pinterest.or_else Float float_bool found
                         (inr (Pinterest.VDict [])))
       = inr rich_summary
    /\ Pinterest.get rich_summary (Pinterest.u "display_description") Pinterest.VNone
       = inr description
    /\ Pinterest.or_else Float float_bool description (inr (Pinterest.VStr []))
       = inr content
    /\ Pinterest.get rich_summary (Pinterest.u "site_name") Pinterest.VNone
       = inr source
    /\ entry
       = Pinterest.VDict
           [(Pinterest.u "template", Pinterest.VStr (Pinterest.u "images.html"));
            (Pinterest.u "url", url);
            (Pinterest.u "title", title);
            (Pinterest.u "content", content);
            (Pinterest.u "img_src", img_src);
            (Pinterest.u "thumbnail_src", thumbnail_src);
            (Pinterest.u "source", source)].
Proof.
  intros H. unfold Pinterest.result_entry in H.
  apply and_then_inr in H as (link & Hlink & H).
  apply and_then_inr in H as (url & Hurl & H).
  apply and_then_inr in H as (title0 & Htitle0 & H).
  apply and_then_inr in H as (title & Htitle & H).
  apply and_then_inr in H as (found & Hfound & H).
  apply and_then_inr in H as (rich_summary & Hrich & H).
  apply and_then_inr in H as (description & Hdescription & H).
  apply and_then_inr in H as (content & Hcontent & H).
  apply and_then_inr in H as (images & Himages & H).
  apply and_then_inr in H as (orig & Horig & H).
  apply and_then_inr in H as (img_src & Himg & H).
  apply and_then_inr in H as (images' & Himages' & H).
  apply and_then_inr in H as (small & Hsmall & H).
  apply and_then_inr in H as (thumbnail_src & Hthumbnail & H).
  apply and_then_inr in H as (found' & Hfound' & H).
  apply and_then_inr in H as (rich_summary' & Hrich' & H).
  apply and_then_inr in H as (source & Hsource & H).
  assert (found' = found) as -> by congruence.
  assert (rich_summary' = rich_summary) as -> by congruence.
  assert (Hentry : forall a b : Pinterest.value Float,
             @inr Pinterest.error _ a = inr b -> b = a) by (intros a b E; congruence).
  apply Hentry in H.
  exists link, url, title, rich_summary, description, content, img_src,
    thumbnail_src, source.
  repeat split; try assumption.
  rewrite Hfound. exact Hrich.
Qed.

(** X16: the [url] of an entry is never false: it is the [link] of the
    result when that is true, and otherwise the base URL followed by
    [/pin/], the [id] of the result as [str] gives it, and [/]. *)
Theorem entry_url_is_true (Float : Type) (float_bool : Float -> bool)
    (float_repr : Float -> Pinterest.str)
    (container_str : Pinterest.value Float -> Pinterest.str)
    (result entry : Pinterest.value Float) :
  Pinterest.result_entry Float float_bool float_repr container_str result
  = inr entry ->
  exists link url,
    Pinterest.getitem result (Pinterest.u "link") = inr link
    /\ Pinterest.getitem entry (Pinterest.u "url") = inr url
    /\ Pinterest.truth Float float_bool url = true
    /\ (Pinterest.truth Float float_bool link = true -> url = link)
    /\ (Pinterest.truth Float float_bool link = false ->
        exists id,
          Pinterest.getitem result (Pinterest.u "id") = inr id
          /\ url
             = Pinterest.VStr
                 (Pinterest.base_url ++ Pinterest.u "/pin/"
                  ++ Pinterest.str_of Float float_repr container_str id
                  ++ Pinterest.u "/")%list).
Proof.
  intros H.
  apply result_entry_inr in H
    as (link & url & title & rich_summary & description & content & img_src
        & thumbnail_src & source & Hlink & Hurl & _ & _ & _ & _ & ->).
  exists link, url. split; [exact Hlink|]. split; [reflexivity|].
  unfold Pinterest.or_else in Hurl.
  destruct (Pinterest.truth Float float_bool link) eqn:Htruth.
  - injection Hurl as <-.
    split; [exact Htruth|]. split; [reflexivity | discriminate].
  - apply and_then_inr in Hurl as (id & Hid & Hurl).
    assert (Hu : forall a b : Pinterest.value Float,
               @inr Pinterest.error _ a = inr b -> b = a) by (intros a b E; congruence).
    apply Hu in Hurl. subst url.
    split; [reflexivity|]. split; [discriminate|].
    intros _. now exists id.
Qed.

Lemma entry_url_is_true_witness :
  match
    Pinterest.result_entry Empty_set (fun x => match x with end) no_float
      (fun _ => []) (example_pin Pinterest.VNone [])
  with
  | inr entry =>
      exists link url,
        Pinterest.getitem (example_pin Pinterest.VNone []) (Pinterest.u "link")
        = inr link
        /\ Pinterest.getitem entry (Pinterest.u "url") = inr url
        /\ Pinterest.truth Empty_set (fun x => match x with end) url = true
        /\ (Pinterest.truth Empty_set (fun x => match x with end) link = true ->
            url = link)
        /\ (Pinterest.truth Empty_set (fun x => match x with end) link = false ->
            exists id,
              Pinterest.getitem (example_pin Pinterest.VNone []) (Pinterest.u "id")
              = inr id
              /\ url
                 = Pinterest.VStr
                     (Pinterest.base_url ++ Pinterest.u "/pin/"
                      ++ Pinterest.str_of Empty_set no_float (fun _ => []) id
                      ++ Pinterest.u "/")%list)
  | inl _ => False
  end.
Proof.
  apply (entry_url_is_true Empty_set (fun x => match x with end) no_float
           (fun _ => []) (example_pin Pinterest.VNone [])).
  reflexivity.
Defined.

Lemma key_neq (a b : string) :
  Pinterest.str_eqb (Pinterest.u a) (Pinterest.u b) = false ->
  Pinterest.u a <> Pinterest.u b.
Proof. intros H. now apply str_eqb_neq. Qed.

(** X17: the [id] of a result is read only when its [link] is false.  With
    a true [link], setting [id] to any value, or adding it, changes
    nothing; with a false [link] and no [id], the result raises
    [KeyError]. *)
Theorem id_is_read_only_without_link (Float : Type) (float_bool : Float -> bool)
    (float_repr : Float -> Pinterest.str)
    (container_str : Pinterest.value Float -> Pinterest.str)
    (items : list (Pinterest.str * Pinterest.value Float))
    (link : Pinterest.value Float) :
  Pinterest.lookup items (Pinterest.u "link") = Some link ->
  (Pinterest.truth Float float_bool link = true ->
   forall x,
     Pinterest.result_entry Float float_bool float_repr container_str
       (Pinterest.VDict (Pinterest.store items (Pinterest.u "id") x))
     = Pinterest.result_entry Float float_bool float_repr container_str
         (Pinterest.VDict items))
  /\ (Pinterest.truth Float float_bool link = false ->
      Pinterest.lookup items (Pinterest.u "id") = None ->
      Pinterest.result_entry Float float_bool float_repr container_str
        (Pinterest.VDict items)
      = inl Pinterest.KeyError).
Proof.
  intros Hlink. split.
  - intros Htruth x. unfold Pinterest.result_entry.
    cbn [Pinterest.getitem Pinterest.get].
    rewrite (lookup_store_other items (Pinterest.u "id") (Pinterest.u "link"))
      by (apply key_neq; reflexivity).
    rewrite Hlink. cbn [Pinterest.and_then]. unfold Pinterest.or_else at 1 6.
    rewrite Htruth. cbn [Pinterest.and_then].
    rewrite !(lookup_store_other items (Pinterest.u "id"))
      by (apply key_neq; reflexivity).
    reflexivity.
  - intros Htruth Hid. unfold Pinterest.result_entry.
    cbn [Pinterest.getitem]. rewrite Hlink. cbn [Pinterest.and_then].
    unfold Pinterest.or_else at 1. rewrite Htruth, Hid. reflexivity.
Qed.

Lemma id_is_read_only_without_link_witness :
  (forall x,
      Pinterest.result_entry Empty_set (fun x => match x with end) no_float
        (fun _ => [])
        (Pinterest.VDict
           (Pinterest.store [(Pinterest.u "link", Pinterest.VStr [120%N])]
              (Pinterest.u "id") x))
      = Pinterest.result_entry Empty_set (fun x => match x with end) no_float
          (fun _ => [])
          (Pinterest.VDict [(Pinterest.u "link", Pinterest.VStr [120%N])]))
  /\ Pinterest.result_entry Empty_set (fun x => match x with end) no_float
       (fun _ => [])
       (Pinterest.VDict [(Pinterest.u "link", Pinterest.VStr [])])
     = inl Pinterest.KeyError.
Proof.
  split.
  - intros x.
    apply (proj1 (id_is_read_only_without_link Empty_set
                    (fun x => match x with end) no_float (fun _ => [])
                    [(Pinterest.u "link", Pinterest.VStr [120%N])]
                    (Pinterest.VStr [120%N]) eq_refl) eq_refl x).
  - apply (proj2 (id_is_read_only_without_link Empty_set
                    (fun x => match x with end) no_float (fun _ => [])
                    [(Pinterest.u "link", Pinterest.VStr [])]
                    (Pinterest.VStr []) eq_refl) eq_refl eq_refl).
Defined.

(** X18: the [content] of an entry is never [None] nor any other false
    value but the empty string: it is a true [display_description] of the
    summary, or the empty string. *)
Theorem entry_content_is_true_or_empty (Float : Type) (float_bool : Float -> bool)
    (float_repr : Float -> Pinterest.str)
    (container_str : Pinterest.value Float -> Pinterest.str)
    (result entry : Pinterest.value Float) :
  Pinterest.result_entry Float float_bool float_repr container_str result
  = inr entry ->
  exists content,
    Pinterest.getitem entry (Pinterest.u "content") = inr content
    /\ (Pinterest.truth Float float_bool content = true
        \/ content = Pinterest.VStr []).
Proof.
  intros H.
  apply result_entry_inr in H
    as (link & url & title & rich_summary & description & content & img_src
        & thumbnail_src & source & _ & _ & _ & _ & Hcontent & _ & ->).
  exists content. split; [reflexivity|].
  unfold Pinterest.or_else in Hcontent.
  destruct (Pinterest.truth Float float_bool description) eqn:Htruth.
  - injection Hcontent as <-. now left.
  - injection Hcontent as <-. now right.
Qed.

Lemma entry_content_is_true_or_empty_witness :
  match
    Pinterest.result_entry Empty_set (fun x => match x with end) no_float
      (fun _ => [])
      (example_pin Pinterest.VNone
         [(Pinterest.u "rich_summary",
           Pinterest.VDict
             [(Pinterest.u "display_description", Pinterest.VInt 0)])])
  with
  | inr entry =>
      exists content,
        Pinterest.getitem entry (Pinterest.u "content") = inr content
        /\ (Pinterest.truth Empty_set (fun x => match x with end) content = true
            \/ content = Pinterest.VStr [])
  | inl _ => False
  end.
Proof.
  apply (entry_content_is_true_or_empty Empty_set (fun x => match x with end)
           no_float (fun _ => [])
           (example_pin Pinterest.VNone
              [(Pinterest.u "rich_summary",
                Pinterest.VDict
                  [(Pinterest.u "display_description", Pinterest.VInt 0)])])).
  reflexivity.
Defined.

(** X19: a result without [rich_summary], or with a false one such as
    [null], gives an entry with the empty string as [content] and [None]
    as [source]. *)
Theorem entry_without_rich_summary (Float : Type) (float_bool : Float -> bool)
    (float_repr : Float -> Pinterest.str)
    (container_str : Pinterest.value Float -> Pinterest.str)
    (items : list (Pinterest.str * Pinterest.value Float))
    (entry : Pinterest.value Float) :
  match Pinterest.lookup items (Pinterest.u "rich_summary") with
  | Some found => Pinterest.truth Float float_bool found = false
  | None => True
  end ->
  Pinterest.result_entry Float float_bool float_repr container_str
    (Pinterest.VDict items)
  = inr entry ->
  Pinterest.getitem entry (Pinterest.u "content") = inr (Pinterest.VStr [])
  /\ Pinterest.getitem entry (Pinterest.u "source") = inr Pinterest.VNone.
Proof.
  intros Hfalse H.
  apply result_entry_inr in H
    as (link & url & title & rich_summary & description & content & img_src
        & thumbnail_src & source & _ & _ & Hrich & Hdescription & Hcontent
        & Hsource & ->).
  assert (rich_summary = Pinterest.VDict []) as ->.
  { cbn [Pinterest.get] in Hrich. unfold Pinterest.or_else in Hrich.
    destruct (Pinterest.lookup items (Pinterest.u "rich_summary")) as [found|];
      cbn [Pinterest.and_then] in Hrich.
    - rewrite Hfalse in Hrich. congruence.
    - cbn in Hrich. congruence. }
  cbn in Hdescription, Hsource.
  injection Hdescription as <-. injection Hsource as <-.
  cbn in Hcontent. injection Hcontent as <-.
  split; reflexivity.
Qed.

Lemma entry_without_rich_summary_witness :
  match
    Pinterest.result_entry Empty_set (fun x => match x with end) no_float
      (fun _ => [])
      (example_pin Pinterest.VNone [(Pinterest.u "rich_summary", Pinterest.VNone)])
  with
  | inr entry =>
      Pinterest.getitem entry (Pinterest.u "content") = inr (Pinterest.VStr [])
      /\ Pinterest.getitem entry (Pinterest.u "source") = inr Pinterest.VNone
  | inl _ => False
  end.
Proof.
  apply (entry_without_rich_summary Empty_set (fun x => match x with end)
           no_float (fun _ => [])
           ([(Pinterest.u "link", Pinterest.VNone);
             (Pinterest.u "id", Pinterest.VInt 42);
             (Pinterest.u "images",
              Pinterest.VDict
                [(Pinterest.u "orig",
                  Pinterest.VDict
                    [(Pinterest.u "url", Pinterest.VStr (Pinterest.u "o.jpg"))]);
                 (Pinterest.u "236x",
                  Pinterest.VDict
                    [(Pinterest.u "url", Pinterest.VStr (Pinterest.u "s.jpg"))])])]
            ++ [(Pinterest.u "rich_summary", Pinterest.VNone)])%list).
  - reflexivity.
  - reflexivity.
Defined.

(** X20: a result whose [rich_summary] is true and not a dict, a string
    for one, is never turned into an entry. *)
Theorem rich_summary_must_be_a_dict (Float : Type) (float_bool : Float -> bool)
    (float_repr : Float -> Pinterest.str)
    (container_str : Pinterest.value Float -> Pinterest.str)
    (items : list (Pinterest.str * Pinterest.value Float))
    (found : Pinterest.value Float) :
  Pinterest.lookup items (Pinterest.u "rich_summary") = Some found ->
  Pinterest.truth Float float_bool found = true ->
  (forall fields, found <> Pinterest.VDict fields) ->
  exists e,
    Pinterest.result_entry Float float_bool float_repr container_str
      (Pinterest.VDict items)
    = inl e.
Proof.
  intros Hfound Htruth Hdict.
  destruct (Pinterest.result_entry Float float_bool float_repr container_str
              (Pinterest.VDict items)) as [e|entry] eqn:H; [now exists e|].
  exfalso.
  apply result_entry_inr in H
    as (link & url & title & rich_summary & description & content & img_src
        & thumbnail_src & source & _ & _ & Hrich & Hdescription & _).
  cbn [Pinterest.get] in Hrich. rewrite Hfound in Hrich.
  cbn [Pinterest.and_then] in Hrich. unfold Pinterest.or_else in Hrich.
  rewrite Htruth in Hrich. injection Hrich as <-.
  destruct found; try discriminate. now apply (Hdict items0).
Qed.

Lemma rich_summary_must_be_a_dict_witness :
  exists e,
    Pinterest.result_entry Empty_set (fun x => match x with end) no_float
      (fun _ => [])
      (Pinterest.VDict
         [(Pinterest.u "link", Pinterest.VStr [120%N]);
          (Pinterest.u "rich_summary", Pinterest.VStr [120%N])])
    = inl e.
Proof.
  apply (rich_summary_must_be_a_dict Empty_set (fun x => match x with end)
           no_float (fun _ => [])
           [(Pinterest.u "link", Pinterest.VStr [120%N]);
            (Pinterest.u "rich_summary", Pinterest.VStr [120%N])]
           (Pinterest.VStr [120%N])).
  - reflexivity.
  - reflexivity.
  - discriminate.
Defined.

(** *** The query can be read off the URL *)

Lemma hex4_table (n : Z) : 0 <= n < 65536 -> hex4_ok n = true.
Proof. apply (all_range_sound 16 hex4_ok 0). vm_compute. reflexivity. Qed.

Lemma hex4_digits (n : N) :
  (n < 65536)%N ->
  exists a b c d, Pinterest.hex4 n = [a; b; c; d] /\ hex4_value a b c d = n.
Proof.
  intros Hn. pose proof (hex4_table (Z.of_N n)) as H.
  unfold hex4_ok in H. rewrite N2Z.id in H.
  destruct (Pinterest.hex4 n) as [|a [|b [|c [|d [|e l]]]]];
    try (discriminate H; lia).
  exists a, b, c, d. split; [reflexivity|].
  apply N.eqb_eq. apply H. lia.
Qed.

Lemma lor_high_surrogate (x : N) : (x < 1024)%N -> N.lor 55296 x = (55296 + x)%N.
Proof.
  intros Hx.
  assert (H : all_range 10 (fun z => (N.lor 55296 (Z.to_N z) =? 55296 + Z.to_N z)%N) 0
              = true) by (vm_compute; reflexivity).
  pose proof (all_range_sound 10 _ 0 H (Z.of_N x)) as E. cbv beta in E.
  rewrite N2Z.id in E. apply N.eqb_eq, E. change (2 ^ Z.of_nat 10) with 1024. lia.
Qed.

Lemma lor_low_surrogate (x : N) : (x < 1024)%N -> N.lor 56320 x = (56320 + x)%N.
Proof.
  intros Hx.
  assert (H : all_range 10 (fun z => (N.lor 56320 (Z.to_N z) =? 56320 + Z.to_N z)%N) 0
              = true) by (vm_compute; reflexivity).
  pose proof (all_range_sound 10 _ 0 H (Z.of_N x)) as E. cbv beta in E.
  rewrite N2Z.id in E. apply N.eqb_eq, E. change (2 ^ Z.of_nat 10) with 1024. lia.
Qed.

Lemma surrogate_pair (n : N) :
  (n < 1048576)%N ->
  let s1 := N.lor 55296 (N.land (N.shiftr n 10) 1023) in
  let s2 := N.lor 56320 (N.land n 1023) in
  (55296 <= s1 < 56320 /\ 56320 <= s2 < 57344
   /\ (s1 - 55296) * 1024 + (s2 - 56320) = n)%N.
Proof.
  intros Hn s1 s2. subst s1 s2.
  change 1023%N with (N.ones 10). rewrite !N.land_ones, N.shiftr_div_pow2.
  change (2 ^ 10)%N with 1024%N.
  assert (Hq : (n / 1024 < 1024)%N) by (apply N.Div0.div_lt_upper_bound; lia).
  assert (Hr : (n mod 1024 < 1024)%N) by (apply N.mod_lt; discriminate).
  rewrite (N.mod_small (n / 1024) 1024) by exact Hq.
  rewrite lor_high_surrogate, lor_low_surrogate by assumption.
  assert (H : n = (1024 * (n / 1024) + n mod 1024)%N)
    by (apply N.div_mod; discriminate).
  revert Hq Hr H. generalize (n / 1024)%N (n mod 1024)%N. intros q r Hq Hr H. lia.
Qed.

(** One escaped character reads back, whatever follows it. *)
Lemma unescape_escape (c : N) (rest : Pinterest.str) :
  scalar c = true -> unescape (Pinterest.escape c ++ rest)%list = Some (c, rest).
Proof.
  intros Hc. unfold Pinterest.escape.
  destruct (c =? 92)%N eqn:E92; [apply N.eqb_eq in E92; subst; reflexivity|].
  destruct (c =? 34)%N eqn:E34; [apply N.eqb_eq in E34; subst; reflexivity|].
  destruct ((32 <=? c) && (c <=? 126))%N eqn:Eprint.
  { cbn [app unescape]. now rewrite E92. }
  destruct (c =? 8)%N eqn:E8; [apply N.eqb_eq in E8; subst; reflexivity|].
  destruct (c =? 12)%N eqn:E12; [apply N.eqb_eq in E12; subst; reflexivity|].
  destruct (c =? 10)%N eqn:E10; [apply N.eqb_eq in E10; subst; reflexivity|].
  destruct (c =? 13)%N eqn:E13; [apply N.eqb_eq in E13; subst; reflexivity|].
  destruct (c =? 9)%N eqn:E9; [apply N.eqb_eq in E9; subst; reflexivity|].
  unfold scalar in Hc.
  destruct (c <? 65536)%N eqn:Ebmp.
  - apply N.ltb_lt in Ebmp.
    destruct (hex4_digits c Ebmp) as (a & b & c' & d & -> & Hv).
    cbn [app unescape]. change (negb (92 =? 92)%N) with false.
    change (117 =? 117)%N with true. cbv iota zeta. rewrite Hv.
    replace ((55296 <=? c) && (c <? 56320))%N with false; [reflexivity|].
    symmetry. apply andb_false_iff.
    destruct (c <? 55296)%N eqn:Elow.
    + left. apply N.leb_gt. now apply N.ltb_lt.
    + right. apply N.ltb_ge. cbn [orb] in Hc. apply andb_true_iff in Hc as [Hc _].
      apply N.leb_le in Hc. lia.
  - apply N.ltb_ge in Ebmp. cbv zeta.
    assert (Hn : (c - 65536 < 1048576)%N).
    { destruct (c <? 55296)%N eqn:Elow; [apply N.ltb_lt in Elow; lia|].
      cbn [orb] in Hc. apply andb_true_iff in Hc as [_ Hc].
      apply N.ltb_lt in Hc. lia. }
    destruct (surrogate_pair (c - 65536) Hn) as (Hs1 & Hs2 & Hsum).
    cbv zeta in Hs1, Hs2, Hsum.
    set (s1 := N.lor 55296 (N.land (N.shiftr (c - 65536) 10) 1023)) in *.
    set (s2 := N.lor 56320 (N.land (c - 65536) 1023)) in *.
    destruct (hex4_digits s1 ltac:(lia)) as (a & b & c1 & d & -> & Hv1).
    destruct (hex4_digits s2 ltac:(lia)) as (a' & b' & c2 & d' & -> & Hv2).
    cbn [app unescape]. change (negb (92 =? 92)%N) with false.
    change (117 =? 117)%N with true. cbv iota zeta. rewrite Hv1, Hv2.
    replace ((55296 <=? s1) && (s1 <? 56320))%N with true.
    + f_equal. f_equal. lia.
    + symmetry. apply andb_true_iff. split; [apply N.leb_le | apply N.ltb_lt]; lia.
Qed.

(** An escaped character never starts with the closing quote. *)
Lemma escape_head (c : N) :
  exists x tail, Pinterest.escape c = x :: tail /\ x <> 34%N.
Proof.
  unfold Pinterest.escape.
  destruct (c =? 92)%N; [eexists; eexists; split; [reflexivity | discriminate]|].
  destruct (c =? 34)%N eqn:E34; [eexists; eexists; split; [reflexivity | discriminate]|].
  destruct ((32 <=? c) && (c <=? 126))%N.
  { eexists; eexists; split; [reflexivity|]. now apply N.eqb_neq. }
  repeat match goal with
         | |- context [if ?b then _ else _] => destruct b
         end;
    eexists; eexists; (split; [reflexivity | discriminate]).
Qed.

Lemma escaped_injective (s1 s2 : Pinterest.str) (tail1 tail2 : Pinterest.str) :
  forallb scalar s1 = true -> forallb scalar s2 = true ->
  (flat_map Pinterest.escape s1 ++ 34%N :: tail1
   = flat_map Pinterest.escape s2 ++ 34%N :: tail2)%list ->
  s1 = s2.
Proof.
  revert s2. induction s1 as [|c1 s1 IH]; intros [|c2 s2] H1 H2 H.
  - reflexivity.
  - exfalso. cbn [flat_map app] in H.
    destruct (escape_head c2) as (x & t & E & Hx). rewrite E in H.
    cbn [app] in H. congruence.
  - exfalso. cbn [flat_map app] in H.
    destruct (escape_head c1) as (x & t & E & Hx). rewrite E in H.
    cbn [app] in H. congruence.
  - cbn [forallb] in H1, H2.
    apply andb_true_iff in H1 as [Hc1 H1]. apply andb_true_iff in H2 as [Hc2 H2].
    cbn [flat_map] in H. rewrite <- !app_assoc in H.
    apply (f_equal unescape) in H.
    rewrite !unescape_escape in H by assumption.
    injection H as -> H. f_equal. now apply IH.
Qed.

Lemma encode_injective (s1 s2 : Pinterest.str) (tail1 tail2 : Pinterest.str) :
  forallb scalar s1 = true -> forallb scalar s2 = true ->
  (Pinterest.encode_basestring_ascii s1 ++ tail1
   = Pinterest.encode_basestring_ascii s2 ++ tail2)%list ->
  s1 = s2.
Proof.
  intros H1 H2 H. unfold Pinterest.encode_basestring_ascii in H.
  cbn [app] in H. injection H as H. rewrite <- !app_assoc in H.
  cbn [app] in H. now apply (escaped_injective s1 s2 tail1 tail2).
Qed.

(** X21: two queries without surrogate code points that give the same
    [url] on the same [params] are the same query: the escaping in
    [json.dumps] loses nothing of it. *)
Theorem request_url_tells_the_query (Float : Type)
    (float_json : Float -> Pinterest.str) (query1 query2 : Pinterest.str)
    (params params1 params2 : Pinterest.value Float) :
  forallb scalar query1 = true ->
  forallb scalar query2 = true ->
  Pinterest.request Float float_json query1 params = inr params1 ->
  Pinterest.request Float float_json query2 params = inr params2 ->
  Pinterest.getitem params1 (Pinterest.u "url")
  = Pinterest.getitem params2 (Pinterest.u "url") ->
  query1 = query2.
Proof.
  intros Hq1 Hq2 H1 H2 Hurl. unfold Pinterest.request in H1, H2.
  apply and_then_inr in H1 as (engine_data & Hed & H1).
  apply and_then_inr in H2 as (engine_data' & Hed' & H2).
  assert (engine_data' = engine_data) as -> by congruence.
  apply and_then_inr in H1 as (bookmark & Hb & H1).
  apply and_then_inr in H2 as (bookmark' & Hb' & H2).
  assert (bookmark' = bookmark) as -> by congruence.
  apply and_then_inr in H1 as (stored1 & Hs1 & H1).
  apply and_then_inr in H2 as (stored2 & Hs2 & H2).
  assert (Hinr : forall a b : Pinterest.value Float,
             @inr Pinterest.error _ a = inr b -> b = a) by (intros a b E; congruence).
  apply Hinr in H1, H2. subst params1 params2.
  destruct params as [| | | | | |items]; try discriminate.
  unfold Pinterest.setitem in Hs1, Hs2. apply Hinr in Hs1, Hs2. subst stored1 stored2.
  cbn [Pinterest.getitem] in Hurl. rewrite !lookup_store_same in Hurl.
  assert (Hstr : forall a b : Pinterest.str,
             @inr Pinterest.error _ (@Pinterest.VStr Float a) = inr (Pinterest.VStr b)
             -> a = b) by (intros a b E; congruence).
  apply Hstr in Hurl.
  apply app_inv_head in Hurl. apply app_inv_head in Hurl.
  cbn [Pinterest.dumps map Pinterest.join fst snd] in Hurl.
  rewrite <- !app_assoc in Hurl.
  repeat apply app_inv_head in Hurl.
  now apply encode_injective in Hurl.
Qed.

Lemma request_url_tells_the_query_witness :
  [233; 128512]%N = [233; 128512]%N.
Proof.
  apply (request_url_tells_the_query Empty_set (fun x => match x with end)
           [233; 128512]%N [233; 128512]%N
           (Pinterest.VDict [(Pinterest.u "engine_data", Pinterest.VDict [])])
           (Pinterest.VDict
              (Pinterest.store [(Pinterest.u "engine_data", Pinterest.VDict [])]
                 (Pinterest.u "url")
                 (Pinterest.VStr
                    (Pinterest.base_url
                     ++ Pinterest.u "/resource/BaseSearchResource/get/?data="
                     ++ Pinterest.dumps Empty_set (fun x => match x with end)
                          (Pinterest.VDict
                             [(Pinterest.u "options",
                               Pinterest.VDict
                                 [(Pinterest.u "query",
                                   Pinterest.VStr [233; 128512]%N);
                                  (Pinterest.u "bookmarks",
                                   Pinterest.VList [Pinterest.VStr []])]);
                              (Pinterest.u "context", Pinterest.VDict [])]))%list)))
           (Pinterest.VDict
              (Pinterest.store [(Pinterest.u "engine_data", Pinterest.VDict [])]
                 (Pinterest.u "url")
                 (Pinterest.VStr
                    (Pinterest.base_url
                     ++ Pinterest.u "/resource/BaseSearchResource/get/?data="
                     ++ Pinterest.dumps Empty_set (fun x => match x with end)
                          (Pinterest.VDict
                             [(Pinterest.u "options",
                               Pinterest.VDict
                                 [(Pinterest.u "query",
                                   Pinterest.VStr [233; 128512]%N);
                                  (Pinterest.u "bookmarks",
                                   Pinterest.VList [Pinterest.VStr []])]);
                              (Pinterest.u "context", Pinterest.VDict [])]))%list))));
    reflexivity.
Defined.
